(** * B-em floppy subsystem: image backend (sdf.c), drive dispatch (disc.c)
      and WD1770 controller (wd1770.c)

    A shallow embedding of the three C files.  Every C global becomes a field
    of one [world] record that is threaded through the functions; fixed-width
    integers are [Z] with the wrap-around written out; the [NUM_DRIVES]-sized
    arrays are lists read with stdpp's lookup and written with its insert.
    Calls through the [fdc_*] pointers and the [disc_*] entry points are
    recorded in a [trace], so that statements can speak about which callbacks
    fired and which dispatch calls were issued. *)

From Stdlib Require Import ZArith List String Bool Lia.
From stdpp Require Import base option list.
Import ListNotations.

Local Open Scope Z_scope.

(** ** Machine integers *)

Definition u8 (x : Z) : Z := x mod 256.
Definition u16 (x : Z) : Z := x mod 65536.
Definition u32 (x : Z) : Z := x mod 4294967296.

(** [int]: 32 bits, two's complement.  C leaves signed overflow undefined;
    the value is wrapped around, as the compiled code does. *)
Definition s32 (x : Z) : Z := (x + 2147483648) mod 4294967296 - 2147483648.

(** C truth value of an integer. *)
Definition truthy (x : Z) : bool := negb (x =? 0).

(** ** Arrays

    [a[i]] on a C array.  An index outside the array is undefined behaviour in
    C; the model reads it as [None] and ignores a write to it. *)

Definition aget {A : Type} (l : list A) (i : Z) : option A :=
  if i <? 0 then None else l !! Z.to_nat i.

Definition aset {A : Type} (l : list A) (i : Z) (x : A) : list A :=
  if i <? 0 then l else <[Z.to_nat i := x]> l.

(** ** sdf.c: geometry catalogue *)

Inductive sides_t : Type :=
  SIDES_NA | SIDES_SINGLE | SIDES_SEQUENTIAL | SIDES_INTERLEAVED.

Inductive density_t : Type :=
  DENS_NA | DENS_SINGLE | DENS_DOUBLE | DENS_QUAD.

Record geometry_t : Type := mkGeometry {
  name : string;
  sides : sides_t;
  density : density_t;
  size_in_sectors : Z;
  tracks : Z;
  sectors_per_track : Z;
  sector_size : Z
}.

Definition sides_eqb (a b : sides_t) : bool :=
  match a, b with
  | SIDES_NA, SIDES_NA | SIDES_SINGLE, SIDES_SINGLE
  | SIDES_SEQUENTIAL, SIDES_SEQUENTIAL
  | SIDES_INTERLEAVED, SIDES_INTERLEAVED => true
  | _, _ => false
  end.

Definition density_eqb (a b : density_t) : bool :=
  match a, b with
  | DENS_NA, DENS_NA | DENS_SINGLE, DENS_SINGLE
  | DENS_DOUBLE, DENS_DOUBLE | DENS_QUAD, DENS_QUAD => true
  | _, _ => false
  end.

(** The three tables, without the all-zero row that terminates each C array. *)

Definition adfs_new_formats : list geometry_t :=
  [ mkGeometry "Acorn ADFS F" SIDES_INTERLEAVED DENS_QUAD 1600 80 10 1024;
    mkGeometry "Acorn ADFS D" SIDES_INTERLEAVED DENS_DOUBLE 800 80 5 1024 ].

Definition adfs_old_formats : list geometry_t :=
  [ mkGeometry "Acorn ADFS L" SIDES_INTERLEAVED DENS_DOUBLE 2560 80 16 256;
    mkGeometry "Acorn ADFS M" SIDES_SINGLE DENS_DOUBLE 1280 80 16 256;
    mkGeometry "Acorn ADFS S" SIDES_SINGLE DENS_DOUBLE 640 40 16 256 ].

Definition dfs_formats : list geometry_t :=
  [ mkGeometry "Watford/Opus DDFS" SIDES_INTERLEAVED DENS_DOUBLE 1440 80 18 256;
    mkGeometry "Watford/Opus DDFS" SIDES_SEQUENTIAL DENS_DOUBLE 1440 80 18 256;
    mkGeometry "Watford/Opus DDFS" SIDES_SINGLE DENS_DOUBLE 1440 80 18 256;
    mkGeometry "Watford/Opus DDFS" SIDES_INTERLEAVED DENS_DOUBLE 720 40 18 256;
    mkGeometry "Watford/Opus DDFS" SIDES_SEQUENTIAL DENS_DOUBLE 720 40 18 256;
    mkGeometry "Watford/Opus DDFS" SIDES_SINGLE DENS_DOUBLE 720 40 18 256;

    mkGeometry "Solidisk DDFS" SIDES_INTERLEAVED DENS_DOUBLE 1280 80 16 256;
    mkGeometry "Solidisk DDFS" SIDES_SEQUENTIAL DENS_DOUBLE 1280 80 16 256;
    mkGeometry "Solidisk DDFS" SIDES_SINGLE DENS_DOUBLE 1280 80 16 256;
    mkGeometry "Solidisk DDFS" SIDES_INTERLEAVED DENS_DOUBLE 640 40 16 256;
    mkGeometry "Solidisk DDFS" SIDES_SEQUENTIAL DENS_DOUBLE 640 40 16 256;
    mkGeometry "Solidisk DDFS" SIDES_SINGLE DENS_DOUBLE 640 40 16 256;

    mkGeometry "Acorn DFS" SIDES_INTERLEAVED DENS_SINGLE 800 80 10 256;
    mkGeometry "Acorn DFS" SIDES_SEQUENTIAL DENS_SINGLE 800 80 10 256;
    mkGeometry "Acorn DFS" SIDES_SINGLE DENS_SINGLE 800 80 10 256;
    mkGeometry "Acorn DFS" SIDES_INTERLEAVED DENS_SINGLE 400 40 10 256;
    mkGeometry "Acorn DFS" SIDES_SEQUENTIAL DENS_SINGLE 400 40 10 256;
    mkGeometry "Acorn DFS" SIDES_SINGLE DENS_SINGLE 400 40 10 256 ].

(** Every geometry a detector can return, hence every geometry that
    [sdf_load] can bind to a drive. *)
Definition catalogue : list geometry_t :=
  adfs_new_formats ++ adfs_old_formats ++ dfs_formats.

(** ** The image file behind a [FILE *]

    The bytes of the file, the stream position and whether the stream was
    opened for update ("rb+", "wb") or only for reading ("rb").  [fseek] with
    [SEEK_SET] moves the position (a negative offset is refused); [getc]
    returns the byte under the position and advances, or [EOF] at or past
    the end; [putc] stores one byte under the position, filling a gap past
    the end with zeros as the host file system does, and advances.  On a
    stream opened only for reading [putc] fails: nothing is stored and the
    position stays; the callers in sdf.c ignore its result. *)

Record FILE : Type := mkFILE {
  f_bytes : list Z;
  f_pos : Z;
  f_rw : bool
}.

Definition EOF : Z := -1.

Definition fseek_set (offset : Z) (f : FILE) : FILE :=
  if offset <? 0 then f else mkFILE (f_bytes f) offset (f_rw f).

Definition getc (f : FILE) : Z * FILE :=
  match aget (f_bytes f) (f_pos f) with
  | Some b => (b, mkFILE (f_bytes f) (f_pos f + 1) (f_rw f))
  | None => (EOF, f)
  end.

Definition putc (c : Z) (f : FILE) : FILE :=
  let n := Z.of_nat (length (f_bytes f)) in
  if negb (f_rw f) then f
  else if f_pos f <? 0 then f
  else if f_pos f <? n
  then mkFILE (<[Z.to_nat (f_pos f) := u8 c]> (f_bytes f)) (f_pos f + 1) true
  else mkFILE (f_bytes f ++ repeat 0 (Z.to_nat (f_pos f - n)) ++ [u8 c])
              (f_pos f + 1) true.

(** ** sdf.c: the state machine's states *)

Inductive state_t : Type :=
  | ST_IDLE
  | ST_NOTFOUND
  | ST_READSECTOR
  | ST_WRITESECTOR
  | ST_READ_ADDR0
  | ST_READ_ADDR1
  | ST_READ_ADDR2
  | ST_READ_ADDR3
  | ST_READ_ADDR4
  | ST_READ_ADDR5
  | ST_READ_ADDR6
  | ST_FORMAT.

(** ** disc.h: the per-drive operation table

    [disc.h] is not part of this tree.  A slot of [DRIVE] is a function
    pointer: null, or the address of the matching function of a backend.
    The image backend of sdf.c is the only backend whose code is here, so a
    bound slot is tagged [SDF] and a call through it runs the sdf function. *)

Inductive backend : Type := SDF.

Record DRIVE : Type := mkDRIVE {
  close : option backend;
  seek : option backend;
  readsector : option backend;
  writesector : option backend;
  readaddress : option backend;
  poll : option backend;
  format : option backend;
  abort : option backend
}.

(** Modelled from the spec: [NUM_DRIVES] of disc.h, which is not in this
    tree; the spec has exactly two drive units and disc.c declares
    [DRIVE drives[2]]. *)
Definition NUM_DRIVES : Z := 2.

(** model.h is not part of this tree: the board the WD1770 is wired to, as
    read through the [WD1770] macro. *)
Inductive board : Type :=
  | WD1770_ACORN
  | WD1770_MASTER
  | WD1770_SOLIDISK.

(** ** Calls recorded in the trace *)

Inductive event : Type :=
  | ev_disc_seek (drive track : Z)
  | ev_disc_readsector (drive sector track side dens : Z)
  | ev_disc_writesector (drive sector track side dens : Z)
  | ev_disc_readaddress (drive track side dens : Z)
  | ev_disc_format (drive track side dens : Z)
  | ev_fdc_data (dat : Z)
  | ev_fdc_finishread
  | ev_fdc_notfound
  | ev_fdc_writeprotect
  | ev_fdc_getdata (last ret : Z).

(** ** The globals of the three files *)

Record world : Type := mkWorld {
  wd_command : Z;
  wd_sector : Z;
  wd_track : Z;
  wd_status : Z;
  wd_data : Z;
  wd_ctrl : Z;
  wd_curside : Z;
  wd_curtrack : Z;
  wd_density : Z;
  wd_written : Z;
  wd_stepdir : Z;
  byte : Z;
  nmi : Z;
  WD1770 : board;
  drives : list DRIVE;
  curdrive : Z;
  writeprot : list Z;
  fdc_time : Z;
  motorspin : Z;
  motoron : Z;
  disc_notfound : Z;
  oldtrack : list Z;
  geometry : list (option geometry_t);
  sdf_fp : list (option FILE);
  current_track : list Z;
  state : state_t;
  count : Z;
  sdf_time : Z;
  sdf_drive : Z;
  sdf_side : Z;
  sdf_track : Z;
  sdf_sector : Z;
  trace : list event
}.

Definition set_wd_command (v : Z) (w : world) : world :=
  mkWorld v (wd_sector w) (wd_track w) (wd_status w) (wd_data w) (wd_ctrl w)
    (wd_curside w) (wd_curtrack w) (wd_density w) (wd_written w)
    (wd_stepdir w) (byte w) (nmi w) (WD1770 w) (drives w) (curdrive w)
    (writeprot w) (fdc_time w) (motorspin w) (motoron w) (disc_notfound w)
    (oldtrack w) (geometry w) (sdf_fp w) (current_track w) (state w) (count w)
    (sdf_time w) (sdf_drive w) (sdf_side w) (sdf_track w) (sdf_sector w)
    (trace w) .

Definition set_wd_sector (v : Z) (w : world) : world :=
  mkWorld (wd_command w) v (wd_track w) (wd_status w) (wd_data w) (wd_ctrl w)
    (wd_curside w) (wd_curtrack w) (wd_density w) (wd_written w)
    (wd_stepdir w) (byte w) (nmi w) (WD1770 w) (drives w) (curdrive w)
    (writeprot w) (fdc_time w) (motorspin w) (motoron w) (disc_notfound w)
    (oldtrack w) (geometry w) (sdf_fp w) (current_track w) (state w) (count w)
    (sdf_time w) (sdf_drive w) (sdf_side w) (sdf_track w) (sdf_sector w)
    (trace w) .

Definition set_wd_track (v : Z) (w : world) : world :=
  mkWorld (wd_command w) (wd_sector w) v (wd_status w) (wd_data w) (wd_ctrl w)
    (wd_curside w) (wd_curtrack w) (wd_density w) (wd_written w)
    (wd_stepdir w) (byte w) (nmi w) (WD1770 w) (drives w) (curdrive w)
    (writeprot w) (fdc_time w) (motorspin w) (motoron w) (disc_notfound w)
    (oldtrack w) (geometry w) (sdf_fp w) (current_track w) (state w) (count w)
    (sdf_time w) (sdf_drive w) (sdf_side w) (sdf_track w) (sdf_sector w)
    (trace w) .

Definition set_wd_status (v : Z) (w : world) : world :=
  mkWorld (wd_command w) (wd_sector w) (wd_track w) v (wd_data w) (wd_ctrl w)
    (wd_curside w) (wd_curtrack w) (wd_density w) (wd_written w)
    (wd_stepdir w) (byte w) (nmi w) (WD1770 w) (drives w) (curdrive w)
    (writeprot w) (fdc_time w) (motorspin w) (motoron w) (disc_notfound w)
    (oldtrack w) (geometry w) (sdf_fp w) (current_track w) (state w) (count w)
    (sdf_time w) (sdf_drive w) (sdf_side w) (sdf_track w) (sdf_sector w)
    (trace w) .

Definition set_wd_data (v : Z) (w : world) : world :=
  mkWorld (wd_command w) (wd_sector w) (wd_track w) (wd_status w) v
    (wd_ctrl w) (wd_curside w) (wd_curtrack w) (wd_density w) (wd_written w)
    (wd_stepdir w) (byte w) (nmi w) (WD1770 w) (drives w) (curdrive w)
    (writeprot w) (fdc_time w) (motorspin w) (motoron w) (disc_notfound w)
    (oldtrack w) (geometry w) (sdf_fp w) (current_track w) (state w) (count w)
    (sdf_time w) (sdf_drive w) (sdf_side w) (sdf_track w) (sdf_sector w)
    (trace w) .

Definition set_wd_ctrl (v : Z) (w : world) : world :=
  mkWorld (wd_command w) (wd_sector w) (wd_track w) (wd_status w) (wd_data w)
    v (wd_curside w) (wd_curtrack w) (wd_density w) (wd_written w)
    (wd_stepdir w) (byte w) (nmi w) (WD1770 w) (drives w) (curdrive w)
    (writeprot w) (fdc_time w) (motorspin w) (motoron w) (disc_notfound w)
    (oldtrack w) (geometry w) (sdf_fp w) (current_track w) (state w) (count w)
    (sdf_time w) (sdf_drive w) (sdf_side w) (sdf_track w) (sdf_sector w)
    (trace w) .

Definition set_wd_curside (v : Z) (w : world) : world :=
  mkWorld (wd_command w) (wd_sector w) (wd_track w) (wd_status w) (wd_data w)
    (wd_ctrl w) v (wd_curtrack w) (wd_density w) (wd_written w) (wd_stepdir w)
    (byte w) (nmi w) (WD1770 w) (drives w) (curdrive w) (writeprot w)
    (fdc_time w) (motorspin w) (motoron w) (disc_notfound w) (oldtrack w)
    (geometry w) (sdf_fp w) (current_track w) (state w) (count w) (sdf_time w)
    (sdf_drive w) (sdf_side w) (sdf_track w) (sdf_sector w) (trace w) .

Definition set_wd_curtrack (v : Z) (w : world) : world :=
  mkWorld (wd_command w) (wd_sector w) (wd_track w) (wd_status w) (wd_data w)
    (wd_ctrl w) (wd_curside w) v (wd_density w) (wd_written w) (wd_stepdir w)
    (byte w) (nmi w) (WD1770 w) (drives w) (curdrive w) (writeprot w)
    (fdc_time w) (motorspin w) (motoron w) (disc_notfound w) (oldtrack w)
    (geometry w) (sdf_fp w) (current_track w) (state w) (count w) (sdf_time w)
    (sdf_drive w) (sdf_side w) (sdf_track w) (sdf_sector w) (trace w) .

Definition set_wd_density (v : Z) (w : world) : world :=
  mkWorld (wd_command w) (wd_sector w) (wd_track w) (wd_status w) (wd_data w)
    (wd_ctrl w) (wd_curside w) (wd_curtrack w) v (wd_written w) (wd_stepdir w)
    (byte w) (nmi w) (WD1770 w) (drives w) (curdrive w) (writeprot w)
    (fdc_time w) (motorspin w) (motoron w) (disc_notfound w) (oldtrack w)
    (geometry w) (sdf_fp w) (current_track w) (state w) (count w) (sdf_time w)
    (sdf_drive w) (sdf_side w) (sdf_track w) (sdf_sector w) (trace w) .

Definition set_wd_written (v : Z) (w : world) : world :=
  mkWorld (wd_command w) (wd_sector w) (wd_track w) (wd_status w) (wd_data w)
    (wd_ctrl w) (wd_curside w) (wd_curtrack w) (wd_density w) v (wd_stepdir w)
    (byte w) (nmi w) (WD1770 w) (drives w) (curdrive w) (writeprot w)
    (fdc_time w) (motorspin w) (motoron w) (disc_notfound w) (oldtrack w)
    (geometry w) (sdf_fp w) (current_track w) (state w) (count w) (sdf_time w)
    (sdf_drive w) (sdf_side w) (sdf_track w) (sdf_sector w) (trace w) .

Definition set_wd_stepdir (v : Z) (w : world) : world :=
  mkWorld (wd_command w) (wd_sector w) (wd_track w) (wd_status w) (wd_data w)
    (wd_ctrl w) (wd_curside w) (wd_curtrack w) (wd_density w) (wd_written w) v
    (byte w) (nmi w) (WD1770 w) (drives w) (curdrive w) (writeprot w)
    (fdc_time w) (motorspin w) (motoron w) (disc_notfound w) (oldtrack w)
    (geometry w) (sdf_fp w) (current_track w) (state w) (count w) (sdf_time w)
    (sdf_drive w) (sdf_side w) (sdf_track w) (sdf_sector w) (trace w) .

Definition set_byte (v : Z) (w : world) : world :=
  mkWorld (wd_command w) (wd_sector w) (wd_track w) (wd_status w) (wd_data w)
    (wd_ctrl w) (wd_curside w) (wd_curtrack w) (wd_density w) (wd_written w)
    (wd_stepdir w) v (nmi w) (WD1770 w) (drives w) (curdrive w) (writeprot w)
    (fdc_time w) (motorspin w) (motoron w) (disc_notfound w) (oldtrack w)
    (geometry w) (sdf_fp w) (current_track w) (state w) (count w) (sdf_time w)
    (sdf_drive w) (sdf_side w) (sdf_track w) (sdf_sector w) (trace w) .

Definition set_nmi (v : Z) (w : world) : world :=
  mkWorld (wd_command w) (wd_sector w) (wd_track w) (wd_status w) (wd_data w)
    (wd_ctrl w) (wd_curside w) (wd_curtrack w) (wd_density w) (wd_written w)
    (wd_stepdir w) (byte w) v (WD1770 w) (drives w) (curdrive w) (writeprot w)
    (fdc_time w) (motorspin w) (motoron w) (disc_notfound w) (oldtrack w)
    (geometry w) (sdf_fp w) (current_track w) (state w) (count w) (sdf_time w)
    (sdf_drive w) (sdf_side w) (sdf_track w) (sdf_sector w) (trace w) .

Definition set_WD1770 (v : board) (w : world) : world :=
  mkWorld (wd_command w) (wd_sector w) (wd_track w) (wd_status w) (wd_data w)
    (wd_ctrl w) (wd_curside w) (wd_curtrack w) (wd_density w) (wd_written w)
    (wd_stepdir w) (byte w) (nmi w) v (drives w) (curdrive w) (writeprot w)
    (fdc_time w) (motorspin w) (motoron w) (disc_notfound w) (oldtrack w)
    (geometry w) (sdf_fp w) (current_track w) (state w) (count w) (sdf_time w)
    (sdf_drive w) (sdf_side w) (sdf_track w) (sdf_sector w) (trace w) .

Definition set_drives (v : list DRIVE) (w : world) : world :=
  mkWorld (wd_command w) (wd_sector w) (wd_track w) (wd_status w) (wd_data w)
    (wd_ctrl w) (wd_curside w) (wd_curtrack w) (wd_density w) (wd_written w)
    (wd_stepdir w) (byte w) (nmi w) (WD1770 w) v (curdrive w) (writeprot w)
    (fdc_time w) (motorspin w) (motoron w) (disc_notfound w) (oldtrack w)
    (geometry w) (sdf_fp w) (current_track w) (state w) (count w) (sdf_time w)
    (sdf_drive w) (sdf_side w) (sdf_track w) (sdf_sector w) (trace w) .

Definition set_curdrive (v : Z) (w : world) : world :=
  mkWorld (wd_command w) (wd_sector w) (wd_track w) (wd_status w) (wd_data w)
    (wd_ctrl w) (wd_curside w) (wd_curtrack w) (wd_density w) (wd_written w)
    (wd_stepdir w) (byte w) (nmi w) (WD1770 w) (drives w) v (writeprot w)
    (fdc_time w) (motorspin w) (motoron w) (disc_notfound w) (oldtrack w)
    (geometry w) (sdf_fp w) (current_track w) (state w) (count w) (sdf_time w)
    (sdf_drive w) (sdf_side w) (sdf_track w) (sdf_sector w) (trace w) .

Definition set_writeprot (v : list Z) (w : world) : world :=
  mkWorld (wd_command w) (wd_sector w) (wd_track w) (wd_status w) (wd_data w)
    (wd_ctrl w) (wd_curside w) (wd_curtrack w) (wd_density w) (wd_written w)
    (wd_stepdir w) (byte w) (nmi w) (WD1770 w) (drives w) (curdrive w) v
    (fdc_time w) (motorspin w) (motoron w) (disc_notfound w) (oldtrack w)
    (geometry w) (sdf_fp w) (current_track w) (state w) (count w) (sdf_time w)
    (sdf_drive w) (sdf_side w) (sdf_track w) (sdf_sector w) (trace w) .

Definition set_fdc_time (v : Z) (w : world) : world :=
  mkWorld (wd_command w) (wd_sector w) (wd_track w) (wd_status w) (wd_data w)
    (wd_ctrl w) (wd_curside w) (wd_curtrack w) (wd_density w) (wd_written w)
    (wd_stepdir w) (byte w) (nmi w) (WD1770 w) (drives w) (curdrive w)
    (writeprot w) v (motorspin w) (motoron w) (disc_notfound w) (oldtrack w)
    (geometry w) (sdf_fp w) (current_track w) (state w) (count w) (sdf_time w)
    (sdf_drive w) (sdf_side w) (sdf_track w) (sdf_sector w) (trace w) .

Definition set_motorspin (v : Z) (w : world) : world :=
  mkWorld (wd_command w) (wd_sector w) (wd_track w) (wd_status w) (wd_data w)
    (wd_ctrl w) (wd_curside w) (wd_curtrack w) (wd_density w) (wd_written w)
    (wd_stepdir w) (byte w) (nmi w) (WD1770 w) (drives w) (curdrive w)
    (writeprot w) (fdc_time w) v (motoron w) (disc_notfound w) (oldtrack w)
    (geometry w) (sdf_fp w) (current_track w) (state w) (count w) (sdf_time w)
    (sdf_drive w) (sdf_side w) (sdf_track w) (sdf_sector w) (trace w) .

Definition set_motoron (v : Z) (w : world) : world :=
  mkWorld (wd_command w) (wd_sector w) (wd_track w) (wd_status w) (wd_data w)
    (wd_ctrl w) (wd_curside w) (wd_curtrack w) (wd_density w) (wd_written w)
    (wd_stepdir w) (byte w) (nmi w) (WD1770 w) (drives w) (curdrive w)
    (writeprot w) (fdc_time w) (motorspin w) v (disc_notfound w) (oldtrack w)
    (geometry w) (sdf_fp w) (current_track w) (state w) (count w) (sdf_time w)
    (sdf_drive w) (sdf_side w) (sdf_track w) (sdf_sector w) (trace w) .

Definition set_disc_notfound (v : Z) (w : world) : world :=
  mkWorld (wd_command w) (wd_sector w) (wd_track w) (wd_status w) (wd_data w)
    (wd_ctrl w) (wd_curside w) (wd_curtrack w) (wd_density w) (wd_written w)
    (wd_stepdir w) (byte w) (nmi w) (WD1770 w) (drives w) (curdrive w)
    (writeprot w) (fdc_time w) (motorspin w) (motoron w) v (oldtrack w)
    (geometry w) (sdf_fp w) (current_track w) (state w) (count w) (sdf_time w)
    (sdf_drive w) (sdf_side w) (sdf_track w) (sdf_sector w) (trace w) .

Definition set_oldtrack (v : list Z) (w : world) : world :=
  mkWorld (wd_command w) (wd_sector w) (wd_track w) (wd_status w) (wd_data w)
    (wd_ctrl w) (wd_curside w) (wd_curtrack w) (wd_density w) (wd_written w)
    (wd_stepdir w) (byte w) (nmi w) (WD1770 w) (drives w) (curdrive w)
    (writeprot w) (fdc_time w) (motorspin w) (motoron w) (disc_notfound w) v
    (geometry w) (sdf_fp w) (current_track w) (state w) (count w) (sdf_time w)
    (sdf_drive w) (sdf_side w) (sdf_track w) (sdf_sector w) (trace w) .

Definition set_geometry (v : list (option geometry_t)) (w : world) : world :=
  mkWorld (wd_command w) (wd_sector w) (wd_track w) (wd_status w) (wd_data w)
    (wd_ctrl w) (wd_curside w) (wd_curtrack w) (wd_density w) (wd_written w)
    (wd_stepdir w) (byte w) (nmi w) (WD1770 w) (drives w) (curdrive w)
    (writeprot w) (fdc_time w) (motorspin w) (motoron w) (disc_notfound w)
    (oldtrack w) v (sdf_fp w) (current_track w) (state w) (count w)
    (sdf_time w) (sdf_drive w) (sdf_side w) (sdf_track w) (sdf_sector w)
    (trace w) .

Definition set_sdf_fp (v : list (option FILE)) (w : world) : world :=
  mkWorld (wd_command w) (wd_sector w) (wd_track w) (wd_status w) (wd_data w)
    (wd_ctrl w) (wd_curside w) (wd_curtrack w) (wd_density w) (wd_written w)
    (wd_stepdir w) (byte w) (nmi w) (WD1770 w) (drives w) (curdrive w)
    (writeprot w) (fdc_time w) (motorspin w) (motoron w) (disc_notfound w)
    (oldtrack w) (geometry w) v (current_track w) (state w) (count w)
    (sdf_time w) (sdf_drive w) (sdf_side w) (sdf_track w) (sdf_sector w)
    (trace w) .

Definition set_current_track (v : list Z) (w : world) : world :=
  mkWorld (wd_command w) (wd_sector w) (wd_track w) (wd_status w) (wd_data w)
    (wd_ctrl w) (wd_curside w) (wd_curtrack w) (wd_density w) (wd_written w)
    (wd_stepdir w) (byte w) (nmi w) (WD1770 w) (drives w) (curdrive w)
    (writeprot w) (fdc_time w) (motorspin w) (motoron w) (disc_notfound w)
    (oldtrack w) (geometry w) (sdf_fp w) v (state w) (count w) (sdf_time w)
    (sdf_drive w) (sdf_side w) (sdf_track w) (sdf_sector w) (trace w) .

Definition set_state (v : state_t) (w : world) : world :=
  mkWorld (wd_command w) (wd_sector w) (wd_track w) (wd_status w) (wd_data w)
    (wd_ctrl w) (wd_curside w) (wd_curtrack w) (wd_density w) (wd_written w)
    (wd_stepdir w) (byte w) (nmi w) (WD1770 w) (drives w) (curdrive w)
    (writeprot w) (fdc_time w) (motorspin w) (motoron w) (disc_notfound w)
    (oldtrack w) (geometry w) (sdf_fp w) (current_track w) v (count w)
    (sdf_time w) (sdf_drive w) (sdf_side w) (sdf_track w) (sdf_sector w)
    (trace w) .

Definition set_count (v : Z) (w : world) : world :=
  mkWorld (wd_command w) (wd_sector w) (wd_track w) (wd_status w) (wd_data w)
    (wd_ctrl w) (wd_curside w) (wd_curtrack w) (wd_density w) (wd_written w)
    (wd_stepdir w) (byte w) (nmi w) (WD1770 w) (drives w) (curdrive w)
    (writeprot w) (fdc_time w) (motorspin w) (motoron w) (disc_notfound w)
    (oldtrack w) (geometry w) (sdf_fp w) (current_track w) (state w) v
    (sdf_time w) (sdf_drive w) (sdf_side w) (sdf_track w) (sdf_sector w)
    (trace w) .

Definition set_sdf_time (v : Z) (w : world) : world :=
  mkWorld (wd_command w) (wd_sector w) (wd_track w) (wd_status w) (wd_data w)
    (wd_ctrl w) (wd_curside w) (wd_curtrack w) (wd_density w) (wd_written w)
    (wd_stepdir w) (byte w) (nmi w) (WD1770 w) (drives w) (curdrive w)
    (writeprot w) (fdc_time w) (motorspin w) (motoron w) (disc_notfound w)
    (oldtrack w) (geometry w) (sdf_fp w) (current_track w) (state w) (count w)
    v (sdf_drive w) (sdf_side w) (sdf_track w) (sdf_sector w) (trace w) .

Definition set_sdf_drive (v : Z) (w : world) : world :=
  mkWorld (wd_command w) (wd_sector w) (wd_track w) (wd_status w) (wd_data w)
    (wd_ctrl w) (wd_curside w) (wd_curtrack w) (wd_density w) (wd_written w)
    (wd_stepdir w) (byte w) (nmi w) (WD1770 w) (drives w) (curdrive w)
    (writeprot w) (fdc_time w) (motorspin w) (motoron w) (disc_notfound w)
    (oldtrack w) (geometry w) (sdf_fp w) (current_track w) (state w) (count w)
    (sdf_time w) v (sdf_side w) (sdf_track w) (sdf_sector w) (trace w) .

Definition set_sdf_side (v : Z) (w : world) : world :=
  mkWorld (wd_command w) (wd_sector w) (wd_track w) (wd_status w) (wd_data w)
    (wd_ctrl w) (wd_curside w) (wd_curtrack w) (wd_density w) (wd_written w)
    (wd_stepdir w) (byte w) (nmi w) (WD1770 w) (drives w) (curdrive w)
    (writeprot w) (fdc_time w) (motorspin w) (motoron w) (disc_notfound w)
    (oldtrack w) (geometry w) (sdf_fp w) (current_track w) (state w) (count w)
    (sdf_time w) (sdf_drive w) v (sdf_track w) (sdf_sector w) (trace w) .

Definition set_sdf_track (v : Z) (w : world) : world :=
  mkWorld (wd_command w) (wd_sector w) (wd_track w) (wd_status w) (wd_data w)
    (wd_ctrl w) (wd_curside w) (wd_curtrack w) (wd_density w) (wd_written w)
    (wd_stepdir w) (byte w) (nmi w) (WD1770 w) (drives w) (curdrive w)
    (writeprot w) (fdc_time w) (motorspin w) (motoron w) (disc_notfound w)
    (oldtrack w) (geometry w) (sdf_fp w) (current_track w) (state w) (count w)
    (sdf_time w) (sdf_drive w) (sdf_side w) v (sdf_sector w) (trace w) .

Definition set_sdf_sector (v : Z) (w : world) : world :=
  mkWorld (wd_command w) (wd_sector w) (wd_track w) (wd_status w) (wd_data w)
    (wd_ctrl w) (wd_curside w) (wd_curtrack w) (wd_density w) (wd_written w)
    (wd_stepdir w) (byte w) (nmi w) (WD1770 w) (drives w) (curdrive w)
    (writeprot w) (fdc_time w) (motorspin w) (motoron w) (disc_notfound w)
    (oldtrack w) (geometry w) (sdf_fp w) (current_track w) (state w) (count w)
    (sdf_time w) (sdf_drive w) (sdf_side w) (sdf_track w) v (trace w) .

Definition set_trace (v : list event) (w : world) : world :=
  mkWorld (wd_command w) (wd_sector w) (wd_track w) (wd_status w) (wd_data w)
    (wd_ctrl w) (wd_curside w) (wd_curtrack w) (wd_density w) (wd_written w)
    (wd_stepdir w) (byte w) (nmi w) (WD1770 w) (drives w) (curdrive w)
    (writeprot w) (fdc_time w) (motorspin w) (motoron w) (disc_notfound w)
    (oldtrack w) (geometry w) (sdf_fp w) (current_track w) (state w) (count w)
    (sdf_time w) (sdf_drive w) (sdf_side w) (sdf_track w) (sdf_sector w) v.
Definition emit (e : event) (w : world) : world :=
  set_trace (trace w ++ [e]) w.

(** ** wd1770.c: helpers and the completion callbacks

    The fields of [struct wd1770] are the [wd_*] fields of [world].  The two
    lines [WD1770 == WD1770_ACORN || WD1770 == WD1770_MASTER] read the board
    the chip is wired to. *)

Definition acorn_or_master (w : world) : bool :=
  match WD1770 w with
  | WD1770_ACORN | WD1770_MASTER => true
  | _ => false
  end.

Definition wd1770_spinup (w : world) : world :=
  let w := set_wd_status (u8 (Z.lor (wd_status w) 0x80)) w in
  let w := set_motoron 1 w in
  set_motorspin 0 w.

Definition wd1770_spindown (w : world) : world :=
  let w := set_wd_status (u8 (Z.land (wd_status w) (Z.lnot 0x80))) w in
  set_motoron 0 w.

Definition wd1770_setspindown (w : world) : world :=
  set_motorspin 45000 w.

(** [#define track0 (wd1770.curtrack ? 4 : 0)] *)
Definition track0 (w : world) : Z :=
  if truthy (wd_curtrack w) then 4 else 0.

Definition wd1770_data (dat : Z) (w : world) : world :=
  let w := set_wd_data (u8 dat) w in
  let w := set_wd_status (u8 (Z.lor (wd_status w) 2)) w in
  set_nmi (Z.lor (nmi w) 2) w.

Definition wd1770_finishread (w : world) : world :=
  set_fdc_time 200 w.

Definition wd1770_notfound (w : world) : world :=
  let w := set_fdc_time 0 w in
  let w := set_nmi (if acorn_or_master w then 1 else 0) w in
  let w := set_wd_status 0x90 w in
  wd1770_spindown w.

Definition wd1770_writeprotect (w : world) : world :=
  let w := set_fdc_time 0 w in
  let w := set_nmi (if acorn_or_master w then 1 else 0) w in
  let w := set_wd_status 0xC0 w in
  wd1770_spindown w.

Definition wd1770_getdata (last : Z) (w : world) : Z * world :=
  if negb (truthy (wd_written w)) then (-1, w)
  else
    let w :=
      if negb (truthy last)
      then set_wd_status (u8 (Z.lor (wd_status w) 2)) (set_nmi (Z.lor (nmi w) 2) w)
      else w in
    let w := set_wd_written 0 w in
    (wd_data w, w).

(** ** disc.c: the [fdc_*] callback pointers

    [wd1770_reset] binds the pointers to the functions above; the model is
    of a machine with the 1770 fitted.  Each call through a pointer is
    recorded before it runs. *)

Definition fdc_data (dat : Z) (w : world) : world :=
  wd1770_data dat (emit (ev_fdc_data (u8 dat)) w).

Definition fdc_finishread (w : world) : world :=
  wd1770_finishread (emit ev_fdc_finishread w).

Definition fdc_notfound (w : world) : world :=
  wd1770_notfound (emit ev_fdc_notfound w).

Definition fdc_writeprotect (w : world) : world :=
  wd1770_writeprotect (emit ev_fdc_writeprotect w).

Definition fdc_getdata (last : Z) (w : world) : Z * world :=
  let r := wd1770_getdata last w in
  (fst r, emit (ev_fdc_getdata last (fst r)) (snd r)).

(** ** sdf.c: the image backend *)

Definition geometry_at (w : world) (drive : Z) : option geometry_t :=
  match aget (geometry w) drive with
  | Some g => g
  | None => None
  end.

Definition fp_at (w : world) (drive : Z) : option FILE :=
  match aget (sdf_fp w) drive with
  | Some f => f
  | None => None
  end.

(** [writeprot[drive]] as a truth value. *)
Definition writeprot_at (w : world) (drive : Z) : bool :=
  match aget (writeprot w) drive with
  | Some x => truthy x
  | None => false
  end.

(** [getc(sdf_fp[drive])] and [putc(c, sdf_fp[drive])]; a null handle is
    undefined in C and reads as [EOF] or drops the byte here. *)
Definition getc_fp (drive : Z) (w : world) : Z * world :=
  match fp_at w drive with
  | Some f =>
      (fst (getc f), set_sdf_fp (aset (sdf_fp w) drive (Some (snd (getc f)))) w)
  | None => (EOF, w)
  end.

Definition putc_fp (c : Z) (drive : Z) (w : world) : world :=
  match fp_at w drive with
  | Some f => set_sdf_fp (aset (sdf_fp w) drive (Some (putc c f))) w
  | None => w
  end.

Definition sdf_close (drive : Z) (w : world) : world :=
  if drive <? NUM_DRIVES then
    let w := set_geometry (aset (geometry w) drive None) w in
    match fp_at w drive with
    | Some _ => set_sdf_fp (aset (sdf_fp w) drive None) w
    | None => w
    end
  else w.

Definition sdf_seek (drive track : Z) (w : world) : world :=
  if drive <? NUM_DRIVES
  then set_current_track (aset (current_track w) drive (u8 track)) w
  else w.

(** The byte offset that [io_seek] hands to [fseek]; its parameters are
    [uint8_t] and its arithmetic is [uint32_t]. *)
Definition io_offset (geo : geometry_t) (sector track side : Z) : Z :=
  let sector := u8 sector in
  let track := u8 track in
  let side := u8 side in
  let track_bytes := u32 (sectors_per_track geo * sector_size geo) in
  let offset :=
    if side =? 0 then
      let offset := u32 (track * track_bytes) in
      if sides_eqb (sides geo) SIDES_INTERLEAVED
      then u32 (offset * 2)
      else offset
    else
      if sides_eqb (sides geo) SIDES_SEQUENTIAL
      then u32 ((track + tracks geo) * track_bytes)
      else u32 ((track * 2 + 1) * track_bytes) in
  u32 (offset + sector * sector_size geo).

Definition io_seek (geo : geometry_t) (drive sector track side : Z)
    (w : world) : world :=
  let drive := u8 drive in
  match fp_at w drive with
  | Some f =>
      set_sdf_fp
        (aset (sdf_fp w) drive
              (Some (fseek_set (io_offset geo sector track side) f))) w
  | None => w
  end.

(** The density test that the four operations spell out:
    [(!density && geo->density == DENS_SINGLE) ||
     (density && geo->density == DENS_DOUBLE)]. *)
Definition density_guard (dens : Z) (geo : geometry_t) : bool :=
  (negb (truthy dens) && density_eqb (density geo) DENS_SINGLE)
  || (truthy dens && density_eqb (density geo) DENS_DOUBLE).

(** [track == current_track[drive] && track >= 0 && track < geo->tracks] *)
Definition track_guard (w : world) (geo : geometry_t) (drive track : Z) : bool :=
  match aget (current_track w) drive with
  | Some ct => (track =? ct) && (track >=? 0) && (track <? tracks geo)
  | None => false
  end.

(** [sector >= 0 && sector < geo->sectors_per_track] *)
Definition sector_guard (geo : geometry_t) (sector : Z) : bool :=
  (sector >=? 0) && (sector <? sectors_per_track geo).

(** [side == 0 || geo->sides != SIDES_SINGLE] *)
Definition side_guard (geo : geometry_t) (side : Z) : bool :=
  (side =? 0) || negb (sides_eqb (sides geo) SIDES_SINGLE).

(** The two statements at the bottom of each operation. *)
Definition start_notfound (w : world) : world :=
  let w := set_count 500 w in
  set_state ST_NOTFOUND w.

Definition sdf_readsector (drive sector track side dens : Z) (w : world)
    : world :=
  match state w with
  | ST_IDLE =>
      if drive <? NUM_DRIVES then
        match geometry_at w drive with
        | Some geo =>
            if density_guard dens geo then
              if track_guard w geo drive track then
                if sector_guard geo sector then
                  if side_guard geo side then
                    let w := io_seek geo drive sector track side w in
                    let w := set_count (u16 (sector_size geo)) w in
                    let w := set_sdf_drive (u8 drive) w in
                    set_state ST_READSECTOR w
                  else start_notfound w
                else start_notfound w
              else start_notfound w
            else start_notfound w
        | None => start_notfound w
        end
      else start_notfound w
  | _ => w
  end.

Definition sdf_writesector (drive sector track side dens : Z) (w : world)
    : world :=
  match state w with
  | ST_IDLE =>
      if drive <? NUM_DRIVES then
        match geometry_at w drive with
        | Some geo =>
            if density_guard dens geo then
              if track_guard w geo drive track then
                if sector_guard geo sector then
                  if side_guard geo side then
                    let w := io_seek geo drive sector track side w in
                    let w := set_count (u16 (sector_size geo)) w in
                    let w := set_sdf_drive (u8 drive) w in
                    let w := set_sdf_side (u8 side) w in
                    let w := set_sdf_track (u8 track) w in
                    let w := set_sdf_sector (u8 sector) w in
                    let w := set_sdf_time (-20) w in
                    set_state ST_WRITESECTOR w
                  else start_notfound w
                else start_notfound w
              else start_notfound w
            else start_notfound w
        | None => start_notfound w
        end
      else start_notfound w
  | _ => w
  end.

Definition sdf_readaddress (drive track side dens : Z) (w : world) : world :=
  match state w with
  | ST_IDLE =>
      if drive <? NUM_DRIVES then
        match geometry_at w drive with
        | Some geo =>
            if density_guard dens geo then
              if track_guard w geo drive track then
                if side_guard geo side then
                  let w := set_sdf_drive (u8 drive) w in
                  let w := set_sdf_side (u8 side) w in
                  let w := set_sdf_track (u8 track) w in
                  set_state ST_READ_ADDR0 w
                else start_notfound w
              else start_notfound w
            else start_notfound w
        | None => start_notfound w
        end
      else start_notfound w
  | _ => w
  end.

(** The accepting branch of [sdf_format] has no [return]: control leaves the
    nested [if]s and reaches the two statements at the bottom. *)
Definition sdf_format (drive track side dens : Z) (w : world) : world :=
  match state w with
  | ST_IDLE =>
      let w :=
        if drive <? NUM_DRIVES then
          match geometry_at w drive with
          | Some geo =>
              if density_guard dens geo then
                if track_guard w geo drive track then
                  if side_guard geo side then
                    let w := io_seek geo drive 0 track side w in
                    let w := set_sdf_drive (u8 drive) w in
                    let w := set_sdf_side (u8 side) w in
                    let w := set_sdf_track (u8 track) w in
                    let w := set_sdf_sector 0 w in
                    set_state ST_FORMAT w
                  else w
                else w
              else w
          | None => w
          end
        else w in
      start_notfound w
  | _ => w
  end.

(** The [switch (state)] of [sdf_poll]: what one poll does once the divider
    has let it through (a divided poll tick). *)
Definition sdf_poll_switch (w : world) : world :=
  match state w with
  | ST_IDLE => w
  | ST_NOTFOUND =>
      let w := set_count (u16 (count w - 1)) w in
      if count w =? 0 then
        let w := fdc_notfound w in
        set_state ST_IDLE w
      else w
  | ST_READSECTOR =>
      let r := getc_fp (sdf_drive w) w in
      let w := fdc_data (fst r) (snd r) in
      let w := set_count (u16 (count w - 1)) w in
      if count w =? 0 then
        let w := fdc_finishread w in
        set_state ST_IDLE w
      else w
  | ST_WRITESECTOR =>
      if writeprot_at w (sdf_drive w) then
        let w := fdc_writeprotect w in
        set_state ST_IDLE w
      else
        let w := set_count (u16 (count w - 1)) w in
        let r := fdc_getdata (if count w =? 0 then 1 else 0) w in
        let c := fst r in
        let w := snd r in
        if c =? -1 then
          set_count (u16 (count w + 1)) w
        else
          let w := putc_fp c (sdf_drive w) w in
          if count w =? 0 then
            let w := fdc_finishread w in
            set_state ST_IDLE w
          else w
  | ST_READ_ADDR0 =>
      let w := fdc_data (sdf_track w) w in
      set_state ST_READ_ADDR1 w
  | ST_READ_ADDR1 =>
      let w := fdc_data (sdf_side w) w in
      set_state ST_READ_ADDR2 w
  | ST_READ_ADDR2 =>
      let w := fdc_data (sdf_sector w) w in
      set_state ST_READ_ADDR3 w
  | ST_READ_ADDR3 =>
      let w := fdc_data 1 w in
      set_state ST_READ_ADDR4 w
  | ST_READ_ADDR4 =>
      let w := fdc_data 0 w in
      set_state ST_READ_ADDR5 w
  | ST_READ_ADDR5 =>
      let w := fdc_data 0 w in
      set_state ST_READ_ADDR6 w
  | ST_READ_ADDR6 =>
      let w := fdc_finishread w in
      let w := set_sdf_sector (u8 (sdf_sector w + 1)) w in
      match geometry_at w (sdf_drive w) with
      | Some geo =>
          if sdf_sector w =? sectors_per_track geo
          then set_sdf_sector 0 w
          else w
      | None => w
      end
  | ST_FORMAT =>
      if writeprot_at w (sdf_drive w) then
        let w := fdc_writeprotect w in
        set_state ST_IDLE w
      else
        let w := set_count (u16 (count w - 1)) w in
        if count w =? 0 then
          let w := set_sdf_sector (u8 (sdf_sector w + 1)) w in
          match geometry_at w (sdf_drive w) with
          | Some geo =>
              if sdf_sector w >=? sectors_per_track geo
              then w
              else putc_fp 0 (sdf_drive w) w
          | None => w
          end
        else putc_fp 0 (sdf_drive w) w
  end.

(** [if (++sdf_time <= 16) return; sdf_time = 0; switch (state) ...] *)
Definition sdf_poll (w : world) : world :=
  let w := set_sdf_time (sdf_time w + 1) w in
  if sdf_time w <=? 16 then w
  else
    let w := set_sdf_time 0 w in
    sdf_poll_switch w.

Definition sdf_abort (w : world) : world :=
  set_state ST_IDLE w.

Definition sdf_drive_ops : DRIVE :=
  mkDRIVE (Some SDF) (Some SDF) (Some SDF) (Some SDF)
          (Some SDF) (Some SDF) (Some SDF) (Some SDF).

(** [sdf_load] from the point where the file is open as [fp] and a detector
    has returned [geo]: the drive is write-protected when the stream is
    read-only. *)
Definition sdf_load_detected (drive : Z) (fp : FILE)
    (geo : geometry_t) (w : world) : world :=
  let wp := if f_rw fp then 0 else 1 in
  let w := set_writeprot (aset (writeprot w) drive wp) w in
  let w := set_sdf_fp (aset (sdf_fp w) drive (Some fp)) w in
  let w := set_geometry (aset (geometry w) drive (Some geo)) w in
  set_drives (aset (drives w) drive sdf_drive_ops) w.

(** ** disc.c: the drive dispatch layer

    A slot of [drives[drive]]; a drive outside the table reads as unbound. *)
Definition slot (f : DRIVE -> option backend) (w : world) (drive : Z)
    : option backend :=
  match aget (drives w) drive with
  | Some d => f d
  | None => None
  end.

Definition disc_close (drive : Z) (w : world) : world :=
  match slot close w 0 with
  | Some SDF => sdf_close drive w
  | None => w
  end.

(** [ddnoise_seek] only drives the seek sound and is left out. *)
Definition disc_seek (drive track : Z) (w : world) : world :=
  let w := emit (ev_disc_seek drive track) w in
  let w :=
    match slot seek w drive with
    | Some SDF => sdf_seek drive track w
    | None => w
    end in
  set_oldtrack (aset (oldtrack w) drive track) w.

Definition disc_readsector (drive sector track side dens : Z) (w : world)
    : world :=
  let w := emit (ev_disc_readsector drive sector track side dens) w in
  match slot readsector w drive with
  | Some SDF => sdf_readsector drive sector track side dens w
  | None => set_disc_notfound 10000 w
  end.

Definition disc_writesector (drive sector track side dens : Z) (w : world)
    : world :=
  let w := emit (ev_disc_writesector drive sector track side dens) w in
  match slot writesector w drive with
  | Some SDF => sdf_writesector drive sector track side dens w
  | None => set_disc_notfound 10000 w
  end.

Definition disc_readaddress (drive track side dens : Z) (w : world) : world :=
  let w := emit (ev_disc_readaddress drive track side dens) w in
  match slot readaddress w drive with
  | Some SDF => sdf_readaddress drive track side dens w
  | None => set_disc_notfound 10000 w
  end.

Definition disc_format (drive track side dens : Z) (w : world) : world :=
  let w := emit (ev_disc_format drive track side dens) w in
  match slot format w drive with
  | Some SDF => sdf_format drive track side dens w
  | None => set_disc_notfound 10000 w
  end.

Definition disc_abort (drive : Z) (w : world) : world :=
  match slot abort w drive with
  | Some SDF => sdf_abort w
  | None => set_disc_notfound 10000 w
  end.

Definition disc_poll (w : world) : world :=
  let w :=
    match slot poll w (curdrive w) with
    | Some SDF => sdf_poll w
    | None => w
    end in
  if truthy (disc_notfound w) then
    let w := set_disc_notfound (disc_notfound w - 1) w in
    if negb (truthy (disc_notfound w)) then fdc_notfound w else w
  else w.

(** ** wd1770.c: register writes *)

(** [case 0xC] of the command switch, which [case 0xA] runs into. *)
Definition cmd_read_address (w : world) : world :=
  let w := set_wd_status (Z.lor 0x80 0x1) w in
  let w := disc_readaddress (curdrive w) (wd_track w) (wd_curside w)
                            (wd_density w) w in
  set_byte 0 w.

Definition write_1770 (addr val : Z) (w : world) : world :=
  let addr := u16 addr in
  let val := u8 val in
  match Z.land addr 0x03 with
  | 0 => (* Command register *)
      if truthy (Z.land (wd_status w) 1) && negb (Z.shiftr val 4 =? 0xD)
      then w
      else
        let w := set_wd_command val w in
        let w := if negb (Z.shiftr val 4 =? 0xD) then wd1770_spinup w else w in
        match Z.shiftr val 4 with
        | 0x0 => (* Restore *)
            let w := set_wd_curtrack 0 w in
            let w := set_wd_status (Z.lor (Z.lor 0x80 0x21) (track0 w)) w in
            disc_seek (curdrive w) 0 w
        | 0x1 => (* Seek *)
            let w := set_wd_curtrack (wd_data w) w in
            let w := set_wd_status (Z.lor (Z.lor 0x80 0x21) (track0 w)) w in
            disc_seek (curdrive w) (wd_curtrack w) w
        | 0x2 | 0x3 => (* Step *)
            let w := set_wd_status (Z.lor (Z.lor 0x80 0x21) (track0 w)) w in
            let w := set_wd_curtrack (s32 (wd_curtrack w + wd_stepdir w)) w in
            let w := if wd_curtrack w <? 0 then set_wd_curtrack 0 w else w in
            disc_seek (curdrive w) (wd_curtrack w) w
        | 0x4 | 0x5 => (* Step in *)
            let w := set_wd_status (Z.lor (Z.lor 0x80 0x21) (track0 w)) w in
            let w := set_wd_curtrack (s32 (wd_curtrack w + 1)) w in
            let w := disc_seek (curdrive w) (wd_curtrack w) w in
            set_wd_stepdir 1 w
        | 0x6 | 0x7 => (* Step out *)
            let w := set_wd_status (Z.lor (Z.lor 0x80 0x21) (track0 w)) w in
            let w := set_wd_curtrack (s32 (wd_curtrack w - 1)) w in
            let w := if wd_curtrack w <? 0 then set_wd_curtrack 0 w else w in
            let w := disc_seek (curdrive w) (wd_curtrack w) w in
            set_wd_stepdir (-1) w
        | 0x8 => (* Read sector *)
            let w := set_wd_status (Z.lor 0x80 0x1) w in
            let w := disc_readsector (curdrive w) (wd_sector w) (wd_track w)
                                     (wd_curside w) (wd_density w) w in
            set_byte 0 w
        | 0xA => (* Write sector; no break, control runs into case 0xC *)
            let w := set_wd_status (Z.lor 0x80 0x1) w in
            let w := disc_writesector (curdrive w) (wd_sector w) (wd_track w)
                                      (wd_curside w) (wd_density w) w in
            let w := set_byte 0 w in
            let w := set_nmi (Z.lor (nmi w) 2) w in
            let w := set_wd_status (u8 (Z.lor (wd_status w) 2)) w in
            let w := set_wd_written 0 w in
            cmd_read_address w
        | 0xC => (* Read address *)
            cmd_read_address w
        | 0xD => (* Force interrupt *)
            let w := set_fdc_time 0 w in
            let w :=
              if truthy (Z.land (wd_status w) 0x01)
              then set_wd_status (u8 (Z.land (wd_status w) (Z.lnot 1))) w
              else set_wd_status (Z.lor 0x80 (track0 w)) w in
            let w :=
              set_nmi (if truthy (Z.land val 8) && acorn_or_master w
                       then 1 else 0) w in
            wd1770_setspindown w
        | 0xF => (* Write track *)
            let w := set_wd_status (Z.lor 0x80 0x1) w in
            disc_format (curdrive w) (wd_track w) (wd_curside w)
                        (wd_density w) w
        | _ =>
            let w := set_fdc_time 0 w in
            let w := if acorn_or_master w then set_nmi 1 w else w in
            let w := set_wd_status 0x90 w in
            wd1770_spindown w
        end
  | 1 => (* Track register *)
      set_wd_track val w
  | 2 => (* Sector register *)
      set_wd_sector val w
  | 3 => (* Data register *)
      let w := set_nmi (Z.land (nmi w) (Z.lnot 2)) w in
      let w := set_wd_status (u8 (Z.land (wd_status w) (Z.lnot 2))) w in
      let w := set_wd_data val w in
      set_wd_written 1 w
  | _ => w
  end.

(** ** sdf.c: geometry detection

    The character codes of a C string literal. *)
Definition chars (s : string) : list Z :=
  map (fun a => Z.of_nat (Ascii.nat_of_ascii a)) (list_ascii_of_string s).

(** [fseek(fp, 0, SEEK_END)] and [ftell]. *)
Definition fseek_end (f : FILE) : FILE :=
  mkFILE (f_bytes f) (Z.of_nat (length (f_bytes f))) (f_rw f).

Definition ftell (f : FILE) : Z := f_pos f.

(** The loop of [check_id]: [while ((ch = *id++)) if (ch != getc(fp))
    return 0;]. *)
Fixpoint check_id_loop (id : list Z) (f : FILE) : bool * FILE :=
  match id with
  | [] => (true, f)
  | ch :: id' =>
      let r := getc f in
      if ch =? fst r then check_id_loop id' (snd r) else (false, snd r)
  end.

Definition check_id (posn : Z) (id : string) (f : FILE) : bool * FILE :=
  if posn <? 0 then (false, f)
  else check_id_loop (chars id) (fseek_set posn f).

Definition try_adfs_new (f : FILE) : option geometry_t * FILE :=
  let r1 := check_id 0x401 "Nick" f in
  let r := if fst r1 then r1 else check_id 0x801 "Nick" (snd r1) in
  if fst r then
    let f := fseek_end (snd r) in
    let size := ftell f in
    (find (fun ptr => size =? size_in_sectors ptr * sector_size ptr)
          adfs_new_formats, f)
  else (None, snd r).

(** The three [getc] calls of the sector count sit in one expression; they
    are taken in the order they are written. *)
Definition try_adfs_old (f : FILE) : option geometry_t * FILE :=
  let r1 := check_id 0x201 "Hugo" f in
  if fst r1 then
    let r2 := check_id 0x6fb "Hugo" (snd r1) in
    if fst r2 then
      let f := fseek_set 0xfc (snd r2) in
      let g1 := getc f in
      let g2 := getc (snd g1) in
      let g3 := getc (snd g2) in
      let sects :=
        u32 (Z.lor (Z.lor (fst g1) (Z.shiftl (fst g2) 8))
                   (Z.shiftl (fst g3) 16)) in
      (find (fun ptr => sects =? size_in_sectors ptr) adfs_old_formats,
       snd g3)
    else (None, snd r2)
  else (None, snd r1).

(** [((getc(fp) & 3) << 8) + getc(fp)] as a [uint32_t], the calls taken in
    the order they are written. *)
Definition dfs_sector_count (f : FILE) : Z * FILE :=
  let g1 := getc f in
  let g2 := getc (snd g1) in
  (u32 (Z.shiftl (Z.land (fst g1) 3) 8 + fst g2), snd g2).

(** The [for] loop of [try_dfs] over the rows of the table. *)
Fixpoint try_dfs_loop (sects0 : Z) (tbl : list geometry_t) (f : FILE)
    : option geometry_t * FILE :=
  match tbl with
  | [] => (None, f)
  | ptr :: rest =>
      if sects0 =? size_in_sectors ptr then
        if sides_eqb (sides ptr) SIDES_SINGLE then (Some ptr, f)
        else
          let track_bytes := u32 (sectors_per_track ptr * sector_size ptr) in
          let side2_off :=
            if sides_eqb (sides ptr) SIDES_SEQUENTIAL
            then u32 (tracks ptr * track_bytes)
            else track_bytes in
          let f := fseek_set (u32 (side2_off + 0x106)) f in
          let r := dfs_sector_count f in
          if fst r =? sects0 then (Some ptr, snd r)
          else try_dfs_loop sects0 rest (snd r)
      else try_dfs_loop sects0 rest f
  end.

Definition try_dfs (f : FILE) : option geometry_t * FILE :=
  let r := dfs_sector_count (fseek_set 0x106 f) in
  try_dfs_loop (fst r) dfs_formats (snd r).

(** What the two [fopen] calls of [sdf_load] gave: the bytes of the file,
    opened for update ("rb+") or, failing that, only for reading ("rb"), or
    no stream at all. *)
Inductive fopen_result : Type :=
  | fopen_rw (bytes : list Z)
  | fopen_ro (bytes : list Z)
  | fopen_fail.

(** The three detectors in the order [sdf_load] tries them. *)
Definition detect_geometry (fp : FILE) : option geometry_t * FILE :=
  let r := try_adfs_new fp in
  match fst r with
  | Some geo => r
  | None =>
      let r := try_adfs_old (snd r) in
      match fst r with
      | Some geo => r
      | None => try_dfs (snd r)
      end
  end.

Definition sdf_load (drive : Z) (host : fopen_result) (w : world) : world :=
  let w := set_writeprot (aset (writeprot w) drive 0) w in
  match host with
  | fopen_fail => w
  | fopen_rw bytes | fopen_ro bytes =>
      let rw := match host with fopen_ro _ => false | _ => true end in
      let fp := mkFILE bytes 0 rw in
      let w :=
        if rw then w else set_writeprot (aset (writeprot w) drive 1) w in
      let r := detect_geometry fp in
      match fst r with
      | None => w
      | Some geo =>
          let w := set_sdf_fp (aset (sdf_fp w) drive (Some (snd r))) w in
          let w := set_geometry (aset (geometry w) drive (Some geo)) w in
          set_drives (aset (drives w) drive sdf_drive_ops) w
      end
  end.

(** ** disc.c: start-up and blank images *)

Definition disc_init (w : world) : world :=
  let unbind (d : DRIVE) :=
    mkDRIVE (close d) None None (writesector d) (readaddress d) None
            (format d) (abort d) in
  let w := set_drives (map unbind (drives w)) w in
  set_curdrive 0 w.

(** The bytes [disc_new] writes into a fresh file for the extension ADF. *)
Definition adf_image : FILE :=
  let f := mkFILE [] 0 true in
  let f := putc 7 (fseek_set 0 f) in
  let f := fseek_set 0xFD f in
  let f := putc 0x04 (putc 0xF9 (putc 0xC (putc 0 (putc 5 f)))) in
  let f := fseek_set 0x1FB f in
  let f := putc 0xC1 (putc 3 (putc 0 (putc 0x39 (putc 0x88 f)))) in
  let f := putc 111 (putc 103 (putc 117 (putc 72 (putc 0 f)))) in
  let f := putc 0x24 (fseek_set 0x6CC f) in
  let f := fseek_set 0x6D6 f in
  let f := putc 0x24 (putc 0 (putc 0 (putc 2 f))) in
  let f := fseek_set 0x6FB f in
  putc 111 (putc 103 (putc 117 (putc 72 f))).

(** The same for the extension ADL. *)
Definition adl_image : FILE :=
  let f := mkFILE [] 0 true in
  let f := putc 7 (fseek_set 0 f) in
  let f := fseek_set 0xFD f in
  let f := putc 0x09 (putc 0xF9 (putc 0x11 (putc 0 (putc 0xA f)))) in
  let f := fseek_set 0x1FB f in
  let f := putc 0x8A (putc 3 (putc 0 (putc 0x84 (putc 0x01 f)))) in
  let f := putc 111 (putc 103 (putc 117 (putc 72 (putc 0 f)))) in
  let f := putc 0x24 (fseek_set 0x6CC f) in
  let f := fseek_set 0x6D6 f in
  let f := putc 0x24 (putc 0 (putc 0 (putc 2 f))) in
  let f := fseek_set 0x6FB f in
  putc 111 (putc 103 (putc 117 (putc 72 f))).

(** How the host opens the file that [disc_new] has just written and
    closed, when [sdf_load] asks for it: for update, only for reading, or
    not at all. *)
Inductive open_mode : Type := OPEN_RW | OPEN_RO | OPEN_FAIL.

Definition fopen_image (mode : open_mode) (f : FILE) : fopen_result :=
  match mode with
  | OPEN_RW => fopen_rw (f_bytes f)
  | OPEN_RO => fopen_ro (f_bytes f)
  | OPEN_FAIL => fopen_fail
  end.

(** What [get_extension] and the two [strcasecmp] tests of [disc_new] make
    of the file name: ADF, ADL, or neither (no extension included). *)
Inductive new_kind : Type := NEW_ADF | NEW_ADL | NEW_UNSUPPORTED.

(** [created] is whether [fopen(fn, "wb")] succeeded.  On the two paths that
    reach [disc_load] the extension is ADF or ADL, so [disc_load] hands the
    name to [sdf_load]; the messages and the eject-menu text are left out. *)
Definition disc_new (drive : Z) (kind : new_kind) (created : bool)
    (mode : open_mode) (w : world) : world :=
  match kind with
  | NEW_ADF =>
      if created then sdf_load drive (fopen_image mode adf_image) w else w
  | NEW_ADL =>
      if created then sdf_load drive (fopen_image mode adl_image) w else w
  | NEW_UNSUPPORTED => w
  end.

(** ** wd1770.c: reset, control registers, register reads, completion *)

Definition wd1770_reset (w : world) : world :=
  let w := set_nmi 0 w in
  let w := set_wd_status 0 w in
  let w := set_motorspin 0 w in
  let w := set_fdc_time 0 w in
  set_motorspin 45000 w.

Definition write_ctrl_acorn (val : Z) (w : world) : world :=
  let val := u8 val in
  let w := if truthy (Z.land val 0x20) then wd1770_reset w else w in
  let w := set_wd_ctrl val w in
  let w := set_curdrive (if truthy (Z.land val 0x02) then 1 else 0) w in
  let w := set_wd_curside (if truthy (Z.land (wd_ctrl w) 0x04) then 1 else 0) w in
  set_wd_density (if truthy (Z.land (wd_ctrl w) 0x08) then 0 else 1) w.

Definition write_ctrl_master (val : Z) (w : world) : world :=
  let val := u8 val in
  let w := if truthy (Z.land val 0x04) then wd1770_reset w else w in
  let w := set_wd_ctrl val w in
  let w := set_curdrive (if truthy (Z.land val 2) then 1 else 0) w in
  let w := set_wd_curside (if truthy (Z.land (wd_ctrl w) 0x10) then 1 else 0) w in
  set_wd_density (if truthy (Z.land (wd_ctrl w) 0x20) then 0 else 1) w.

Definition write_ctrl_stl (val : Z) (w : world) : world :=
  let val := u8 val in
  let w := set_wd_ctrl val w in
  let w := set_curdrive (Z.land val 0x01) w in
  let w := set_wd_curside (if truthy (Z.land (wd_ctrl w) 0x02) then 1 else 0) w in
  set_wd_density (if truthy (Z.land (wd_ctrl w) 0x04) then 0 else 1) w.

Definition wd1770_write (addr val : Z) (w : world) : world :=
  let addr := u16 addr in
  match WD1770 w with
  | WD1770_ACORN =>
      if truthy (Z.land addr 0x0004) then write_1770 addr val w
      else write_ctrl_acorn val w
  | WD1770_MASTER =>
      if truthy (Z.land addr 0x0008) then write_1770 addr val w
      else write_ctrl_master val w
  | WD1770_SOLIDISK =>
      if truthy (Z.land addr 0x0004) then write_ctrl_stl val w
      else write_1770 addr val w
  end.

Definition read_1770 (addr : Z) (w : world) : Z * world :=
  let addr := u16 addr in
  match Z.land addr 0x03 with
  | 0 => (wd_status w, w)
  | 1 => (wd_track w, w)
  | 2 => (wd_sector w, w)
  | 3 =>
      let w := set_nmi (Z.land (nmi w) (Z.lnot 2)) w in
      let w := set_wd_status (u8 (Z.land (wd_status w) (Z.lnot 2))) w in
      (wd_data w, w)
  | _ => (0xfe, w)
  end.

Definition wd1770_read (addr : Z) (w : world) : Z * world :=
  let addr := u16 addr in
  match WD1770 w with
  | WD1770_ACORN =>
      if truthy (Z.land addr 0x0004) then read_1770 addr w else (0xFE, w)
  | WD1770_MASTER =>
      if truthy (Z.land addr 0x0008) then read_1770 addr w else (0xFE, w)
  | WD1770_SOLIDISK => read_1770 addr w
  end.

(** The tail shared by the completion cases of [wd1770_callback]. *)
Definition callback_done (status : Z) (w : world) : world :=
  let w := set_wd_status status w in
  let w := wd1770_setspindown w in
  if acorn_or_master w then set_nmi (Z.lor (nmi w) 1) w else w.

Definition wd1770_callback (w : world) : world :=
  let w := set_fdc_time 0 w in
  match Z.shiftr (wd_command w) 4 with
  | 0 | 1 | 3 | 5 | 7 =>
      (* Restore, Seek, and the stepping commands that update the track
         register; no break, control runs into the next group *)
      let w := set_wd_track (u8 (wd_curtrack w)) w in
      callback_done (Z.lor 0x80 (track0 w)) w
  | 2 | 4 | 6 =>
      callback_done (Z.lor 0x80 (track0 w)) w
  | 8 => callback_done 0x80 w
  | 0xA => callback_done 0x80 w
  | 0xC =>
      let w := callback_done 0x80 w in
      set_wd_sector (wd_track w) w
  | 0xF => callback_done 0x80 w
  | _ => w
  end.

Definition wd1770_datacrcerror (w : world) : world :=
  let w := set_fdc_time 0 w in
  let w := set_nmi (if acorn_or_master w then 1 else 0) w in
  let w := set_wd_status 0x88 w in
  wd1770_spindown w.

Definition wd1770_headercrcerror (w : world) : world :=
  let w := set_fdc_time 0 w in
  let w := set_nmi (if acorn_or_master w then 1 else 0) w in
  let w := set_wd_status 0x98 w in
  wd1770_spindown w.

(** Whether an address on the board's range selects the chip's registers
    rather than the board's control register: the test [wd1770_write]
    makes for each board. *)
Definition chip_selected (b : board) (addr : Z) : bool :=
  match b with
  | WD1770_ACORN => truthy (Z.land (u16 addr) 0x0004)
  | WD1770_MASTER => truthy (Z.land (u16 addr) 0x0008)
  | WD1770_SOLIDISK => negb (truthy (Z.land (u16 addr) 0x0004))
  end.

(** ** Runs and observations *)

(** The busy bit as the command register tests it: [wd1770.status & 1]. *)
Definition busy (w : world) : bool := truthy (Z.land (wd_status w) 1).

(** A write [(addr, val)] that lands in the command register. *)
Definition command_write (aw : Z * Z) : Prop := Z.land (u16 (fst aw)) 0x03 = 0.

(** A command byte of class Force Interrupt. *)
Definition force_interrupt (aw : Z * Z) : Prop :=
  command_write aw /\ Z.shiftr (u8 (snd aw)) 4 = 0xD.

(** A sequence of writes to the four chip registers, oldest first. *)
Definition run_writes (ws : list (Z * Z)) (w : world) : world :=
  fold_left (fun w aw => write_1770 (fst aw) (snd aw) w) ws w.

(** The calls recorded between [w] and a later [w']. *)
Definition new_events (w w' : world) : list event :=
  drop (length (trace w)) (trace w').

Definition is_transfer (e : event) : bool :=
  match e with
  | ev_disc_readsector _ _ _ _ _ | ev_disc_writesector _ _ _ _ _
  | ev_disc_readaddress _ _ _ _ | ev_disc_format _ _ _ _ => true
  | _ => false
  end.

(** The read, write, address and format calls among the events, in the
    order they were issued. *)
Definition transfer_calls (es : list event) : list event :=
  List.filter is_transfer es.

(** The transfer calls that one accepted command makes: none; one
    read-sector, read-address or format call; or the write-sector call
    followed by the read-address call that the Write Sector case runs into,
    for the same drive, track, side and density. *)
Definition of_one_command (calls : list event) : Prop :=
  calls = []
  \/ (exists d s t sd dn, calls = [ev_disc_readsector d s t sd dn])
  \/ (exists d s t sd dn,
        calls = [ev_disc_writesector d s t sd dn;
                 ev_disc_readaddress d t sd dn])
  \/ (exists d t sd dn, calls = [ev_disc_readaddress d t sd dn])
  \/ (exists d t sd dn, calls = [ev_disc_format d t sd dn]).

(** [n] divided poll ticks: the switch of [sdf_poll] run [n] times. *)
Definition ticks (n : nat) (w : world) : world := Nat.iter n sdf_poll_switch w.

(** The bytes handed to the data-ready callback, oldest first. *)
Definition data_ready (tr : list event) : list Z :=
  flat_map (fun e => match e with ev_fdc_data d => [d] | _ => [] end) tr.

(** The CPU stores [b] in the data register, then a divided tick runs. *)
Definition supply_byte (w : world) (b : Z) : world :=
  sdf_poll_switch (write_1770 3 b w).

Definition supply_bytes (bs : list Z) (w : world) : world :=
  fold_left supply_byte bs w.

(** ** Concrete machines *)

Definition no_drive : DRIVE :=
  mkDRIVE None None None None None None None None.

(** The globals as the C runtime zeroes them, on an Acorn 1770 board. *)
Definition power_on : world :=
  mkWorld 0 0 0 0 0 0 0 0 0 0 0 0 0 WD1770_ACORN
          [no_drive; no_drive] 0 [0; 0] 0 0 0 0 [0; 0]
          [None; None] [None; None] [0; 0] ST_IDLE 0 0 0 0 0 0 [].

Definition acorn_dfs_40_single : geometry_t :=
  mkGeometry "Acorn DFS" SIDES_SINGLE DENS_SINGLE 400 40 10 256.

Definition acorn_adfs_f : geometry_t :=
  mkGeometry "Acorn ADFS F" SIDES_INTERLEAVED DENS_QUAD 1600 80 10 1024.

Definition acorn_adfs_l : geometry_t :=
  mkGeometry "Acorn ADFS L" SIDES_INTERLEAVED DENS_DOUBLE 2560 80 16 256.

Definition solidisk_80_sequential : geometry_t :=
  mkGeometry "Solidisk DDFS" SIDES_SEQUENTIAL DENS_DOUBLE 1280 80 16 256.

(** The start of a DFS image: a catalogue whose sector count, at 0x106 and
    0x107, is 400. *)
Definition dfs_image : FILE :=
  mkFILE (repeat 0 (Z.to_nat 0x106) ++ [1; 0x90]) 0 true.

Definition blank_image : FILE := mkFILE [] 0 true.

(** Drive 0 holds a writable 40-track single-sided DFS image. *)
Definition dfs_in_drive0 : world :=
  sdf_load_detected 0 dfs_image acorn_dfs_40_single power_on.

(** Drive 1 holds that image, drive 0 is empty. *)
Definition dfs_in_drive1 : world :=
  sdf_load_detected 1 dfs_image acorn_dfs_40_single power_on.

(** Drive 0 holds a quad-density ADFS F image. *)
Definition adfs_f_in_drive0 : world :=
  sdf_load_detected 0 blank_image acorn_adfs_f power_on.

(** ** Definitions used by the statements *)

(** The controller's status byte and the trace are the same in both worlds. *)
Definition same_controller (w w' : world) : Prop :=
  wd_status w' = wd_status w /\ trace w' = trace w.

(** The four transfer-initiating operations of the backend. *)
Inductive transfer_op : Type :=
  op_readsector | op_writesector | op_readaddress | op_format.

(** Whether the operation names a sector and tests it. *)
Definition has_sector (op : transfer_op) : bool :=
  match op with
  | op_readsector | op_writesector => true
  | op_readaddress | op_format => false
  end.

(** The backend entry point of each operation; read-address and format take
    no sector. *)
Definition start_op (op : transfer_op) (drive sector track side dens : Z)
    (w : world) : world :=
  match op with
  | op_readsector => sdf_readsector drive sector track side dens w
  | op_writesector => sdf_writesector drive sector track side dens w
  | op_readaddress => sdf_readaddress drive track side dens w
  | op_format => sdf_format drive track side dens w
  end.

(** All the nested tests of an operation at once. *)
Definition guards_pass (w : world) (with_sector : bool)
    (drive sector track side dens : Z) : bool :=
  (drive <? NUM_DRIVES)
  && match geometry_at w drive with
     | Some geo =>
         density_guard dens geo && track_guard w geo drive track
         && (if with_sector then sector_guard geo sector else true)
         && side_guard geo side
     | None => false
     end.

(** Spec: the density class a request asks for; the flag is clear for single
    density and set for double density. *)
Definition requested_density (dens : Z) : density_t :=
  if truthy dens then DENS_DOUBLE else DENS_SINGLE.

(** The guard failures a request can meet, one disjunct each: invalid drive
    index, no geometry bound, density mismatch, track not the last-seeked
    one, track out of range, sector out of range, side 1 on a single-sided
    geometry. *)
Definition guard_fails (w : world) (with_sector : bool)
    (drive sector track side dens : Z) : Prop :=
  NUM_DRIVES <= drive
  \/ geometry_at w drive = None
  \/ exists geo, geometry_at w drive = Some geo
       /\ (requested_density dens <> density geo
           \/ aget (current_track w) drive <> Some track
           \/ ~ (0 <= track < tracks geo)
           \/ (with_sector = true /\ ~ (0 <= sector < sectors_per_track geo))
           \/ (side <> 0 /\ sides geo = SIDES_SINGLE)).

(** Spec: the byte offset of a sector.  Side 0 is [track * bytes-per-track],
    doubled when the sides are interleaved; side 1 is
    [(track + total-tracks) * bytes-per-track] for the sequential layout and
    [(2*track+1) * bytes-per-track] for the interleaved one; then
    [sector * sector-size] is added.  [None] where the sentence names no
    case. *)
Definition spec_offset (geo : geometry_t) (track side sector : Z) : option Z :=
  let track_bytes := sectors_per_track geo * sector_size geo in
  let base :=
    if side =? 0 then
      Some (if sides_eqb (sides geo) SIDES_INTERLEAVED
            then 2 * (track * track_bytes)
            else track * track_bytes)
    else if side =? 1 then
      match sides geo with
      | SIDES_SEQUENTIAL => Some ((track + tracks geo) * track_bytes)
      | SIDES_INTERLEAVED => Some ((2 * track + 1) * track_bytes)
      | _ => None
      end
    else None in
  match base with
  | Some b => Some (b + sector * sector_size geo)
  | None => None
  end.

(** Bounds that every catalogue entry meets and under which the offset
    arithmetic of [io_offset] does not wrap. *)
Definition geometry_small (geo : geometry_t) : bool :=
  (0 <? tracks geo) && (tracks geo <=? 80)
  && (0 <? sectors_per_track geo) && (sectors_per_track geo <=? 18)
  && (0 <? sector_size geo) && (sector_size geo <=? 1024).

(** Drive 0 holds an ADFS L image and its head is over track 10. *)
Definition adfs_l_at_track_10 : world :=
  sdf_seek 0 10 (sdf_load_detected 0 blank_image acorn_adfs_l power_on).

(** The state in which each operation begins its transfer. *)
Definition transfer_state (op : transfer_op) : state_t :=
  match op with
  | op_readsector => ST_READSECTOR
  | op_writesector => ST_WRITESECTOR
  | op_readaddress => ST_READ_ADDR0
  | op_format => ST_FORMAT
  end.

(** Store [c] in the [close] slot of [drives[drive]]. *)
Definition rebind_close (drive : Z) (c : option backend) (w : world) : world :=
  match aget (drives w) drive with
  | Some d =>
      set_drives
        (aset (drives w) drive
              (mkDRIVE c (seek d) (readsector d) (writesector d)
                       (readaddress d) (poll d) (format d) (abort d))) w
  | None => w
  end.

(** A write-sector transfer that is waiting for the CPU: [c] bytes are still
    to come, no byte is latched, drive [d] is not write-protected and the
    file handles are [fps]. *)
Definition stalled (c : Z) (fps : list (option FILE)) (d : Z) (w : world)
    : Prop :=
  state w = ST_WRITESECTOR /\ truthy (wd_written w) = false
  /\ sdf_drive w = d /\ writeprot_at w d = false
  /\ count w = c /\ sdf_fp w = fps.

(** [putc] of each byte in turn. *)
Definition putcs (bs : list Z) (f : FILE) : FILE :=
  fold_left (fun f b => putc b f) bs f.

(** The bytes 0, 1, ..., 255: one DFS sector's worth. *)
Definition sample_sector : list Z := map Z.of_nat (seq 0 256).

(** A sequence of writes to the board's address range, oldest first. *)
Definition run_board_writes (ws : list (Z * Z)) (w : world) : world :=
  fold_left (fun w aw => wd1770_write (fst aw) (snd aw) w) ws w.




(** Every byte of the image is a byte. *)
Definition byte_file (f : FILE) : Prop :=
  Forall (fun b => 0 <= b < 256) (f_bytes f).

(** The sector count that [try_dfs] reads after seeking to [off]. *)
Definition dfs_count_at (off : Z) (f : FILE) : Z :=
  fst (dfs_sector_count (fseek_set off f)).

(** The loop of [try_dfs] with each read of a second-side count replaced by
    [cnt] at the offset sought. *)
Fixpoint dfs_choice (c : Z) (cnt : Z -> Z) (tbl : list geometry_t)
    : option geometry_t :=
  match tbl with
  | [] => None
  | ptr :: rest =>
      if c =? size_in_sectors ptr then
        if sides_eqb (sides ptr) SIDES_SINGLE then Some ptr
        else
          let track_bytes := u32 (sectors_per_track ptr * sector_size ptr) in
          let side2_off :=
            if sides_eqb (sides ptr) SIDES_SEQUENTIAL
            then u32 (tracks ptr * track_bytes)
            else track_bytes in
          if cnt (u32 (side2_off + 0x106)) =? c then Some ptr
          else dfs_choice c cnt rest
      else dfs_choice c cnt rest
  end.

(** The per-drive arrays have their [NUM_DRIVES] entries. *)
Definition two_drives (w : world) : Prop :=
  length (drives w) = 2%nat /\ length (geometry w) = 2%nat
  /\ length (sdf_fp w) = 2%nat /\ length (writeprot w) = 2%nat.

(** The file was opened only for reading. *)
Definition read_only (host : fopen_result) : bool :=
  match host with
  | fopen_ro _ => true
  | _ => false
  end.

(** The stream [sdf_load] works on, if any: at the start of the file, open
    for update or only for reading. *)
Definition opened (host : fopen_result) : option FILE :=
  match host with
  | fopen_rw bytes => Some (mkFILE bytes 0 true)
  | fopen_ro bytes => Some (mkFILE bytes 0 false)
  | fopen_fail => None
  end.

Definition acorn_adfs_m : geometry_t :=
  mkGeometry "Acorn ADFS M" SIDES_SINGLE DENS_DOUBLE 1280 80 16 256.

(** The dispatch-layer entry point of each operation; read-address and
    format take no sector. *)
Definition disc_op (op : transfer_op) (drive sector track side dens : Z)
    (w : world) : world :=
  match op with
  | op_readsector => disc_readsector drive sector track side dens w
  | op_writesector => disc_writesector drive sector track side dens w
  | op_readaddress => disc_readaddress drive track side dens w
  | op_format => disc_format drive track side dens w
  end.

(** The member of [drives[drive]] the operation is called through. *)
Definition slot_of (op : transfer_op) : DRIVE -> option backend :=
  match op with
  | op_readsector => readsector
  | op_writesector => writesector
  | op_readaddress => readaddress
  | op_format => format
  end.

(** The countdown of [disc_poll] has [n] polls to go, the backend is idle,
    and the controller and the trace are as in [w0]. *)
Definition pending (n : Z) (w0 w : world) : Prop :=
  disc_notfound w = n /\ state w = ST_IDLE /\ trace w = trace w0
  /\ wd_status w = wd_status w0 /\ WD1770 w = WD1770 w0.

(** What [getc] gives at byte [i] of the file: the byte, or [EOF]. *)
Definition byte_or_eof (bytes : list Z) (i : nat) : Z :=
  match bytes !! i with
  | Some b => b
  | None => EOF
  end.

(** The [n] values [getc] gives from byte [p] on. *)
Definition sector_bytes (bytes : list Z) (p n : nat) : list Z :=
  map (fun i => byte_or_eof bytes (p + i)) (seq 0 n).

(** What the backend is transferring: its state and count, the poll
    divider, the open images with their positions, the geometries, the
    write-protect flags and the latched drive, side, track and sector. *)
Definition transfer_view (w : world) :=
  (state w, count w, sdf_time w, sdf_fp w, geometry w, writeprot w,
   (sdf_drive w, sdf_side w, sdf_track w, sdf_sector w)).

(** Where the head is, for the controller and for the backend: the head
    position, the backend's track per drive, the trace, the selected drive,
    the track register and the board. *)
Definition head_view (w : world) :=
  (wd_curtrack w, current_track w, trace w, curdrive w, wd_track w,
   WD1770 w).

(** The entry points of the three files: the controller's register
    accesses, reset and completion callback, the poll, the dispatch-layer
    calls, and the loading, creating and closing of images. *)
Inductive action : Type :=
  | act_write (addr val : Z)
  | act_read (addr : Z)
  | act_reset
  | act_callback
  | act_poll
  | act_seek (drive track : Z)
  | act_op (op : transfer_op) (drive sector track side dens : Z)
  | act_abort (drive : Z)
  | act_close (drive : Z)
  | act_init
  | act_load (drive : Z) (host : fopen_result)
  | act_new (drive : Z) (kind : new_kind) (created : bool) (mode : open_mode).

Definition run_action (a : action) (w : world) : world :=
  match a with
  | act_write addr val => wd1770_write addr val w
  | act_read addr => snd (wd1770_read addr w)
  | act_reset => wd1770_reset w
  | act_callback => wd1770_callback w
  | act_poll => disc_poll w
  | act_seek drive track => disc_seek drive track w
  | act_op op drive sector track side dens =>
      disc_op op drive sector track side dens w
  | act_abort drive => disc_abort drive w
  | act_close drive => disc_close drive w
  | act_init => disc_init w
  | act_load drive host => sdf_load drive host w
  | act_new drive kind created mode => disc_new drive kind created mode w
  end.

Definition run_actions (acts : list action) (w : world) : world :=
  fold_left (fun w a => run_action a w) acts w.

(** The backend is not in the formatting state. *)
Definition no_format (w : world) : Prop := state w <> ST_FORMAT.

(** Drive 0 after a read-only image was loaded and a later load failed to
    open its file: the image is still bound, through a stream opened for
    reading only, and the failed load has cleared the write-protect flag. *)
Definition stale_read_only_drive0 : world :=
  sdf_load 0 fopen_fail (sdf_load 0 (fopen_ro (f_bytes dfs_image)) power_on).

(** A write to the board that clears the busy bit although no command has
    completed: a Force Interrupt stored in the command register, or a write
    to the control register with the board's reset bit set (0x20 on the
    Acorn board, 0x04 on the Master; the Solidisk control register has
    none). *)
Definition clears_busy (b : board) (aw : Z * Z) : bool :=
  if chip_selected b (fst aw)
  then (Z.land (u16 (fst aw)) 0x03 =? 0) && (Z.shiftr (u8 (snd aw)) 4 =? 0xD)
  else match b with
       | WD1770_ACORN => truthy (Z.land (u8 (snd aw)) 0x20)
       | WD1770_MASTER => truthy (Z.land (u8 (snd aw)) 0x04)
       | WD1770_SOLIDISK => false
       end.

(** * Properties *)

(** ** Machine integers and bits *)

Lemma u8_id (x : Z) : 0 <= x < 256 -> u8 x = x.
Proof. intros H. unfold u8. apply Z.mod_small. exact H. Qed.

Lemma u16_id (x : Z) : 0 <= x < 65536 -> u16 x = x.
Proof. intros H. unfold u16. apply Z.mod_small. exact H. Qed.

Lemma u32_id (x : Z) : 0 <= x < 4294967296 -> u32 x = x.
Proof. intros H. unfold u32. apply Z.mod_small. exact H. Qed.

Lemma u8_range (x : Z) : 0 <= u8 x < 256.
Proof. unfold u8. apply Z.mod_pos_bound. lia. Qed.

Lemma u32_range (x : Z) : 0 <= u32 x < 4294967296.
Proof. unfold u32. apply Z.mod_pos_bound. lia. Qed.

Lemma nibble_range (v : Z) : 0 <= Z.shiftr (u8 v) 4 < 16.
Proof.
  pose proof (u8_range v) as H. rewrite Z.shiftr_div_pow2 by lia.
  change (2 ^ 4) with 16. split.
  - apply Z.div_pos; lia.
  - apply Z.div_lt_upper_bound; lia.
Qed.

Lemma testbit_one (n : Z) : 0 <= n -> Z.testbit 1 n = (n =? 0).
Proof. intros H. destruct n as [ | p | p ]; [ reflexivity | reflexivity | lia ]. Qed.

(** Clearing the data-request bit of the status byte keeps the busy bit. *)
Lemma busy_bit_clear_drq (s : Z) :
  Z.land (u8 (Z.land s (Z.lnot 2))) 1 = Z.land s 1.
Proof.
  apply Z.bits_inj'. intros n Hn.
  rewrite !Z.land_spec, testbit_one by lia.
  destruct (n =? 0) eqn:E; [ | rewrite !andb_false_r; reflexivity ].
  apply Z.eqb_eq in E. subst n. rewrite !andb_true_r.
  unfold u8. change 256 with (2 ^ 8).
  rewrite Z.mod_pow2_bits_low by lia.
  rewrite Z.land_spec, Z.lnot_spec by lia.
  change (Z.testbit 2 0) with false. apply andb_true_r.
Qed.

(** ** What the backend and the dispatch layer leave alone *)

Ltac frame_cases :=
  repeat match goal with
         | |- context [match ?x with _ => _ end] => destruct x
         end.

Lemma sdf_readsector_frame d s t sd dn w :
  same_controller w (sdf_readsector d s t sd dn w).
Proof.
  unfold same_controller, sdf_readsector, start_notfound, io_seek.
  frame_cases; split; reflexivity.
Qed.

Lemma sdf_writesector_frame d s t sd dn w :
  same_controller w (sdf_writesector d s t sd dn w).
Proof.
  unfold same_controller, sdf_writesector, start_notfound, io_seek.
  frame_cases; split; reflexivity.
Qed.

Lemma sdf_readaddress_frame d t sd dn w :
  same_controller w (sdf_readaddress d t sd dn w).
Proof.
  unfold same_controller, sdf_readaddress, start_notfound.
  frame_cases; split; reflexivity.
Qed.

Lemma sdf_format_frame d t sd dn w :
  same_controller w (sdf_format d t sd dn w).
Proof.
  unfold same_controller, sdf_format, start_notfound, io_seek.
  frame_cases; split; reflexivity.
Qed.

Lemma sdf_seek_frame d t w : same_controller w (sdf_seek d t w).
Proof.
  unfold same_controller, sdf_seek. frame_cases; split; reflexivity.
Qed.

(** Each dispatch entry point records its own call and nothing else, and
    leaves the status byte alone. *)

Lemma disc_seek_status d t w : wd_status (disc_seek d t w) = wd_status w.
Proof.
  unfold disc_seek. destruct (slot seek _ d) as [[]|]; cbn; [ | reflexivity ].
  apply (sdf_seek_frame d t (emit (ev_disc_seek d t) w)).
Qed.

Lemma disc_seek_trace d t w :
  trace (disc_seek d t w) = trace w ++ [ev_disc_seek d t].
Proof.
  unfold disc_seek. destruct (slot seek _ d) as [[]|]; cbn; [ | reflexivity ].
  apply (sdf_seek_frame d t (emit (ev_disc_seek d t) w)).
Qed.

Lemma disc_readsector_status d s t sd dn w :
  wd_status (disc_readsector d s t sd dn w) = wd_status w.
Proof.
  unfold disc_readsector.
  destruct (slot readsector _ d) as [[]|]; [ | reflexivity ].
  apply (sdf_readsector_frame d s t sd dn (emit _ w)).
Qed.

Lemma disc_readsector_trace d s t sd dn w :
  trace (disc_readsector d s t sd dn w)
  = trace w ++ [ev_disc_readsector d s t sd dn].
Proof.
  unfold disc_readsector.
  destruct (slot readsector _ d) as [[]|]; [ | reflexivity ].
  apply (sdf_readsector_frame d s t sd dn (emit _ w)).
Qed.

Lemma disc_writesector_status d s t sd dn w :
  wd_status (disc_writesector d s t sd dn w) = wd_status w.
Proof.
  unfold disc_writesector.
  destruct (slot writesector _ d) as [[]|]; [ | reflexivity ].
  apply (sdf_writesector_frame d s t sd dn (emit _ w)).
Qed.

Lemma disc_writesector_trace d s t sd dn w :
  trace (disc_writesector d s t sd dn w)
  = trace w ++ [ev_disc_writesector d s t sd dn].
Proof.
  unfold disc_writesector.
  destruct (slot writesector _ d) as [[]|]; [ | reflexivity ].
  apply (sdf_writesector_frame d s t sd dn (emit _ w)).
Qed.

Lemma disc_readaddress_status d t sd dn w :
  wd_status (disc_readaddress d t sd dn w) = wd_status w.
Proof.
  unfold disc_readaddress.
  destruct (slot readaddress _ d) as [[]|]; [ | reflexivity ].
  apply (sdf_readaddress_frame d t sd dn (emit _ w)).
Qed.

Lemma disc_readaddress_trace d t sd dn w :
  trace (disc_readaddress d t sd dn w)
  = trace w ++ [ev_disc_readaddress d t sd dn].
Proof.
  unfold disc_readaddress.
  destruct (slot readaddress _ d) as [[]|]; [ | reflexivity ].
  apply (sdf_readaddress_frame d t sd dn (emit _ w)).
Qed.

Lemma disc_format_status d t sd dn w :
  wd_status (disc_format d t sd dn w) = wd_status w.
Proof.
  unfold disc_format.
  destruct (slot format _ d) as [[]|]; [ | reflexivity ].
  apply (sdf_format_frame d t sd dn (emit _ w)).
Qed.

Lemma disc_format_trace d t sd dn w :
  trace (disc_format d t sd dn w) = trace w ++ [ev_disc_format d t sd dn].
Proof.
  unfold disc_format.
  destruct (slot format _ d) as [[]|]; [ | reflexivity ].
  apply (sdf_format_frame d t sd dn (emit _ w)).
Qed.

#[global] Arguments sdf_readsector : simpl never.
#[global] Arguments sdf_writesector : simpl never.
#[global] Arguments sdf_readaddress : simpl never.
#[global] Arguments sdf_format : simpl never.
#[global] Arguments sdf_seek : simpl never.
#[global] Arguments disc_seek : simpl never.
#[global] Arguments disc_readsector : simpl never.
#[global] Arguments disc_writesector : simpl never.
#[global] Arguments disc_readaddress : simpl never.
#[global] Arguments disc_format : simpl never.

Create Rewrite HintDb obs.
#[global] Hint Rewrite
  disc_seek_status disc_seek_trace
  disc_readsector_status disc_readsector_trace
  disc_writesector_status disc_writesector_trace
  disc_readaddress_status disc_readaddress_trace
  disc_format_status disc_format_trace : obs.

(** Push a projection through setters and dispatch calls. *)
Ltac observe := repeat (progress (cbn; autorewrite with obs)).

Ltac split_ifs :=
  repeat match goal with
         | |- context [if ?c then _ else _] => destruct c; observe
         end.

(** ** The command register while busy *)

Lemma new_events_same w w' : trace w' = trace w -> new_events w w' = [].
Proof. intros H. unfold new_events. rewrite H. apply drop_all. Qed.

Lemma new_events_app w w' l : trace w' = trace w ++ l -> new_events w w' = l.
Proof. intros H. unfold new_events. rewrite H. apply drop_app_length. Qed.

Lemma reg_select_range (a : Z) :
  Z.land (u16 a) 0x03 = 0 \/ Z.land (u16 a) 0x03 = 1
  \/ Z.land (u16 a) 0x03 = 2 \/ Z.land (u16 a) 0x03 = 3.
Proof.
  change 0x03 with (Z.ones 2). rewrite Z.land_ones by lia.
  change (2 ^ 2) with 4. change (Z.ones 2) with 3.
  pose proof (Z.mod_pos_bound (u16 a) 4 ltac:(lia)). lia.
Qed.

(** While the busy bit is set, a register write other than Force Interrupt
    leaves the bit set and records no call; a command write is dropped
    whole. *)
Lemma write_while_busy a v w :
  busy w = true -> ~ force_interrupt (a, v) ->
  busy (write_1770 a v w) = true /\ trace (write_1770 a v w) = trace w
  /\ (command_write (a, v) -> write_1770 a v w = w).
Proof.
  intros Hb Hfi. unfold command_write, write_1770. cbn [fst snd].
  destruct (reg_select_range a) as [H | [H | [H | H]]]; rewrite H.
  - unfold busy in Hb. rewrite Hb.
    destruct (Z.shiftr (u8 v) 4 =? 13) eqn:E.
    + apply Z.eqb_eq in E. exfalso. apply Hfi. split; assumption.
    + cbn. unfold busy. auto.
  - split; [ exact Hb | split; [ reflexivity | discriminate ] ].
  - split; [ exact Hb | split; [ reflexivity | discriminate ] ].
  - split; [ | split; [ reflexivity | discriminate ] ].
    unfold busy in *. cbn. rewrite busy_bit_clear_drq. exact Hb.
Qed.

Lemma nibble_cases (v : Z) (P : Z -> Prop) :
  P 0 -> P 1 -> P 2 -> P 3 -> P 4 -> P 5 -> P 6 -> P 7 ->
  P 8 -> P 9 -> P 10 -> P 11 -> P 12 -> P 13 -> P 14 -> P 15 ->
  P (Z.shiftr (u8 v) 4).
Proof.
  intros. pose proof (nibble_range v) as Hn.
  assert (Hc : Z.shiftr (u8 v) 4 = 0 \/ Z.shiftr (u8 v) 4 = 1
               \/ Z.shiftr (u8 v) 4 = 2 \/ Z.shiftr (u8 v) 4 = 3
               \/ Z.shiftr (u8 v) 4 = 4 \/ Z.shiftr (u8 v) 4 = 5
               \/ Z.shiftr (u8 v) 4 = 6 \/ Z.shiftr (u8 v) 4 = 7
               \/ Z.shiftr (u8 v) 4 = 8 \/ Z.shiftr (u8 v) 4 = 9
               \/ Z.shiftr (u8 v) 4 = 10 \/ Z.shiftr (u8 v) 4 = 11
               \/ Z.shiftr (u8 v) 4 = 12 \/ Z.shiftr (u8 v) 4 = 13
               \/ Z.shiftr (u8 v) 4 = 14 \/ Z.shiftr (u8 v) 4 = 15) by lia.
  repeat (destruct Hc as [Hc | Hc]); rewrite Hc; assumption.
Qed.

Lemma track0_cases w : track0 w = 0 \/ track0 w = 4.
Proof. unfold track0. destruct (truthy _); auto. Qed.

(** A write that issued a transfer call leaves the busy bit set. *)
Lemma write_transfer_sets_busy a v w :
  existsb is_transfer (new_events w (write_1770 a v w)) = true ->
  busy (write_1770 a v w) = true.
Proof.
  unfold write_1770.
  destruct (reg_select_range a) as [H | [H | [H | H]]]; rewrite H.
  2-4: rewrite new_events_same by reflexivity; discriminate.
  destruct (truthy (Z.land (wd_status w) 1)
            && negb (Z.shiftr (u8 v) 4 =? 13)) eqn:Hrej.
  { rewrite new_events_same by reflexivity; discriminate. }
  clear Hrej.
  pattern (Z.shiftr (u8 v) 4). apply nibble_cases; cbv beta iota;
    cbn [Z.eqb Pos.eqb negb].
  all: first
    [ rewrite new_events_same by (observe; split_ifs; reflexivity);
      discriminate
    | intros _; unfold busy, cmd_read_address; observe; split_ifs;
      first [ reflexivity
            | match goal with
              | |- context [track0 ?x] =>
                  destruct (track0_cases x) as [-> | ->]; reflexivity
              end ] ].
Qed.

Lemma run_writes_snoc pre aw w :
  run_writes (pre ++ [aw]) w
  = write_1770 (fst aw) (snd aw) (run_writes pre w).
Proof. unfold run_writes. rewrite fold_left_app. reflexivity. Qed.

(** ** Restore *)

Lemma low_nibble (v : Z) : 0 <= v < 16 -> Z.shiftr (u8 v) 4 = 0.
Proof.
  intros H. rewrite u8_id by lia. rewrite Z.shiftr_div_pow2 by lia.
  apply Z.div_small. change (2 ^ 4) with 16. lia.
Qed.

(** C9. With the busy bit clear, a command byte of class Restore sets the
    current track to 0 and issues seek(0) for the selected drive, and the
    status byte it leaves is 0xA1: motor-on, spin-up and busy are set, but
    the track-0 bit (0x04) is clear, because [track0] yields 4 for a
    nonzero current track and 0 for track 0. *)
Theorem restore_leaves_track0_bit_clear (v : Z) (w : world) :
  busy w = false -> 0 <= v < 16 ->
  let w' := write_1770 0 v w in
  wd_curtrack w' = 0
  /\ new_events w w' = [ev_disc_seek (curdrive w) 0]
  /\ wd_status w' = 0xA1
  /\ Z.testbit (wd_status w') 7 = true
  /\ Z.testbit (wd_status w') 0 = true
  /\ Z.testbit (wd_status w') 2 = false.
Proof.
  intros Hb Hv w'. subst w'. unfold write_1770.
  change (Z.land (u16 0) 3) with 0. cbv iota.
  unfold busy in Hb. rewrite Hb, (low_nibble v Hv). cbv beta iota.
  cbn [andb Z.eqb negb].
  assert (Hst : forall x t, wd_status (disc_seek x t (set_wd_status
            (Z.lor (Z.lor 128 33) (track0 (set_wd_curtrack 0
               (wd1770_spinup (set_wd_command (u8 v) w)))))
            (set_wd_curtrack 0 (wd1770_spinup (set_wd_command (u8 v) w)))))
          = 0xA1).
  { intros. rewrite disc_seek_status. reflexivity. }
  rewrite !Hst.
  split; [ | split; [ | repeat split ] ].
  - unfold disc_seek, sdf_seek. cbn. frame_cases; reflexivity.
  - apply new_events_app. rewrite disc_seek_trace. reflexivity.
Qed.

Lemma restore_leaves_track0_bit_clear_witness :
  busy power_on = false /\ 0 <= 0 < 16
  /\ wd_curtrack (write_1770 0 0 power_on) = 0
  /\ wd_status (write_1770 0 0 power_on) = 0xA1
  /\ Z.testbit (wd_status (write_1770 0 0 power_on)) 2 = false.
Proof.
  assert (Hb : busy power_on = false) by reflexivity.
  assert (Hv : 0 <= 0 < 16) by lia.
  destruct (restore_leaves_track0_bit_clear 0 power_on Hb Hv)
    as (H1 & _ & H3 & _ & _ & H6).
  repeat split; assumption || lia.
Defined.

(** ** The poll divider *)

Lemma sdf_poll_waits w :
  sdf_time w < 16 -> sdf_poll w = set_sdf_time (sdf_time w + 1) w.
Proof.
  intros H. unfold sdf_poll. cbn [sdf_time set_sdf_time].
  destruct (sdf_time w + 1 <=? 16) eqn:E; [ reflexivity | ].
  apply Z.leb_gt in E. lia.
Qed.

Lemma sdf_poll_fires w :
  16 <= sdf_time w -> sdf_poll w = sdf_poll_switch (set_sdf_time 0 w).
Proof.
  intros H. unfold sdf_poll. cbn [sdf_time set_sdf_time].
  destruct (sdf_time w + 1 <=? 16) eqn:E; [ apply Z.leb_le in E; lia | ].
  reflexivity.
Qed.

Lemma polls_wait (k : nat) : forall w,
  sdf_time w + Z.of_nat k <= 16 ->
  Nat.iter k sdf_poll w = set_sdf_time (sdf_time w + Z.of_nat k) w.
Proof.
  induction k as [ | k IH ]; intros w H.
  - change (Nat.iter 0 sdf_poll w) with w. rewrite Z.add_0_r.
    destruct w. reflexivity.
  - rewrite Nat.iter_succ, IH by lia. rewrite sdf_poll_waits by (cbn; lia).
    cbn [sdf_time set_sdf_time]. 
    replace (sdf_time w + Z.of_nat k + 1) with (sdf_time w + Z.of_nat (S k)) by lia.
    reflexivity.
Qed.

(** Seventeen polls make one divided tick. *)
Lemma seventeen_polls w :
  sdf_time w = 0 -> Nat.iter 17 sdf_poll w = sdf_poll_switch w.
Proof.
  intros H. change 17%nat with (S 16). rewrite Nat.iter_succ.
  rewrite polls_wait by (rewrite H; cbn; lia).
  rewrite sdf_poll_fires by (cbn; lia).
  rewrite H. destruct w. cbn in H. subst. reflexivity.
Qed.

(** ** The backend's guards *)

Lemma density_guard_iff (dens : Z) (geo : geometry_t) :
  density_guard dens geo = true <-> requested_density dens = density geo.
Proof.
  unfold density_guard, requested_density.
  destruct (truthy dens), (density geo); cbn; split; congruence.
Qed.

Lemma guard_fails_sound w ws drive sector track side dens :
  guard_fails w ws drive sector track side dens ->
  guards_pass w ws drive sector track side dens = false.
Proof.
  unfold guard_fails, guards_pass.
  intros [H | [H | (geo & Hg & H)]].
  - apply andb_false_iff. left. apply Z.ltb_ge. exact H.
  - rewrite H. apply andb_false_r.
  - rewrite Hg. apply andb_false_iff. right.
    destruct H as [H | [H | [H | [H | H]]]].
    + destruct (density_guard dens geo) eqn:E; [ | reflexivity ].
      apply density_guard_iff in E. contradiction.
    + unfold track_guard. destruct (aget (current_track w) drive) as [ct|];
        [ | rewrite andb_false_r; reflexivity ].
      destruct (track =? ct) eqn:E;
        [ | cbn; rewrite andb_false_r; reflexivity ].
      apply Z.eqb_eq in E. subst ct. contradiction.
    + unfold track_guard. destruct (aget (current_track w) drive) as [ct|];
        [ | rewrite andb_false_r; reflexivity ].
      destruct (track >=? 0) eqn:E1, (track <? tracks geo) eqn:E2;
        rewrite ?andb_false_r; try reflexivity.
      exfalso. apply H. apply Z.geb_le in E1. apply Z.ltb_lt in E2. lia.
    + destruct H as [Hw H]. rewrite Hw. unfold sector_guard.
      destruct (sector >=? 0) eqn:E1, (sector <? sectors_per_track geo) eqn:E2;
        cbn; rewrite ?andb_false_r; try reflexivity.
      exfalso. apply H. apply Z.geb_le in E1. apply Z.ltb_lt in E2. lia.
    + destruct H as [Hs Hd]. unfold side_guard. rewrite Hd.
      apply Z.eqb_neq in Hs. rewrite Hs. cbn. apply andb_false_r.
Qed.

(** A request whose guards do not all pass runs the two statements at the
    bottom of its function. *)
Lemma start_op_rejected op drive sector track side dens w :
  state w = ST_IDLE ->
  guards_pass w (has_sector op) drive sector track side dens = false ->
  start_op op drive sector track side dens w = start_notfound w.
Proof.
  intros Hs Hg. unfold guards_pass in Hg.
  destruct op; cbn [start_op has_sector] in *;
    unfold sdf_readsector, sdf_writesector, sdf_readaddress, sdf_format;
    rewrite Hs;
    destruct (drive <? NUM_DRIVES); try reflexivity;
    destruct (geometry_at w drive) as [geo|]; try reflexivity;
    destruct (density_guard dens geo); try reflexivity;
    destruct (track_guard w geo drive track); try reflexivity;
    try (destruct (sector_guard geo sector); try reflexivity);
    destruct (side_guard geo side); try reflexivity;
    discriminate.
Qed.

(** ** The not-found countdown *)

Lemma set_count_same w : set_count (count w) w = w.
Proof. destruct w. reflexivity. Qed.

Lemma ticks_S n w : ticks (S n) w = sdf_poll_switch (ticks n w).
Proof. reflexivity. Qed.

Lemma ticks_S_r n w : ticks (S n) w = ticks n (sdf_poll_switch w).
Proof. unfold ticks. apply Nat.iter_succ_r. Qed.

Lemma notfound_waits (c : nat) (w : world) :
  state w = ST_NOTFOUND -> count w = Z.of_nat c -> Z.of_nat c <= 65535 ->
  forall k, (k < c)%nat -> ticks k w = set_count (Z.of_nat (c - k)) w.
Proof.
  intros Hs Hc Hle k. induction k as [ | k IH ]; intros Hk.
  - cbn [ticks Nat.iter]. rewrite Nat.sub_0_r, <- Hc. symmetry.
    apply set_count_same.
  - rewrite ticks_S, IH by lia. unfold sdf_poll_switch. cbn.
    rewrite Hs. rewrite u16_id by lia.
    replace (Z.of_nat (c - k) - 1) with (Z.of_nat (c - S k)) by lia.
    destruct (Z.of_nat (c - S k) =? 0) eqn:E; [ | reflexivity ].
    apply Z.eqb_eq in E. lia.
Qed.

Lemma notfound_fires (c : nat) (w : world) :
  state w = ST_NOTFOUND -> count w = Z.of_nat (S c) -> Z.of_nat (S c) <= 65535 ->
  ticks (S c) w = set_state ST_IDLE (fdc_notfound (set_count 0 w)).
Proof.
  intros Hs Hc Hle. rewrite ticks_S.
  rewrite (notfound_waits (S c) w Hs Hc Hle c) by lia.
  replace (S c - c)%nat with 1%nat by lia.
  unfold sdf_poll_switch. cbn. rewrite Hs. reflexivity.
Qed.

(** C4. A read-sector, write-sector, read-address or format request that
    reaches the idle backend and fails a guard puts it in the not-found
    state with a count of 500.  For the next 499 divided poll ticks nothing
    is called; the 500th calls the not-found callback, and only that, and
    the backend is idle again.  The data-ready callback is never called. *)
Theorem guard_failure_counts_down (op : transfer_op)
    (drive sector track side dens : Z) (w : world) :
  state w = ST_IDLE -> 0 <= drive ->
  guard_fails w (has_sector op) drive sector track side dens ->
  let w1 := start_op op drive sector track side dens w in
  state w1 = ST_NOTFOUND /\ count w1 = 500
  /\ (forall k, (k < 500)%nat ->
        state (ticks k w1) = ST_NOTFOUND /\ new_events w (ticks k w1) = [])
  /\ state (ticks 500 w1) = ST_IDLE
  /\ new_events w (ticks 500 w1) = [ev_fdc_notfound]
  /\ data_ready (new_events w (ticks 500 w1)) = [].
Proof.
  intros Hs _ Hf w1. subst w1.
  rewrite (start_op_rejected _ _ _ _ _ _ _ Hs (guard_fails_sound _ _ _ _ _ _ _ Hf)).
  assert (H1 : state (start_notfound w) = ST_NOTFOUND) by reflexivity.
  assert (H2 : count (start_notfound w) = Z.of_nat 500) by reflexivity.
  split; [ exact H1 | split; [ reflexivity | ] ].
  split.
  - intros k Hk.
    rewrite (notfound_waits 500 _ H1 H2 ltac:(lia) k Hk).
    split; [ reflexivity | apply new_events_same; reflexivity ].
  - rewrite (notfound_fires 499 _ H1 H2 ltac:(lia)).
    assert (Hn : new_events w
               (set_state ST_IDLE (fdc_notfound (set_count 0 (start_notfound w))))
             = [ev_fdc_notfound])
      by (apply new_events_app; reflexivity).
    rewrite Hn. repeat split.
Qed.

Lemma guard_failure_counts_down_witness :
  state dfs_in_drive0 = ST_IDLE /\ 0 <= 0
  /\ guard_fails dfs_in_drive0 (has_sector op_readsector) 0 9 0 1 0
  /\ state (ticks 500 (sdf_readsector 0 9 0 1 0 dfs_in_drive0)) = ST_IDLE
  /\ new_events dfs_in_drive0
                (ticks 500 (sdf_readsector 0 9 0 1 0 dfs_in_drive0))
     = [ev_fdc_notfound].
Proof.
  assert (H1 : state dfs_in_drive0 = ST_IDLE) by reflexivity.
  assert (H2 : 0 <= 0) by lia.
  assert (H3 : guard_fails dfs_in_drive0 (has_sector op_readsector) 0 9 0 1 0).
  { right. right. exists acorn_dfs_40_single. split; [ reflexivity | ].
    right. right. right. right. split; [ lia | reflexivity ]. }
  pose proof (guard_failure_counts_down op_readsector 0 9 0 1 0
                dfs_in_drive0 H1 H2 H3) as (_ & _ & _ & H4 & H5 & _).
  exact (conj H1 (conj H2 (conj H3 (conj H4 H5)))).
Defined.

(** ** Arrays and file handles *)

Lemma aget_aset_eq {A : Type} (l : list A) (i : Z) (x y : A) :
  aget l i = Some x -> aget (aset l i y) i = Some y.
Proof.
  unfold aget, aset. destruct (i <? 0); [ discriminate | ].
  intros H. apply list_lookup_insert_eq. eapply lookup_lt_Some. exact H.
Qed.

Lemma aget_aset_ne {A : Type} (l : list A) (i j : Z) (y : A) :
  i <> j -> aget (aset l i y) j = aget l j.
Proof.
  unfold aget, aset. intros Hne.
  destruct (j <? 0) eqn:Ej; [ reflexivity | ].
  destruct (i <? 0) eqn:Ei; [ reflexivity | ].
  apply list_lookup_insert_ne. apply Z.ltb_ge in Ei, Ej. lia.
Qed.

Lemma fp_at_Some w drive f :
  fp_at w drive = Some f -> aget (sdf_fp w) drive = Some (Some f).
Proof.
  unfold fp_at. destruct (aget (sdf_fp w) drive) as [o|]; [ | discriminate ].
  intros ->. reflexivity.
Qed.

Lemma fp_at_set w drive f g :
  fp_at w drive = Some f ->
  fp_at (set_sdf_fp (aset (sdf_fp w) drive (Some g)) w) drive = Some g.
Proof.
  intros H. unfold fp_at. cbn.
  rewrite (aget_aset_eq _ _ _ _ (fp_at_Some _ _ _ H)). reflexivity.
Qed.

Lemma geometry_at_drive w drive geo :
  geometry_at w drive = Some geo -> 0 <= drive.
Proof.
  unfold geometry_at, aget. destruct (drive <? 0) eqn:E; [ discriminate | ].
  intros _. apply Z.ltb_ge in E. exact E.
Qed.

Lemma guards_pass_inv w ws drive sector track side dens :
  guards_pass w ws drive sector track side dens = true ->
  0 <= drive < NUM_DRIVES
  /\ exists geo, geometry_at w drive = Some geo
       /\ density_guard dens geo = true
       /\ track_guard w geo drive track = true
       /\ (ws = true -> sector_guard geo sector = true)
       /\ side_guard geo side = true.
Proof.
  unfold guards_pass. intros H. apply andb_true_iff in H as [Hd H].
  destruct (geometry_at w drive) as [geo|] eqn:Hg; [ | discriminate ].
  apply andb_true_iff in H as [H H4]. apply andb_true_iff in H as [H H3].
  apply andb_true_iff in H as [H1 H2].
  split; [ apply Z.ltb_lt in Hd; pose proof (geometry_at_drive _ _ _ Hg); lia | ].
  exists geo. repeat split; try assumption.
  intros ->. exact H3.
Qed.

Lemma io_seek_fp geo drive sector track side w f :
  0 <= drive < NUM_DRIVES -> fp_at w drive = Some f ->
  io_seek geo drive sector track side w
  = set_sdf_fp (aset (sdf_fp w) drive
       (Some (fseek_set (io_offset geo sector track side) f))) w.
Proof.
  intros Hd Hf. unfold io_seek. unfold NUM_DRIVES in Hd.
  rewrite u8_id by lia. rewrite Hf. reflexivity.
Qed.

(** ** Requests that pass the guards *)

Lemma sdf_readsector_accepted drive sector track side dens w geo :
  state w = ST_IDLE -> geometry_at w drive = Some geo ->
  guards_pass w true drive sector track side dens = true ->
  sdf_readsector drive sector track side dens w
  = set_state ST_READSECTOR
      (set_sdf_drive (u8 drive)
         (set_count (u16 (sector_size geo))
            (io_seek geo drive sector track side w))).
Proof.
  intros Hs Hg Hp. unfold guards_pass in Hp. rewrite Hg in Hp.
  unfold sdf_readsector. rewrite Hs, Hg.
  destruct (drive <? NUM_DRIVES); [ | discriminate ].
  destruct (density_guard dens geo); [ | discriminate ].
  destruct (track_guard w geo drive track); [ | discriminate ].
  destruct (sector_guard geo sector); [ | discriminate ].
  destruct (side_guard geo side); [ | discriminate ].
  reflexivity.
Qed.

Lemma sdf_writesector_accepted drive sector track side dens w geo :
  state w = ST_IDLE -> geometry_at w drive = Some geo ->
  guards_pass w true drive sector track side dens = true ->
  sdf_writesector drive sector track side dens w
  = set_state ST_WRITESECTOR
      (set_sdf_time (-20)
         (set_sdf_sector (u8 sector)
            (set_sdf_track (u8 track)
               (set_sdf_side (u8 side)
                  (set_sdf_drive (u8 drive)
                     (set_count (u16 (sector_size geo))
                        (io_seek geo drive sector track side w))))))).
Proof.
  intros Hs Hg Hp. unfold guards_pass in Hp. rewrite Hg in Hp.
  unfold sdf_writesector. rewrite Hs, Hg.
  destruct (drive <? NUM_DRIVES); [ | discriminate ].
  destruct (density_guard dens geo); [ | discriminate ].
  destruct (track_guard w geo drive track); [ | discriminate ].
  destruct (sector_guard geo sector); [ | discriminate ].
  destruct (side_guard geo side); [ | discriminate ].
  reflexivity.
Qed.

Lemma sdf_readaddress_accepted drive sector track side dens w :
  state w = ST_IDLE ->
  guards_pass w false drive sector track side dens = true ->
  sdf_readaddress drive track side dens w
  = set_state ST_READ_ADDR0
      (set_sdf_track (u8 track)
         (set_sdf_side (u8 side) (set_sdf_drive (u8 drive) w))).
Proof.
  intros Hs Hp. unfold guards_pass in Hp.
  unfold sdf_readaddress. rewrite Hs.
  destruct (drive <? NUM_DRIVES); [ | discriminate ].
  destruct (geometry_at w drive) as [geo|]; [ | discriminate ].
  destruct (density_guard dens geo); [ | discriminate ].
  destruct (track_guard w geo drive track); [ | discriminate ].
  destruct (side_guard geo side); [ | discriminate ].
  reflexivity.
Qed.

Lemma sdf_format_accepted drive sector track side dens w geo :
  state w = ST_IDLE -> geometry_at w drive = Some geo ->
  guards_pass w false drive sector track side dens = true ->
  sdf_format drive track side dens w
  = start_notfound
      (set_state ST_FORMAT
         (set_sdf_sector 0
            (set_sdf_track (u8 track)
               (set_sdf_side (u8 side)
                  (set_sdf_drive (u8 drive)
                     (io_seek geo drive 0 track side w)))))).
Proof.
  intros Hs Hg Hp. unfold guards_pass in Hp. rewrite Hg in Hp.
  unfold sdf_format. rewrite Hs, Hg.
  destruct (drive <? NUM_DRIVES); [ | discriminate ].
  destruct (density_guard dens geo); [ | discriminate ].
  destruct (track_guard w geo drive track); [ | discriminate ].
  destruct (side_guard geo side); [ | discriminate ].
  reflexivity.
Qed.

(** ** Format *)

(** C6. A format request that passes every guard does not leave the backend
    in the formatting state: after selecting the track it runs on into the
    two statements that start the not-found countdown.  500 divided ticks
    later the not-found callback fires; the write-protect flag is never
    looked at and no filler byte is written, the image keeps its bytes. *)
Theorem format_request_counts_down (drive track side dens : Z) (w : world)
    (geo : geometry_t) (f : FILE) :
  state w = ST_IDLE -> geometry_at w drive = Some geo ->
  fp_at w drive = Some f ->
  guards_pass w false drive 0 track side dens = true ->
  let w1 := sdf_format drive track side dens w in
  state w1 = ST_NOTFOUND /\ state w1 <> ST_FORMAT /\ count w1 = 500
  /\ state (ticks 500 w1) = ST_IDLE
  /\ new_events w (ticks 500 w1) = [ev_fdc_notfound]
  /\ exists f', fp_at (ticks 500 w1) drive = Some f'
                /\ f_bytes f' = f_bytes f.
Proof.
  intros Hs Hg Hf Hp w1. subst w1.
  destruct (guards_pass_inv _ _ _ _ _ _ _ Hp) as (Hd & _).
  rewrite (sdf_format_accepted _ 0 _ _ _ _ _ Hs Hg Hp).
  rewrite (io_seek_fp _ _ _ _ _ _ _ Hd Hf).
  match goal with |- context [start_notfound ?x] => set (w0 := x) end.
  assert (H1 : state (start_notfound w0) = ST_NOTFOUND) by reflexivity.
  assert (H2 : count (start_notfound w0) = Z.of_nat 500) by reflexivity.
  rewrite (notfound_fires 499 _ H1 H2 ltac:(lia)).
  split; [ reflexivity | split; [ discriminate | split; [ reflexivity | ] ] ].
  split; [ reflexivity | split ].
  - apply new_events_app. reflexivity.
  - exists (fseek_set (io_offset geo 0 track side) f). split.
    + apply (fp_at_set w drive f _ Hf).
    + unfold fseek_set. destruct (_ <? 0); reflexivity.
Qed.

Lemma format_request_counts_down_witness :
  state dfs_in_drive0 = ST_IDLE
  /\ guards_pass dfs_in_drive0 false 0 0 0 0 0 = true
  /\ state (sdf_format 0 0 0 0 dfs_in_drive0) = ST_NOTFOUND
  /\ new_events dfs_in_drive0 (ticks 500 (sdf_format 0 0 0 0 dfs_in_drive0))
     = [ev_fdc_notfound].
Proof.
  assert (H1 : state dfs_in_drive0 = ST_IDLE) by reflexivity.
  assert (H2 : geometry_at dfs_in_drive0 0 = Some acorn_dfs_40_single)
    by reflexivity.
  assert (H3 : fp_at dfs_in_drive0 0 = Some dfs_image) by reflexivity.
  assert (H4 : guards_pass dfs_in_drive0 false 0 0 0 0 0 = true)
    by reflexivity.
  pose proof (format_request_counts_down 0 0 0 0 dfs_in_drive0 _ _
                H1 H2 H3 H4) as (H5 & _ & _ & _ & H6 & _).
  exact (conj H1 (conj H4 (conj H5 H6))).
Defined.

(** ** Read address *)

Lemma read_addr6_stuck w :
  state w = ST_READ_ADDR6 ->
  state (sdf_poll_switch w) = ST_READ_ADDR6
  /\ trace (sdf_poll_switch w) = trace w ++ [ev_fdc_finishread].
Proof.
  intros Hs. unfold sdf_poll_switch. rewrite Hs.
  cbv zeta. destruct (geometry_at _ _) as [geo|]; [ | auto ].
  destruct (_ =? _); auto.
Qed.

Lemma read_addr6_forever n w :
  state w = ST_READ_ADDR6 -> state (ticks n w) = ST_READ_ADDR6.
Proof.
  intros Hs. induction n as [ | n IH ]; [ exact Hs | ].
  rewrite ticks_S. apply read_addr6_stuck. exact IH.
Qed.

Lemma not_idle_ignores w :
  state w <> ST_IDLE ->
  forall op drive sector track side dens,
    start_op op drive sector track side dens w = w.
Proof.
  intros Hs op drive sector track side dens.
  destruct op; cbn [start_op];
    unfold sdf_readsector, sdf_writesector, sdf_readaddress, sdf_format;
    destruct (state w); try reflexivity; contradiction.
Qed.

Lemma u8_u8 x : u8 (u8 x) = u8 x.
Proof. unfold u8. apply Z.mod_mod. lia. Qed.

(** C7. A read-address request that passes the guards hands track, side,
    sector, 1, 0, 0 to the data-ready callback on six consecutive divided
    ticks and calls the finished callback on the seventh.  The backend then
    stays in its last address state: every later divided tick calls the
    finished callback again, and every later request is ignored. *)
Theorem read_address_never_returns_to_idle (drive track side dens : Z)
    (w : world) :
  state w = ST_IDLE -> guards_pass w false drive 0 track side dens = true ->
  let w1 := sdf_readaddress drive track side dens w in
  new_events w (ticks 6 w1)
    = [ev_fdc_data (u8 track); ev_fdc_data (u8 side);
       ev_fdc_data (u8 (sdf_sector w));
       ev_fdc_data 1; ev_fdc_data 0; ev_fdc_data 0]
  /\ new_events (ticks 6 w1) (ticks 7 w1) = [ev_fdc_finishread]
  /\ (forall n, state (ticks (7 + n) w1) = ST_READ_ADDR6
                /\ new_events (ticks (7 + n) w1) (ticks (8 + n) w1)
                   = [ev_fdc_finishread])
  /\ (forall n op d s t sd dn,
        start_op op d s t sd dn (ticks (7 + n) w1) = ticks (7 + n) w1).
Proof.
  intros Hs Hp w1. subst w1.
  rewrite (sdf_readaddress_accepted _ 0 _ _ _ _ Hs Hp).
  match goal with |- context [ticks 6 ?x] => set (w0 := x) end.
  assert (H6 : state (ticks 6 w0) = ST_READ_ADDR6) by reflexivity.
  assert (Ht : trace (ticks 6 w0)
               = trace w ++ [ev_fdc_data (u8 track); ev_fdc_data (u8 side);
                             ev_fdc_data (u8 (sdf_sector w));
                             ev_fdc_data 1; ev_fdc_data 0; ev_fdc_data 0]).
  { subst w0. cbn. rewrite !u8_u8, <- !app_assoc. reflexivity. }
  clearbody w0.
  assert (Hn : forall n, state (ticks (7 + n) w0) = ST_READ_ADDR6).
  { intros n. induction n as [ | n IH ].
    - rewrite Nat.add_0_r, (ticks_S 6 w0). apply read_addr6_stuck. exact H6.
    - rewrite Nat.add_succ_r, ticks_S. apply read_addr6_stuck. exact IH. }
  split; [ | split; [ | split ] ].
  - apply new_events_app. exact Ht.
  - apply new_events_app. rewrite (ticks_S 6 w0).
    apply read_addr6_stuck. exact H6.
  - intros n. split; [ apply Hn | ].
    apply new_events_app.
    change (8 + n)%nat with (S (7 + n)).
    rewrite (ticks_S (7 + n) w0). apply read_addr6_stuck. apply Hn.
  - intros n op d s t sd dn. apply not_idle_ignores. rewrite Hn. discriminate.
Qed.

Lemma read_address_never_returns_to_idle_witness :
  state dfs_in_drive0 = ST_IDLE
  /\ guards_pass dfs_in_drive0 false 0 0 0 0 0 = true
  /\ state (ticks 7 (sdf_readaddress 0 0 0 0 dfs_in_drive0)) = ST_READ_ADDR6
  /\ new_events (ticks 7 (sdf_readaddress 0 0 0 0 dfs_in_drive0))
                (ticks 8 (sdf_readaddress 0 0 0 0 dfs_in_drive0))
     = [ev_fdc_finishread].
Proof.
  assert (H1 : state dfs_in_drive0 = ST_IDLE) by reflexivity.
  assert (H2 : guards_pass dfs_in_drive0 false 0 0 0 0 0 = true)
    by reflexivity.
  pose proof (read_address_never_returns_to_idle 0 0 0 0 dfs_in_drive0
                H1 H2) as (_ & _ & H3 & _).
  exact (conj H1 (conj H2 (H3 0%nat))).
Defined.

(** ** The sector offset *)

Lemma catalogue_small geo : In geo catalogue -> geometry_small geo = true.
Proof.
  revert geo. apply (proj1 (forallb_forall geometry_small catalogue)).
  vm_compute. reflexivity.
Qed.

Lemma geometry_small_inv geo :
  geometry_small geo = true ->
  0 < tracks geo <= 80 /\ 0 < sectors_per_track geo <= 18
  /\ 0 < sector_size geo <= 1024.
Proof.
  unfold geometry_small. rewrite !andb_true_iff.
  rewrite !Z.ltb_lt, !Z.leb_le. lia.
Qed.

Lemma track_guard_inv w geo drive track :
  track_guard w geo drive track = true ->
  aget (current_track w) drive = Some track /\ 0 <= track < tracks geo.
Proof.
  unfold track_guard. destruct (aget (current_track w) drive) as [ct|];
    [ | discriminate ].
  rewrite !andb_true_iff, Z.eqb_eq, Z.geb_le, Z.ltb_lt.
  intros [[-> H1] H2]. split; [ reflexivity | lia ].
Qed.

Lemma sector_guard_inv geo sector :
  sector_guard geo sector = true -> 0 <= sector < sectors_per_track geo.
Proof.
  unfold sector_guard. rewrite andb_true_iff, Z.geb_le, Z.ltb_lt. lia.
Qed.

Lemma io_offset_spec geo sector track side :
  geometry_small geo = true ->
  0 <= track < tracks geo -> 0 <= sector < sectors_per_track geo ->
  side_guard geo side = true -> side = 0 \/ side = 1 ->
  sides geo <> SIDES_NA ->
  spec_offset geo track side sector = Some (io_offset geo sector track side).
Proof.
  intros Hsm Ht Hs Hsd Hside Hna.
  apply geometry_small_inv in Hsm as (H1 & H2 & H3).
  unfold spec_offset, io_offset.
  rewrite (u8_id sector), (u8_id track) by lia.
  set (tb := sectors_per_track geo * sector_size geo).
  assert (Htb : 0 < tb <= 18432) by (subst tb; nia).
  assert (Hss : 0 <= sector * sector_size geo <= 17408) by nia.
  assert (Htt : 0 <= track * tb <= 1456128) by nia.
  rewrite (u32_id tb) by lia.
  destruct Hside as [-> | ->]; rewrite (u8_id _) by lia; cbn [Z.eqb Pos.eqb].
  - rewrite (u32_id (track * tb)) by lia.
    destruct (sides_eqb (sides geo) SIDES_INTERLEAVED).
    + rewrite (u32_id (track * tb * 2)) by lia.
      rewrite u32_id by lia. f_equal. lia.
    + rewrite u32_id by lia. reflexivity.
  - unfold side_guard in Hsd. cbn [Z.eqb orb] in Hsd.
    destruct (sides geo); cbn in Hsd |- *; try discriminate; try contradiction.
    + rewrite (u32_id ((track + tracks geo) * tb)) by nia.
      rewrite u32_id by nia. reflexivity.
    + rewrite (u32_id ((track * 2 + 1) * tb)) by nia.
      rewrite u32_id by nia. f_equal. lia.
Qed.

Lemma io_offset_nonneg geo sector track side :
  0 <= io_offset geo sector track side.
Proof. unfold io_offset. apply u32_range. Qed.

Lemma catalogue_sides geo : In geo catalogue -> sides geo <> SIDES_NA.
Proof.
  intros H.
  assert (Hb : negb (sides_eqb (sides geo) SIDES_NA) = true).
  { revert geo H.
    apply (proj1 (forallb_forall
                    (fun g => negb (sides_eqb (sides g) SIDES_NA)) catalogue)).
    vm_compute. reflexivity. }
  intros E. rewrite E in Hb. discriminate.
Qed.

(** C3. For a catalogue geometry bound to a drive and a read-sector or
    write-sector request that the guards accept on side 0 or 1, the image is
    positioned at the offset the spec's formula gives.  For the interleaved
    80-track, 16-sector, 256-byte geometry track 10 side 1 is at
    [(10*2+1)*16*256 + sector*256]; for its sequential counterpart at
    [(10+80)*16*256 + sector*256]. *)
Theorem io_seek_offset_formula (geo : geometry_t)
    (drive sector track side dens : Z) (w : world) (f : FILE) :
  In geo catalogue -> state w = ST_IDLE ->
  geometry_at w drive = Some geo -> fp_at w drive = Some f ->
  guards_pass w true drive sector track side dens = true ->
  side = 0 \/ side = 1 ->
  (exists off, spec_offset geo track side sector = Some off
     /\ fp_at (sdf_readsector drive sector track side dens w) drive
        = Some (mkFILE (f_bytes f) off (f_rw f))
     /\ fp_at (sdf_writesector drive sector track side dens w) drive
        = Some (mkFILE (f_bytes f) off (f_rw f)))
  /\ (forall s, 0 <= s < 16 ->
        io_offset acorn_adfs_l s 10 1 = (10 * 2 + 1) * 16 * 256 + s * 256
        /\ io_offset solidisk_80_sequential s 10 1
           = (10 + 80) * 16 * 256 + s * 256).
Proof.
  intros Hin Hs Hg Hf Hp Hside. split.
  - destruct (guards_pass_inv _ _ _ _ _ _ _ Hp)
      as (Hd & geo' & Hg' & _ & Htg & Hsg & Hsdg).
    rewrite Hg in Hg'. injection Hg' as <-.
    apply track_guard_inv in Htg as [_ Ht].
    specialize (Hsg eq_refl). apply sector_guard_inv in Hsg.
    exists (io_offset geo sector track side). split.
    + apply io_offset_spec; auto using catalogue_small, catalogue_sides.
    + rewrite (sdf_readsector_accepted _ _ _ _ _ _ _ Hs Hg Hp).
      rewrite (sdf_writesector_accepted _ _ _ _ _ _ _ Hs Hg Hp).
      rewrite (io_seek_fp _ _ _ _ _ _ _ Hd Hf).
      pose proof (io_offset_nonneg geo sector track side) as Hr.
      assert (Hk : fseek_set (io_offset geo sector track side) f
                   = mkFILE (f_bytes f) (io_offset geo sector track side) (f_rw f)).
      { unfold fseek_set.
        destruct (io_offset geo sector track side <? 0) eqn:E;
          [ apply Z.ltb_lt in E; lia | reflexivity ]. }
      rewrite Hk. split; apply (fp_at_set w drive f _ Hf).
  - intros s Hs16. unfold io_offset. rewrite (u8_id s) by lia. cbn.
    change (u8 1 =? 0) with false. change (u8 10) with 10.
    change (u32 (16 * 256)) with 4096. cbv iota.
    change (u32 ((10 * 2 + 1) * 4096)) with 86016.
    change (u32 ((10 + 80) * 4096)) with 368640.
    rewrite !u32_id by lia. split; lia.
Qed.

Lemma io_seek_offset_formula_witness :
  In acorn_adfs_l catalogue /\ state adfs_l_at_track_10 = ST_IDLE
  /\ guards_pass adfs_l_at_track_10 true 0 3 10 1 1 = true
  /\ fp_at (sdf_readsector 0 3 10 1 1 adfs_l_at_track_10) 0
     = Some (mkFILE [] ((10 * 2 + 1) * 16 * 256 + 3 * 256) true).
Proof.
  assert (H1 : In acorn_adfs_l catalogue)
    by (right; right; left; reflexivity).
  assert (H2 : state adfs_l_at_track_10 = ST_IDLE) by reflexivity.
  assert (H3 : geometry_at adfs_l_at_track_10 0 = Some acorn_adfs_l)
    by reflexivity.
  assert (H4 : fp_at adfs_l_at_track_10 0 = Some blank_image) by reflexivity.
  assert (H5 : guards_pass adfs_l_at_track_10 true 0 3 10 1 1 = true)
    by reflexivity.
  assert (H6 : 1 = 0 \/ 1 = 1) by (right; reflexivity).
  destruct (io_seek_offset_formula acorn_adfs_l 0 3 10 1 1
              adfs_l_at_track_10 blank_image H1 H2 H3 H4 H5 H6)
    as [(off & Hoff & Hrd & _) _].
  injection Hoff as <-.
  exact (conj H1 (conj H2 (conj H5 Hrd))).
Defined.

(** ** The density guard *)

Lemma quad_matches_no_flag dens geo :
  density geo = DENS_QUAD -> density_guard dens geo = false.
Proof.
  intros H. unfold density_guard. rewrite H.
  destruct (truthy dens); reflexivity.
Qed.

(** C5, as stated, fails on the quad-density catalogue entry: with an
    ADFS F image bound, the backend idle and track, sector and side all
    valid, no value of the density flag makes read-sector begin a
    transfer. *)
Lemma quad_density_never_transfers :
  In acorn_adfs_f catalogue
  /\ state adfs_f_in_drive0 = ST_IDLE
  /\ geometry_at adfs_f_in_drive0 0 = Some acorn_adfs_f
  /\ track_guard adfs_f_in_drive0 acorn_adfs_f 0 0 = true
  /\ sector_guard acorn_adfs_f 0 = true
  /\ side_guard acorn_adfs_f 0 = true
  /\ ~ (exists dens,
          state (sdf_readsector 0 0 0 0 dens adfs_f_in_drive0)
          = ST_READSECTOR).
Proof.
  split; [ left; reflexivity | ].
  repeat (split; [ reflexivity | ]).
  intros [dens H].
  assert (Hg : guards_pass adfs_f_in_drive0 (has_sector op_readsector)
                           0 0 0 0 dens = false).
  { unfold guards_pass.
    change (geometry_at adfs_f_in_drive0 0) with (Some acorn_adfs_f).
    cbv beta iota.
    rewrite (quad_matches_no_flag dens acorn_adfs_f eq_refl).
    reflexivity. }
  pose proof (start_op_rejected op_readsector 0 0 0 0 dens adfs_f_in_drive0
                eq_refl Hg) as E.
  cbn [start_op] in E. rewrite E in H. discriminate.
Qed.

Lemma start_op_accepted_state op drive sector track side dens w :
  op <> op_format -> state w = ST_IDLE ->
  guards_pass w (has_sector op) drive sector track side dens = true ->
  state (start_op op drive sector track side dens w) = transfer_state op.
Proof.
  intros Hop Hs Hp.
  destruct (guards_pass_inv _ _ _ _ _ _ _ Hp) as (_ & geo & Hg & _).
  destruct op; cbn [start_op has_sector transfer_state] in *.
  - rewrite (sdf_readsector_accepted _ _ _ _ _ _ _ Hs Hg Hp). reflexivity.
  - rewrite (sdf_writesector_accepted _ _ _ _ _ _ _ Hs Hg Hp). reflexivity.
  - rewrite (sdf_readaddress_accepted _ _ _ _ _ _ Hs Hp). reflexivity.
  - contradiction.
Qed.

Lemma guards_pass_intro w ws drive sector track side dens geo :
  drive < NUM_DRIVES -> geometry_at w drive = Some geo ->
  track_guard w geo drive track = true ->
  (ws = true -> sector_guard geo sector = true) ->
  side_guard geo side = true ->
  guards_pass w ws drive sector track side dens = density_guard dens geo.
Proof.
  intros Hd Hg Ht Hs Hsd. unfold guards_pass.
  apply Z.ltb_lt in Hd. rewrite Hd, Hg, Ht, Hsd.
  destruct ws; [ rewrite (Hs eq_refl) | ];
    destruct (density_guard dens geo); reflexivity.
Qed.

(** C5, amended.  The density flag asks for single density when clear and
    double density when set.  For read-sector, write-sector and
    read-address, a request to the idle backend whose drive, track, sector
    and side are valid begins its transfer exactly when the class the flag
    asks for is the bound geometry's density class, and takes the not-found
    path otherwise.  For a geometry of single or double density there is a
    flag value that begins the transfer; a quad-density geometry matches
    neither value of the flag. *)
Theorem density_guard_by_flag (op : transfer_op)
    (drive sector track side : Z) (w : world) (geo : geometry_t) :
  op <> op_format -> state w = ST_IDLE ->
  drive < NUM_DRIVES -> geometry_at w drive = Some geo ->
  track_guard w geo drive track = true ->
  (has_sector op = true -> sector_guard geo sector = true) ->
  side_guard geo side = true ->
  (forall dens,
      (density_guard dens geo = true <-> requested_density dens = density geo)
      /\ (state (start_op op drive sector track side dens w) = transfer_state op
          <-> requested_density dens = density geo)
      /\ (state (start_op op drive sector track side dens w) = ST_NOTFOUND
          <-> requested_density dens <> density geo))
  /\ (density geo = DENS_SINGLE \/ density geo = DENS_DOUBLE ->
      exists dens,
        state (start_op op drive sector track side dens w) = transfer_state op)
  /\ (density geo = DENS_QUAD ->
      forall dens,
        state (start_op op drive sector track side dens w) = ST_NOTFOUND).
Proof.
  intros Hop Hs Hd Hg Ht Hsg Hsd.
  assert (Hpass : forall dens, density_guard dens geo = true ->
            state (start_op op drive sector track side dens w)
            = transfer_state op).
  { intros dens H. apply start_op_accepted_state; try assumption.
    rewrite (guards_pass_intro _ _ _ _ _ _ _ geo); assumption. }
  assert (Hrej : forall dens, density_guard dens geo = false ->
            state (start_op op drive sector track side dens w) = ST_NOTFOUND).
  { intros dens H. rewrite start_op_rejected; [ reflexivity | assumption | ].
    rewrite (guards_pass_intro _ _ _ _ _ _ _ geo); assumption. }
  assert (Hne : transfer_state op <> ST_NOTFOUND) by (destruct op; discriminate).
  split; [ | split ].
  - intros dens. pose proof (density_guard_iff dens geo) as Hiff.
    split; [ exact Hiff | ].
    destruct (density_guard dens geo) eqn:E.
    + rewrite (Hpass dens E). split; split; intros H.
      * apply Hiff. reflexivity.
      * reflexivity.
      * contradiction.
      * exfalso. apply H. apply Hiff. reflexivity.
    + rewrite (Hrej dens E). split; split; intros H.
      * symmetry in H. contradiction.
      * apply Hiff in H. discriminate.
      * intros H'. apply Hiff in H'. discriminate.
      * reflexivity.
  - intros [H | H].
    + exists 0. apply Hpass. apply density_guard_iff. rewrite H. reflexivity.
    + exists 1. apply Hpass. apply density_guard_iff. rewrite H. reflexivity.
  - intros H dens. apply Hrej. apply quad_matches_no_flag. exact H.
Qed.

Lemma density_guard_by_flag_witness :
  op_readsector <> op_format /\ state dfs_in_drive0 = ST_IDLE
  /\ 0 < NUM_DRIVES
  /\ geometry_at dfs_in_drive0 0 = Some acorn_dfs_40_single
  /\ track_guard dfs_in_drive0 acorn_dfs_40_single 0 0 = true
  /\ sector_guard acorn_dfs_40_single 9 = true
  /\ side_guard acorn_dfs_40_single 0 = true
  /\ exists dens,
       state (sdf_readsector 0 9 0 0 dens dfs_in_drive0) = ST_READSECTOR.
Proof.
  assert (H1 : op_readsector <> op_format) by discriminate.
  assert (H2 : state dfs_in_drive0 = ST_IDLE) by reflexivity.
  assert (H3 : 0 < NUM_DRIVES) by reflexivity.
  assert (H4 : geometry_at dfs_in_drive0 0 = Some acorn_dfs_40_single)
    by reflexivity.
  assert (H5 : track_guard dfs_in_drive0 acorn_dfs_40_single 0 0 = true)
    by reflexivity.
  assert (H6 : sector_guard acorn_dfs_40_single 9 = true) by reflexivity.
  assert (H7 : side_guard acorn_dfs_40_single 0 = true) by reflexivity.
  destruct (density_guard_by_flag op_readsector 0 9 0 0 dfs_in_drive0
              acorn_dfs_40_single H1 H2 H3 H4 H5 (fun _ => H6) H7)
    as (_ & H8 & _).
  exact (conj H1 (conj H2 (conj H3 (conj H4 (conj H5 (conj H6 (conj H7
           (H8 (or_introl eq_refl))))))))).
Defined.

(** ** Closing a drive *)

Lemma slot_close_rebind_other c w :
  slot close (rebind_close 1 c w) 0 = slot close w 0.
Proof.
  unfold rebind_close, slot.
  destruct (aget (drives w) 1) as [d|]; [ | reflexivity ].
  cbn [drives set_drives]. rewrite aget_aset_ne by lia. reflexivity.
Qed.

Lemma sdf_close_set_drives D d w :
  sdf_close d (set_drives D w) = set_drives D (sdf_close d w).
Proof.
  unfold sdf_close. destruct (d <? NUM_DRIVES); [ | reflexivity ].
  unfold fp_at. cbn [sdf_fp set_geometry set_drives].
  destruct (aget (sdf_fp w) d) as [[f|]|]; reflexivity.
Qed.

Lemma sdf_close_drives d w : drives (sdf_close d w) = drives w.
Proof.
  unfold sdf_close. destruct (d <? NUM_DRIVES); [ | reflexivity ].
  destruct (fp_at _ d); reflexivity.
Qed.

(** C10. Closing drive [d] looks only at the [close] slot of drive 0.  When
    that slot is bound, the function in it is called with [d]; when it is
    empty nothing happens at all, so drive [d] keeps its file handle and its
    geometry whatever its own slot holds.  The [close] slot of drive 1 has
    no influence on the outcome. *)
Theorem disc_close_consults_drive_0 (d : Z) (w : world) :
  d = 0 \/ d = 1 ->
  (slot close w 0 = Some SDF -> disc_close d w = sdf_close d w)
  /\ (slot close w 0 = None ->
      disc_close d w = w
      /\ fp_at (disc_close d w) d = fp_at w d
      /\ geometry_at (disc_close d w) d = geometry_at w d)
  /\ (forall c, disc_close d (rebind_close 1 c w)
                = rebind_close 1 c (disc_close d w)).
Proof.
  intros _. split; [ | split ].
  - intros H. unfold disc_close. rewrite H. reflexivity.
  - intros H. unfold disc_close. rewrite H. auto.
  - intros c. unfold disc_close. rewrite slot_close_rebind_other.
    destruct (slot close w 0) as [[]|]; [ | reflexivity ].
    unfold rebind_close. rewrite sdf_close_drives.
    destruct (aget (drives w) 1) as [dr|]; [ | reflexivity ].
    apply sdf_close_set_drives.
Qed.

Lemma disc_close_consults_drive_0_witness :
  (1 = 0 \/ 1 = 1)
  /\ slot close dfs_in_drive1 0 = None
  /\ slot close dfs_in_drive1 1 = Some SDF
  /\ disc_close 1 dfs_in_drive1 = dfs_in_drive1
  /\ fp_at (disc_close 1 dfs_in_drive1) 1 = Some dfs_image
  /\ geometry_at (disc_close 1 dfs_in_drive1) 1 = Some acorn_dfs_40_single.
Proof.
  assert (H1 : 1 = 0 \/ 1 = 1) by (right; reflexivity).
  assert (H2 : slot close dfs_in_drive1 0 = None) by reflexivity.
  assert (H3 : slot close dfs_in_drive1 1 = Some SDF) by reflexivity.
  destruct (disc_close_consults_drive_0 1 dfs_in_drive1 H1)
    as (_ & H4 & _).
  destruct (H4 H2) as (H5 & H6 & H7).
  exact (conj H1 (conj H2 (conj H3 (conj H5 (conj H6 H7))))).
Defined.

(** ** Underrun on write *)

Lemma u16_dec_inc c : 0 <= c < 65536 -> u16 (u16 (c - 1) + 1) = c.
Proof.
  intros H. unfold u16. destruct (Z.eq_dec c 0) as [-> | Hne].
  - reflexivity.
  - rewrite (Z.mod_small (c - 1)) by lia.
    replace (c - 1 + 1) with c by lia. apply Z.mod_small. lia.
Qed.

Lemma getdata_underrun last w :
  truthy (wd_written w) = false -> wd1770_getdata last w = (-1, w).
Proof. intros H. unfold wd1770_getdata. rewrite H. reflexivity. Qed.

Lemma stalled_tick c fps d w :
  0 <= c < 65536 -> stalled c fps d w -> stalled c fps d (sdf_poll_switch w).
Proof.
  intros Hc (Hs & Hw & Hd & Hwp & Hcnt & Hfp).
  unfold sdf_poll_switch. rewrite Hs, Hd, Hwp. cbv zeta.
  unfold fdc_getdata. rewrite getdata_underrun by exact Hw.
  cbn [fst snd]. change (-1 =? -1) with true. cbv iota.
  unfold stalled. cbn. rewrite Hcnt, u16_dec_inc by exact Hc.
  repeat split; assumption.
Qed.

Lemma stalled_sdf_poll c fps d w :
  0 <= c < 65536 -> stalled c fps d w -> stalled c fps d (sdf_poll w).
Proof.
  intros Hc H. unfold sdf_poll. cbv zeta.
  destruct (sdf_time (set_sdf_time (sdf_time w + 1) w) <=? 16).
  - exact H.
  - apply stalled_tick; [ exact Hc | exact H ].
Qed.

Lemma stalled_fdc_notfound c fps d w :
  stalled c fps d w -> stalled c fps d (fdc_notfound w).
Proof. intros H. exact H. Qed.

Lemma stalled_disc_poll c fps d w :
  0 <= c < 65536 -> stalled c fps d w -> stalled c fps d (disc_poll w).
Proof.
  intros Hc H. unfold disc_poll.
  assert (H1 : stalled c fps d
                 match slot poll w (curdrive w) with
                 | Some SDF => sdf_poll w
                 | None => w
                 end).
  { destruct (slot poll w (curdrive w)) as [[]|];
      [ apply stalled_sdf_poll; assumption | exact H ]. }
  cbv zeta. destruct (truthy (disc_notfound _)); [ | exact H1 ].
  destruct (negb _); exact H1.
Qed.

Lemma stalled_polls c fps d n w :
  0 <= c < 65536 -> stalled c fps d w ->
  stalled c fps d (Nat.iter n disc_poll w).
Proof.
  intros Hc H. induction n as [ | n IH ]; [ exact H | ].
  cbn [Nat.iter]. apply stalled_disc_poll; assumption.
Qed.

Lemma guards_pass_ext w w' ws drive sector track side dens :
  geometry w' = geometry w -> current_track w' = current_track w ->
  guards_pass w' ws drive sector track side dens
  = guards_pass w ws drive sector track side dens.
Proof.
  intros Hg Hc. unfold guards_pass, geometry_at, track_guard.
  rewrite Hg, Hc. reflexivity.
Qed.

Lemma stalled_cmd_read_address c fps d w :
  stalled c fps d w -> stalled c fps d (cmd_read_address w).
Proof.
  intros (Hs & H). unfold cmd_read_address, disc_readaddress. cbv zeta.
  match goal with
  | |- context [slot readaddress ?x ?y] => destruct (slot readaddress x y) as [[]|]
  end.
  - unfold sdf_readaddress. cbn [state emit set_trace set_wd_status].
    rewrite Hs. split; [ exact Hs | exact H ].
  - split; [ exact Hs | exact H ].
Qed.

(** The world a Write Sector command leaves when the backend accepts it. *)
Lemma write_command_stalls v w geo f :
  busy w = false -> state w = ST_IDLE -> Z.shiftr (u8 v) 4 = 0xA ->
  slot writesector w (curdrive w) = Some SDF ->
  geometry_at w (curdrive w) = Some geo -> fp_at w (curdrive w) = Some f ->
  guards_pass w true (curdrive w) (wd_sector w) (wd_track w)
              (wd_curside w) (wd_density w) = true ->
  writeprot_at w (curdrive w) = false ->
  stalled (u16 (sector_size geo))
          (aset (sdf_fp w) (curdrive w)
                (Some (fseek_set (io_offset geo (wd_sector w) (wd_track w)
                                            (wd_curside w)) f)))
          (curdrive w) (write_1770 0 v w).
Proof.
  intros Hb Hs Hn Hsl Hg Hf Hp Hwp.
  destruct (guards_pass_inv _ _ _ _ _ _ _ Hp) as (Hd & _).
  unfold write_1770. change (Z.land (u16 0) 3) with 0. cbv iota.
  unfold busy in Hb. rewrite Hb, Hn. cbv beta iota zeta.
  cbn [andb Z.eqb Pos.eqb negb].
  apply stalled_cmd_read_address.
  unfold disc_writesector. cbv zeta.
  match goal with
  | |- context [slot writesector ?x ?y] =>
      change (slot writesector x y) with (slot writesector w (curdrive w))
  end.
  rewrite Hsl.
  match goal with
  | |- context [sdf_writesector ?a ?b ?c ?e ?g ?x] =>
      rewrite (sdf_writesector_accepted a b c e g x geo)
  end.
  - rewrite (io_seek_fp geo (curdrive w) _ _ _ _ f).
    + unfold stalled. cbn. unfold NUM_DRIVES in Hd. rewrite u8_id by lia.
      repeat split; try reflexivity. exact Hwp.
    + exact Hd.
    + exact Hf.
  - exact Hs.
  - exact Hg.
  - etransitivity; [ apply guards_pass_ext; reflexivity | exact Hp ].
Qed.

(** C8. When no byte has been latched since the last pull, the pull returns
    -1, which is no byte value.  A divided tick of a write-sector transfer
    that meets this leaves the remaining-byte counter and the file as they
    were and stays in the write-sector state, so the next divided tick tries
    again.  A Write Sector command clears the latch flag itself: after the
    command, however many polls run before the CPU writes the data
    register, the counter is still the sector size and the image holds the
    bytes it held. *)
Theorem write_underrun_stalls :
  (forall (last : Z) (w : world),
      truthy (wd_written w) = false ->
      fst (wd1770_getdata last w) = -1
      /\ (forall b, 0 <= b < 256 -> fst (wd1770_getdata last w) <> b))
  /\ (forall (w : world),
      state w = ST_WRITESECTOR -> writeprot_at w (sdf_drive w) = false ->
      truthy (wd_written w) = false -> 0 <= count w < 65536 ->
      let w' := sdf_poll_switch w in
      count w' = count w /\ sdf_fp w' = sdf_fp w
      /\ state w' = ST_WRITESECTOR /\ truthy (wd_written w') = false
      /\ exists last, new_events w w' = [ev_fdc_getdata last (-1)])
  /\ (forall (v : Z) (w : world) (geo : geometry_t) (f : FILE),
      busy w = false -> state w = ST_IDLE -> Z.shiftr (u8 v) 4 = 0xA ->
      slot writesector w (curdrive w) = Some SDF ->
      geometry_at w (curdrive w) = Some geo ->
      fp_at w (curdrive w) = Some f ->
      guards_pass w true (curdrive w) (wd_sector w) (wd_track w)
                  (wd_curside w) (wd_density w) = true ->
      writeprot_at w (curdrive w) = false ->
      0 < sector_size geo < 65536 ->
      forall n : nat,
        let w' := Nat.iter n disc_poll (write_1770 0 v w) in
        state w' = ST_WRITESECTOR /\ count w' = sector_size geo
        /\ exists f', fp_at w' (curdrive w) = Some f'
                      /\ f_bytes f' = f_bytes f).
Proof.
  split; [ | split ].
  - intros last w Hw. rewrite getdata_underrun by exact Hw.
    split; [ reflexivity | ]. intros b Hb. cbn. lia.
  - intros w Hs Hwp Hw Hc w'.
    assert (Hst : stalled (count w) (sdf_fp w) (sdf_drive w) w)
      by (repeat split; assumption).
    destruct (stalled_tick _ _ _ _ Hc Hst) as (H1 & H2 & _ & _ & H5 & H6).
    subst w'. repeat split; try assumption.
    unfold sdf_poll_switch. rewrite Hs, Hwp. cbv zeta.
    unfold fdc_getdata. rewrite getdata_underrun by exact Hw.
    cbn [fst snd]. change (-1 =? -1) with true. cbv iota.
    eexists. apply new_events_app. reflexivity.
  - intros v w geo f Hb Hs Hn Hsl Hg Hf Hp Hwp Hsz n w'.
    pose proof (write_command_stalls v w geo f Hb Hs Hn Hsl Hg Hf Hp Hwp)
      as Hst.
    rewrite (u16_id (sector_size geo)) in Hst by lia.
    apply (stalled_polls _ _ _ n) in Hst; [ | lia ].
    destruct Hst as (H1 & _ & _ & _ & H5 & H6). fold w' in H1, H5, H6.
    split; [ exact H1 | split; [ exact H5 | ] ].
    exists (fseek_set (io_offset geo (wd_sector w) (wd_track w)
                                 (wd_curside w)) f).
    split.
    + unfold fp_at. rewrite H6.
      rewrite (aget_aset_eq _ _ _ _ (fp_at_Some _ _ _ Hf)). reflexivity.
    + unfold fseek_set. destruct (_ <? 0); reflexivity.
Qed.

Lemma write_underrun_stalls_witness :
  busy dfs_in_drive0 = false /\ state dfs_in_drive0 = ST_IDLE
  /\ Z.shiftr (u8 0xA0) 4 = 0xA
  /\ guards_pass dfs_in_drive0 true 0 0 0 0 0 = true
  /\ writeprot_at dfs_in_drive0 0 = false
  /\ state (Nat.iter 37 disc_poll (write_1770 0 0xA0 dfs_in_drive0))
     = ST_WRITESECTOR
  /\ count (Nat.iter 37 disc_poll (write_1770 0 0xA0 dfs_in_drive0)) = 256.
Proof.
  assert (H1 : busy dfs_in_drive0 = false) by reflexivity.
  assert (H2 : state dfs_in_drive0 = ST_IDLE) by reflexivity.
  assert (H3 : Z.shiftr (u8 0xA0) 4 = 0xA) by reflexivity.
  assert (H4 : slot writesector dfs_in_drive0 (curdrive dfs_in_drive0)
               = Some SDF) by reflexivity.
  assert (H5 : geometry_at dfs_in_drive0 (curdrive dfs_in_drive0)
               = Some acorn_dfs_40_single) by reflexivity.
  assert (H6 : fp_at dfs_in_drive0 (curdrive dfs_in_drive0) = Some dfs_image)
    by reflexivity.
  assert (H7 : guards_pass dfs_in_drive0 true 0 0 0 0 0 = true)
    by reflexivity.
  assert (H8 : writeprot_at dfs_in_drive0 0 = false) by reflexivity.
  assert (H9 : 0 < sector_size acorn_dfs_40_single < 65536)
    by (cbn; lia).
  destruct (proj2 (proj2 write_underrun_stalls) 0xA0 dfs_in_drive0
              acorn_dfs_40_single dfs_image H1 H2 H3 H4 H5 H6 H7 H8 H9
              37%nat) as (H10 & H11 & _).
  exact (conj H1 (conj H2 (conj H3 (conj H7 (conj H8 (conj H10 H11)))))).
Defined.

(** ** Writing a sector and reading it back *)

Lemma nonneg_ltb (x : Z) : 0 <= x -> (x <? 0) = false.
Proof. intros H. apply Z.ltb_ge. exact H. Qed.

Lemma putc_read_only c f : f_rw f = false -> putc c f = f.
Proof. intros H. unfold putc. rewrite H. reflexivity. Qed.

Lemma putcs_read_only bs : forall f, f_rw f = false -> putcs bs f = f.
Proof.
  induction bs as [ | b bs IH ]; intros f H; [ reflexivity | ].
  cbn [putcs fold_left]. fold (putcs bs (putc b f)).
  rewrite putc_read_only by exact H. apply IH. exact H.
Qed.

Lemma putc_rw c f : f_rw f = true -> f_rw (putc c f) = true.
Proof.
  intros H. unfold putc. rewrite H. cbn [negb].
  destruct (f_pos f <? 0); [ exact H | ].
  destruct (f_pos f <? _); reflexivity.
Qed.

Lemma putc_pos c f :
  f_rw f = true -> 0 <= f_pos f -> f_pos (putc c f) = f_pos f + 1.
Proof.
  intros Hrw H. unfold putc. rewrite Hrw, (nonneg_ltb _ H). cbn [negb].
  destruct (f_pos f <? _); reflexivity.
Qed.

Lemma putc_length c f :
  f_rw f = true -> 0 <= f_pos f ->
  (length (f_bytes f) <= length (f_bytes (putc c f)))%nat
  /\ (Z.to_nat (f_pos f) < length (f_bytes (putc c f)))%nat.
Proof.
  intros Hrw H. unfold putc. rewrite Hrw, (nonneg_ltb _ H). cbn [negb].
  destruct (f_pos f <? Z.of_nat (length (f_bytes f))) eqn:E; cbn.
  - apply Z.ltb_lt in E. rewrite length_insert. lia.
  - apply Z.ltb_ge in E. rewrite !length_app, repeat_length. cbn. lia.
Qed.

Lemma putc_at c f :
  f_rw f = true -> 0 <= f_pos f ->
  f_bytes (putc c f) !! Z.to_nat (f_pos f) = Some (u8 c).
Proof.
  intros Hrw H. unfold putc. rewrite Hrw, (nonneg_ltb _ H). cbn [negb].
  destruct (f_pos f <? Z.of_nat (length (f_bytes f))) eqn:E; cbn.
  - apply Z.ltb_lt in E. apply list_lookup_insert_eq. lia.
  - apply Z.ltb_ge in E. rewrite app_assoc.
    rewrite lookup_app_r; rewrite length_app, repeat_length; [ | lia ].
    replace (Z.to_nat (f_pos f)
             - (length (f_bytes f)
                + Z.to_nat (f_pos f - Z.of_nat (length (f_bytes f)))))%nat
      with 0%nat by lia.
    reflexivity.
Qed.

Lemma putc_other c f (i : nat) :
  f_rw f = true -> 0 <= f_pos f -> (i < length (f_bytes f))%nat ->
  i <> Z.to_nat (f_pos f) ->
  f_bytes (putc c f) !! i = f_bytes f !! i.
Proof.
  intros Hrw H Hi Hne. unfold putc. rewrite Hrw, (nonneg_ltb _ H).
  cbn [negb].
  destruct (f_pos f <? Z.of_nat (length (f_bytes f))); cbn.
  - apply list_lookup_insert_ne. lia.
  - apply lookup_app_l. exact Hi.
Qed.

Lemma putcs_pos bs : forall f,
  f_rw f = true -> 0 <= f_pos f ->
  f_pos (putcs bs f) = f_pos f + Z.of_nat (length bs).
Proof.
  induction bs as [ | b bs IH ]; intros f Hrw H; cbn [putcs fold_left length].
  - lia.
  - fold (putcs bs (putc b f)).
    rewrite IH by (rewrite ?putc_pos by assumption;
                   first [ apply putc_rw; exact Hrw | lia ]).
    rewrite putc_pos by assumption. lia.
Qed.

(** Bytes written in one run stay where they were put. *)
Lemma putcs_bytes bs : forall f,
  f_rw f = true -> 0 <= f_pos f ->
  (forall j : nat, (j < length (f_bytes f))%nat -> (j < Z.to_nat (f_pos f))%nat ->
     f_bytes (putcs bs f) !! j = f_bytes f !! j)
  /\ (forall (i : nat) b, bs !! i = Some b ->
        f_bytes (putcs bs f) !! (Z.to_nat (f_pos f) + i)%nat = Some (u8 b)).
Proof.
  induction bs as [ | b0 bs IH ]; intros f Hrw H.
  - split; [ reflexivity | intros i b Hi; discriminate ].
  - cbn [putcs fold_left]. fold (putcs bs (putc b0 f)).
    pose proof (putc_pos b0 f Hrw H) as Hp.
    destruct (putc_length b0 f Hrw H) as [Hl1 Hl2].
    destruct (IH (putc b0 f) (putc_rw b0 f Hrw) ltac:(lia)) as [IHa IHb].
    split.
    + intros j Hj1 Hj2. rewrite IHa by lia. apply putc_other; try assumption; lia.
    + intros [ | i ] b Hi.
      * cbn in Hi. injection Hi as <-. rewrite Nat.add_0_r.
        rewrite IHa by lia. apply putc_at; assumption.
      * cbn in Hi. specialize (IHb i b Hi). rewrite Hp in IHb.
        replace (Z.to_nat (f_pos f) + S i)%nat
          with (Z.to_nat (f_pos f + 1) + i)%nat by lia.
        exact IHb.
Qed.

(** What a successful pull changes. *)
Lemma fdc_getdata_pull last w :
  truthy (wd_written w) = true ->
  fst (fdc_getdata last w) = wd_data w
  /\ state (snd (fdc_getdata last w)) = state w
  /\ count (snd (fdc_getdata last w)) = count w
  /\ sdf_fp (snd (fdc_getdata last w)) = sdf_fp w
  /\ sdf_drive (snd (fdc_getdata last w)) = sdf_drive w
  /\ writeprot (snd (fdc_getdata last w)) = writeprot w
  /\ geometry (snd (fdc_getdata last w)) = geometry w
  /\ current_track (snd (fdc_getdata last w)) = current_track w
  /\ trace (snd (fdc_getdata last w))
     = trace w ++ [ev_fdc_getdata last (wd_data w)].
Proof.
  intros H. unfold fdc_getdata, wd1770_getdata. rewrite H. cbn [negb].
  destruct (negb (truthy last)); cbn; repeat split.
Qed.

Lemma last_byte_test c :
  1 <= c <= 65535 -> (u16 (c - 1) =? 0) = (c =? 1).
Proof.
  intros H. rewrite u16_id by lia.
  destruct (c =? 1) eqn:E.
  - apply Z.eqb_eq in E. subst c. reflexivity.
  - apply Z.eqb_neq in E. apply Z.eqb_neq. lia.
Qed.

(** A divided tick of a write-sector transfer that finds a byte latched. *)
Lemma write_tick_pull (w : world) (d b c : Z) (f : FILE) :
  state w = ST_WRITESECTOR -> sdf_drive w = d -> writeprot_at w d = false ->
  fp_at w d = Some f -> count w = c -> 1 <= c <= 65535 ->
  truthy (wd_written w) = true -> wd_data w = b -> 0 <= b < 256 ->
  state (sdf_poll_switch w) = (if c =? 1 then ST_IDLE else ST_WRITESECTOR)
  /\ sdf_drive (sdf_poll_switch w) = d
  /\ writeprot (sdf_poll_switch w) = writeprot w
  /\ fp_at (sdf_poll_switch w) d = Some (putc b f)
  /\ count (sdf_poll_switch w) = c - 1
  /\ geometry (sdf_poll_switch w) = geometry w
  /\ current_track (sdf_poll_switch w) = current_track w
  /\ data_ready (new_events w (sdf_poll_switch w)) = [].
Proof.
  intros Hs Hd Hwp Hf Hc Hcr Hwr Hdat Hb.
  unfold sdf_poll_switch. rewrite Hs. cbv iota. rewrite Hd, Hwp. cbv zeta.
  cbn [count set_count]. rewrite Hc, (last_byte_test c Hcr).
  set (last := if c =? 1 then 1 else 0).
  set (w1 := set_count (u16 (c - 1)) w).
  assert (Hwr1 : truthy (wd_written w1) = true) by exact Hwr.
  destruct (fdc_getdata_pull last w1 Hwr1)
    as (Hfst & H1 & H2 & H3 & H4 & H5 & H6 & H7 & H8).
  set (r := fdc_getdata last w1) in *.
  change (wd_data w1) with (wd_data w) in Hfst, H8. rewrite Hdat in Hfst, H8.
  rewrite Hfst.
  assert (Hneg : (b =? -1) = false) by (apply Z.eqb_neq; lia).
  rewrite Hneg.
  change (sdf_drive w1) with (sdf_drive w) in H4. rewrite Hd in H4.
  change (sdf_fp w1) with (sdf_fp w) in H3.
  change (count w1) with (u16 (c - 1)) in H2.
  change (state w1) with (state w) in H1. rewrite Hs in H1.
  change (writeprot w1) with (writeprot w) in H5.
  change (geometry w1) with (geometry w) in H6.
  change (current_track w1) with (current_track w) in H7.
  change (trace w1) with (trace w) in H8.
  clearbody r. clear Hwr1. clearbody w1.
  assert (Hfp : fp_at (snd r) d = Some f) by (unfold fp_at in *; rewrite H3; exact Hf).
  unfold putc_fp. rewrite H4, Hfp.
  cbn [count set_sdf_fp]. rewrite H2, (last_byte_test c Hcr).
  assert (Hput : fp_at (set_sdf_fp (aset (sdf_fp (snd r)) d (Some (putc b f)))
                                   (snd r)) d = Some (putc b f))
    by (apply (fp_at_set _ _ f); exact Hfp).
  assert (Hnew : forall l, data_ready (drop (length (trace w))
                     ((trace w ++ [ev_fdc_getdata last b]) ++ l))
                 = data_ready l).
  { intros l. rewrite <- app_assoc, drop_app_length. reflexivity. }
  unfold new_events.
  destruct (c =? 1); cbn; rewrite ?H1, ?H4, ?H5, ?H6, ?H7, ?H8, ?H2;
    (split; [ reflexivity | ]); (split; [ reflexivity | ]);
    (split; [ reflexivity | ]); (split; [ exact Hput | ]);
    (split; [ rewrite u16_id by lia; reflexivity | ]);
    (split; [ reflexivity | ]); (split; [ reflexivity | ]).
  - apply (Hnew [ev_fdc_finishread]).
  - rewrite <- (app_nil_r (trace w ++ _)). apply (Hnew []).
Qed.

(** One byte supplied by the CPU and pulled by the next divided tick. *)
Lemma supply_byte_step (w : world) (d b c : Z) (f : FILE) :
  state w = ST_WRITESECTOR -> sdf_drive w = d -> writeprot_at w d = false ->
  fp_at w d = Some f -> count w = c -> 1 <= c <= 65535 -> 0 <= b < 256 ->
  state (supply_byte w b) = (if c =? 1 then ST_IDLE else ST_WRITESECTOR)
  /\ sdf_drive (supply_byte w b) = d
  /\ writeprot (supply_byte w b) = writeprot w
  /\ fp_at (supply_byte w b) d = Some (putc b f)
  /\ count (supply_byte w b) = c - 1
  /\ geometry (supply_byte w b) = geometry w
  /\ current_track (supply_byte w b) = current_track w
  /\ data_ready (new_events w (supply_byte w b)) = [].
Proof.
  intros Hs Hd Hwp Hf Hc Hcr Hb.
  unfold supply_byte.
  assert (E : write_1770 3 b w
              = set_wd_written 1
                  (set_wd_data b
                     (set_wd_status (u8 (Z.land (wd_status w) (Z.lnot 2)))
                        (set_nmi (Z.land (nmi w) (Z.lnot 2)) w)))).
  { unfold write_1770. change (Z.land (u16 3) 3) with 3. cbv iota zeta.
    rewrite (u8_id b) by lia. reflexivity. }
  rewrite E. set (w0 := set_wd_written 1 _).
  apply (write_tick_pull w0 d b c f); try assumption; reflexivity.
Qed.

Lemma supply_bytes_cons b bs w :
  supply_bytes (b :: bs) w = supply_bytes bs (supply_byte w b).
Proof.
  unfold supply_bytes. lazy beta iota delta [fold_left]. reflexivity.
Qed.

Lemma putcs_cons b bs f : putcs (b :: bs) f = putcs bs (putc b f).
Proof. unfold putcs. lazy beta iota delta [fold_left]. reflexivity. Qed.

(** A whole sector supplied byte by byte. *)
Lemma supply_bytes_loop (d : Z) (bs : list Z) :
  forall (w : world) (f : FILE),
  bs <> [] -> Forall (fun b => 0 <= b < 256) bs ->
  Z.of_nat (length bs) <= 65535 ->
  state w = ST_WRITESECTOR -> sdf_drive w = d -> writeprot_at w d = false ->
  fp_at w d = Some f -> count w = Z.of_nat (length bs) ->
  state (supply_bytes bs w) = ST_IDLE
  /\ fp_at (supply_bytes bs w) d = Some (putcs bs f)
  /\ geometry (supply_bytes bs w) = geometry w
  /\ current_track (supply_bytes bs w) = current_track w.
Proof.
  induction bs as [ | b bs IH ]; intros w f Hne Hall Hlen Hs Hd Hwp Hf Hc.
  - contradiction.
  - apply Forall_cons in Hall as [Hb Hall].
    rewrite supply_bytes_cons, putcs_cons.
    assert (Hc1 : 1 <= Z.of_nat (length (b :: bs)) <= 65535)
      by (cbn [length] in *; lia).
    destruct (supply_byte_step w d b _ f Hs Hd Hwp Hf Hc Hc1 Hb)
      as (H1 & H2 & H3 & H4 & H5 & H6 & H7 & _).
    set (w' := supply_byte w b) in *. clearbody w'.
    destruct bs as [ | b' bs' ].
    + change (Z.of_nat (length [b]) =? 1) with true in H1.
      cbv iota in H1.
      change (supply_bytes [] w') with w'.
      change (putcs [] (putc b f)) with (putc b f).
      exact (conj H1 (conj H4 (conj H6 H7))).
    + assert (E : (Z.of_nat (length (b :: b' :: bs')) =? 1) = false)
        by (apply Z.eqb_neq; cbn [length]; lia).
      rewrite E in H1.
      assert (Hwp' : writeprot_at w' d = false)
        by (unfold writeprot_at in *; rewrite H3; exact Hwp).
      assert (Hc' : count w' = Z.of_nat (length (b' :: bs')))
        by (rewrite H5; cbn [length]; lia).
      assert (Hlen' : Z.of_nat (length (b' :: bs')) <= 65535)
        by (cbn [length] in *; lia).
      assert (Hne' : b' :: bs' <> []) by discriminate.
      destruct (IH w' (putc b f) Hne' Hall Hlen' H1 H2 Hwp' H4 Hc')
        as (I1 & I2 & I3 & I4).
      rewrite I3, I4, H6, H7. exact (conj I1 (conj I2 (conj eq_refl eq_refl))).
Qed.

(** A divided tick of a read-sector transfer over a byte of the file. *)
Lemma read_tick (w : world) (d b c : Z) (f : FILE) :
  state w = ST_READSECTOR -> sdf_drive w = d -> fp_at w d = Some f ->
  0 <= f_pos f -> f_bytes f !! Z.to_nat (f_pos f) = Some b ->
  count w = c -> 1 <= c <= 65535 ->
  state (sdf_poll_switch w) = (if c =? 1 then ST_IDLE else ST_READSECTOR)
  /\ sdf_drive (sdf_poll_switch w) = d
  /\ fp_at (sdf_poll_switch w) d = Some (mkFILE (f_bytes f) (f_pos f + 1) (f_rw f))
  /\ count (sdf_poll_switch w) = c - 1
  /\ trace (sdf_poll_switch w)
     = trace w ++ ev_fdc_data (u8 b)
                  :: (if c =? 1 then [ev_fdc_finishread] else []).
Proof.
  intros Hs Hd Hf Hpos Hb Hc Hcr.
  assert (Hg : getc f = (b, mkFILE (f_bytes f) (f_pos f + 1) (f_rw f))).
  { unfold getc, aget. rewrite (nonneg_ltb _ Hpos), Hb. reflexivity. }
  unfold sdf_poll_switch. rewrite Hs. cbv iota zeta.
  unfold getc_fp. rewrite Hd, Hf, Hg. cbn [fst snd].
  unfold fdc_data, wd1770_data, emit, fdc_finishread, wd1770_finishread.
  cbn [count set_count set_nmi set_wd_status set_wd_data set_trace set_sdf_fp].
  rewrite Hc, (last_byte_test c Hcr).
  assert (Hget : fp_at (set_sdf_fp (aset (sdf_fp w) d
                    (Some (mkFILE (f_bytes f) (f_pos f + 1) (f_rw f)))) w) d
                 = Some (mkFILE (f_bytes f) (f_pos f + 1) (f_rw f)))
    by (apply (fp_at_set _ _ f); exact Hf).
  unfold fp_at in *.
  destruct (c =? 1); cbn in *; rewrite ?Hs, ?Hd, ?Hget, <- ?app_assoc;
    repeat split; rewrite ?u16_id by lia; reflexivity.
Qed.

(** A whole sector read: the bytes under the position reach the data-ready
    callback in file order, then the finished callback is called. *)
Lemma read_loop (d : Z) (bs : list Z) :
  forall (w : world) (f : FILE),
  bs <> [] -> Z.of_nat (length bs) <= 65535 ->
  state w = ST_READSECTOR -> sdf_drive w = d -> fp_at w d = Some f ->
  0 <= f_pos f ->
  (forall (i : nat) b, bs !! i = Some b ->
     f_bytes f !! (Z.to_nat (f_pos f) + i)%nat = Some b) ->
  count w = Z.of_nat (length bs) ->
  state (ticks (length bs) w) = ST_IDLE
  /\ trace (ticks (length bs) w)
     = trace w ++ map ev_fdc_data (map u8 bs) ++ [ev_fdc_finishread].
Proof.
  induction bs as [ | b bs IH ]; intros w f Hne Hlen Hs Hd Hf Hpos Hbs Hc.
  - contradiction.
  - cbn [length] in Hlen, Hc |- *. rewrite ticks_S_r.
    assert (Hb0 : f_bytes f !! Z.to_nat (f_pos f) = Some b).
    { rewrite <- (Nat.add_0_r (Z.to_nat (f_pos f))). apply Hbs. reflexivity. }
    destruct (read_tick w d b _ f Hs Hd Hf Hpos Hb0 Hc ltac:(lia))
      as (H1 & H2 & H3 & H4 & H5).
    destruct bs as [ | b' bs' ].
    + cbn [length ticks Nat.iter map app].
      change (Z.of_nat (S (length (@nil Z))) =? 1) with true in H1, H5.
      cbv iota in H1, H5. auto.
    + assert (E : (Z.of_nat (S (length (b' :: bs'))) =? 1) = false)
        by (apply Z.eqb_neq; cbn [length]; lia).
      rewrite E in H1, H5.
      destruct (IH (sdf_poll_switch w) (mkFILE (f_bytes f) (f_pos f + 1) (f_rw f)))
        as (I1 & I2); try assumption; try discriminate.
      * lia.
      * cbn [f_pos]. lia.
      * intros i x Hi. cbn [f_bytes f_pos].
        replace (Z.to_nat (f_pos f + 1) + i)%nat
          with (Z.to_nat (f_pos f) + S i)%nat by lia.
        apply Hbs. exact Hi.
      * rewrite H4. lia.
      * split; [ exact I1 | ]. rewrite I2, H5, <- app_assoc. reflexivity.
Qed.

Lemma data_ready_app l1 l2 :
  data_ready (l1 ++ l2) = data_ready l1 ++ data_ready l2.
Proof. unfold data_ready. apply flat_map_app. Qed.

Lemma data_ready_data bs : data_ready (map ev_fdc_data bs) = bs.
Proof.
  induction bs as [ | b bs IH ]; [ reflexivity | ].
  cbn. f_equal. exact IH.
Qed.

Lemma map_u8_bytes bs : Forall (fun b => 0 <= b < 256) bs -> map u8 bs = bs.
Proof.
  induction 1 as [ | b bs Hb _ IH ]; [ reflexivity | ].
  cbn. rewrite IH, u8_id by exact Hb. reflexivity.
Qed.

(** With a geometry bound to the drive, the image open for update and not
    write-protected, and a sector address that passes the guards, write the
    sector: the CPU supplies [sector_size] bytes, each pulled by a divided
    tick.  The backend is idle again.  Then read the same sector:
    [sector_size] divided ticks hand exactly those bytes, in order, to the
    data-ready callback, followed by one call of the finished callback. *)
Lemma roundtrip_open_for_update (geo : geometry_t)
    (drive sector track side dens : Z) (data : list Z) (w : world)
    (f : FILE) :
  state w = ST_IDLE -> geometry_at w drive = Some geo ->
  fp_at w drive = Some f -> f_rw f = true -> writeprot_at w drive = false ->
  guards_pass w true drive sector track side dens = true ->
  0 < sector_size geo <= 65535 ->
  Z.of_nat (length data) = sector_size geo ->
  Forall (fun b => 0 <= b < 256) data ->
  let w1 := supply_bytes data (sdf_writesector drive sector track side dens w) in
  let w2 := ticks (length data)
                  (sdf_readsector drive sector track side dens w1) in
  state w1 = ST_IDLE
  /\ new_events w1 w2 = map ev_fdc_data data ++ [ev_fdc_finishread]
  /\ data_ready (new_events w1 w2) = data
  /\ state w2 = ST_IDLE.
Proof.
  intros Hs Hg Hf Hrw Hwp Hp Hsz Hlen Hall w1 w2. subst w2 w1.
  destruct (guards_pass_inv _ _ _ _ _ _ _ Hp) as (Hd & _).
  assert (Hne : data <> []) by (intros ->; cbn in Hlen; lia).
  pose proof (io_offset_nonneg geo sector track side) as Hoff.
  set (off := io_offset geo sector track side) in *.
  assert (Hseek : forall g, fseek_set off g = mkFILE (f_bytes g) off (f_rw g)).
  { intros g. unfold fseek_set. rewrite (nonneg_ltb _ Hoff). reflexivity. }
  (* the write *)
  set (wa := sdf_writesector drive sector track side dens w).
  assert (Ha : state wa = ST_WRITESECTOR /\ sdf_drive wa = drive
               /\ writeprot wa = writeprot w
               /\ fp_at wa drive = Some (mkFILE (f_bytes f) off true)
               /\ count wa = sector_size geo
               /\ geometry wa = geometry w
               /\ current_track wa = current_track w).
  { subst wa. rewrite (sdf_writesector_accepted _ _ _ _ _ _ _ Hs Hg Hp).
    rewrite (io_seek_fp _ _ _ _ _ _ _ Hd Hf). fold off. rewrite Hseek, Hrw.
    unfold NUM_DRIVES in Hd. cbn. rewrite u8_id, u16_id by lia.
    repeat split. apply (fp_at_set w drive f _ Hf). }
  destruct Ha as (A1 & A2 & A3 & A4 & A5 & A6 & A7). clearbody wa.
  assert (Awp : writeprot_at wa drive = false)
    by (unfold writeprot_at in *; rewrite A3; exact Hwp).
  assert (Alen : Z.of_nat (length data) <= 65535) by lia.
  assert (Acnt : count wa = Z.of_nat (length data)) by lia.
  destruct (supply_bytes_loop drive data wa (mkFILE (f_bytes f) off true)
              Hne Hall Alen A1 A2 Awp A4 Acnt) as (B1 & B2 & B3 & B4).
  set (w1 := supply_bytes data wa) in *. clearbody w1.
  (* the read *)
  assert (Hg1 : geometry_at w1 drive = Some geo)
    by (unfold geometry_at in *; rewrite B3, A6; exact Hg).
  assert (Hp1 : guards_pass w1 true drive sector track side dens = true).
  { rewrite (guards_pass_ext w w1) by congruence. exact Hp. }
  set (wb := sdf_readsector drive sector track side dens w1) in *.
  assert (Hb : state wb = ST_READSECTOR /\ sdf_drive wb = drive
               /\ fp_at wb drive
                  = Some (mkFILE
                            (f_bytes (putcs data (mkFILE (f_bytes f) off true)))
                            off
                            (f_rw (putcs data (mkFILE (f_bytes f) off true))))
               /\ count wb = sector_size geo /\ trace wb = trace w1).
  { subst wb. rewrite (sdf_readsector_accepted _ _ _ _ _ _ _ B1 Hg1 Hp1).
    rewrite (io_seek_fp _ _ _ _ _ _ _ Hd B2). fold off. rewrite Hseek.
    unfold NUM_DRIVES in Hd. cbn. rewrite u8_id, u16_id by lia.
    repeat split. apply (fp_at_set w1 drive _ _ B2). }
  destruct Hb as (R1 & R2 & R3 & R4 & R5). clearbody wb.
  destruct (putcs_bytes data (mkFILE (f_bytes f) off true) eq_refl Hoff)
    as [_ Hwritten].
  assert (Rne : map u8 data <> [])
    by (rewrite map_u8_bytes by exact Hall; exact Hne).
  assert (Rlen : Z.of_nat (length (map u8 data)) <= 65535)
    by (rewrite length_map; lia).
  assert (Rcnt : count wb = Z.of_nat (length (map u8 data)))
    by (rewrite length_map; lia).
  set (fw := putcs data (mkFILE (f_bytes f) off true)) in *.
  assert (Rbytes : forall (i : nat) b, map u8 data !! i = Some b ->
            f_bytes (mkFILE (f_bytes fw) off (f_rw fw))
              !! (Z.to_nat (f_pos (mkFILE (f_bytes fw) off (f_rw fw))) + i)%nat
            = Some b).
  { intros i b Hi. cbn [f_bytes f_pos].
    rewrite list_lookup_fmap in Hi.
    destruct (data !! i) as [x|] eqn:E; [ | discriminate ].
    cbn in Hi. injection Hi as <-. apply (Hwritten i x E). }
  destruct (read_loop drive (map u8 data) wb _ Rne Rlen R1 R2 R3 Hoff
              Rbytes Rcnt) as (C1 & C2).
  rewrite length_map in C1, C2.
  set (w2 := ticks (length data) wb) in *. clearbody w2.
  rewrite !(map_u8_bytes data Hall) in C2.
  assert (Hnew : new_events w1 w2 = map ev_fdc_data data ++ [ev_fdc_finishread]).
  { apply new_events_app. rewrite C2, R5. reflexivity. }
  split; [ exact B1 | split; [ exact Hnew | split; [ | exact C1 ] ] ].
  rewrite Hnew, data_ready_app, data_ready_data. apply app_nil_r.
Qed.

(** ** More of what the dispatch calls leave alone

    A dispatch call reaches at most the backend, which owns none of the
    controller's registers. *)

Ltac kept :=
  intros;
  unfold disc_seek, disc_readsector, disc_writesector, disc_readaddress,
    disc_format, sdf_seek, sdf_readsector, sdf_writesector, sdf_readaddress,
    sdf_format, start_notfound, io_seek, emit;
  frame_cases; reflexivity.

Lemma disc_seek_curdrive d t w :
  curdrive (disc_seek d t w) = curdrive w.
Proof. kept. Qed.

Lemma disc_seek_wd_curtrack d t w :
  wd_curtrack (disc_seek d t w) = wd_curtrack w.
Proof. kept. Qed.

Lemma disc_seek_wd_data d t w :
  wd_data (disc_seek d t w) = wd_data w.
Proof. kept. Qed.

Lemma disc_seek_wd_written d t w :
  wd_written (disc_seek d t w) = wd_written w.
Proof. kept. Qed.

Lemma disc_seek_nmi d t w :
  nmi (disc_seek d t w) = nmi w.
Proof. kept. Qed.

Lemma disc_seek_wd_track d t w :
  wd_track (disc_seek d t w) = wd_track w.
Proof. kept. Qed.

Lemma disc_seek_wd_sector d t w :
  wd_sector (disc_seek d t w) = wd_sector w.
Proof. kept. Qed.

Lemma disc_seek_wd_command d t w :
  wd_command (disc_seek d t w) = wd_command w.
Proof. kept. Qed.

Lemma disc_seek_wd_stepdir d t w :
  wd_stepdir (disc_seek d t w) = wd_stepdir w.
Proof. kept. Qed.

Lemma disc_seek_wd_curside d t w :
  wd_curside (disc_seek d t w) = wd_curside w.
Proof. kept. Qed.

Lemma disc_seek_wd_density d t w :
  wd_density (disc_seek d t w) = wd_density w.
Proof. kept. Qed.

Lemma disc_seek_WD1770 d t w :
  WD1770 (disc_seek d t w) = WD1770 w.
Proof. kept. Qed.

Lemma disc_seek_motoron d t w :
  motoron (disc_seek d t w) = motoron w.
Proof. kept. Qed.

Lemma disc_seek_motorspin d t w :
  motorspin (disc_seek d t w) = motorspin w.
Proof. kept. Qed.

Lemma disc_seek_fdc_time d t w :
  fdc_time (disc_seek d t w) = fdc_time w.
Proof. kept. Qed.

Lemma disc_readsector_curdrive d s t sd dn w :
  curdrive (disc_readsector d s t sd dn w) = curdrive w.
Proof. kept. Qed.

Lemma disc_readsector_wd_curtrack d s t sd dn w :
  wd_curtrack (disc_readsector d s t sd dn w) = wd_curtrack w.
Proof. kept. Qed.

Lemma disc_readsector_wd_data d s t sd dn w :
  wd_data (disc_readsector d s t sd dn w) = wd_data w.
Proof. kept. Qed.

Lemma disc_readsector_wd_written d s t sd dn w :
  wd_written (disc_readsector d s t sd dn w) = wd_written w.
Proof. kept. Qed.

Lemma disc_readsector_nmi d s t sd dn w :
  nmi (disc_readsector d s t sd dn w) = nmi w.
Proof. kept. Qed.

Lemma disc_readsector_wd_track d s t sd dn w :
  wd_track (disc_readsector d s t sd dn w) = wd_track w.
Proof. kept. Qed.

Lemma disc_readsector_wd_sector d s t sd dn w :
  wd_sector (disc_readsector d s t sd dn w) = wd_sector w.
Proof. kept. Qed.

Lemma disc_readsector_wd_command d s t sd dn w :
  wd_command (disc_readsector d s t sd dn w) = wd_command w.
Proof. kept. Qed.

Lemma disc_readsector_wd_stepdir d s t sd dn w :
  wd_stepdir (disc_readsector d s t sd dn w) = wd_stepdir w.
Proof. kept. Qed.

Lemma disc_readsector_wd_curside d s t sd dn w :
  wd_curside (disc_readsector d s t sd dn w) = wd_curside w.
Proof. kept. Qed.

Lemma disc_readsector_wd_density d s t sd dn w :
  wd_density (disc_readsector d s t sd dn w) = wd_density w.
Proof. kept. Qed.

Lemma disc_readsector_WD1770 d s t sd dn w :
  WD1770 (disc_readsector d s t sd dn w) = WD1770 w.
Proof. kept. Qed.

Lemma disc_readsector_motoron d s t sd dn w :
  motoron (disc_readsector d s t sd dn w) = motoron w.
Proof. kept. Qed.

Lemma disc_readsector_motorspin d s t sd dn w :
  motorspin (disc_readsector d s t sd dn w) = motorspin w.
Proof. kept. Qed.

Lemma disc_readsector_fdc_time d s t sd dn w :
  fdc_time (disc_readsector d s t sd dn w) = fdc_time w.
Proof. kept. Qed.

Lemma disc_writesector_curdrive d s t sd dn w :
  curdrive (disc_writesector d s t sd dn w) = curdrive w.
Proof. kept. Qed.

Lemma disc_writesector_wd_curtrack d s t sd dn w :
  wd_curtrack (disc_writesector d s t sd dn w) = wd_curtrack w.
Proof. kept. Qed.

Lemma disc_writesector_wd_data d s t sd dn w :
  wd_data (disc_writesector d s t sd dn w) = wd_data w.
Proof. kept. Qed.

Lemma disc_writesector_wd_written d s t sd dn w :
  wd_written (disc_writesector d s t sd dn w) = wd_written w.
Proof. kept. Qed.

Lemma disc_writesector_nmi d s t sd dn w :
  nmi (disc_writesector d s t sd dn w) = nmi w.
Proof. kept. Qed.

Lemma disc_writesector_wd_track d s t sd dn w :
  wd_track (disc_writesector d s t sd dn w) = wd_track w.
Proof. kept. Qed.

Lemma disc_writesector_wd_sector d s t sd dn w :
  wd_sector (disc_writesector d s t sd dn w) = wd_sector w.
Proof. kept. Qed.

Lemma disc_writesector_wd_command d s t sd dn w :
  wd_command (disc_writesector d s t sd dn w) = wd_command w.
Proof. kept. Qed.

Lemma disc_writesector_wd_stepdir d s t sd dn w :
  wd_stepdir (disc_writesector d s t sd dn w) = wd_stepdir w.
Proof. kept. Qed.

Lemma disc_writesector_wd_curside d s t sd dn w :
  wd_curside (disc_writesector d s t sd dn w) = wd_curside w.
Proof. kept. Qed.

Lemma disc_writesector_wd_density d s t sd dn w :
  wd_density (disc_writesector d s t sd dn w) = wd_density w.
Proof. kept. Qed.

Lemma disc_writesector_WD1770 d s t sd dn w :
  WD1770 (disc_writesector d s t sd dn w) = WD1770 w.
Proof. kept. Qed.

Lemma disc_writesector_motoron d s t sd dn w :
  motoron (disc_writesector d s t sd dn w) = motoron w.
Proof. kept. Qed.

Lemma disc_writesector_motorspin d s t sd dn w :
  motorspin (disc_writesector d s t sd dn w) = motorspin w.
Proof. kept. Qed.

Lemma disc_writesector_fdc_time d s t sd dn w :
  fdc_time (disc_writesector d s t sd dn w) = fdc_time w.
Proof. kept. Qed.

Lemma disc_readaddress_curdrive d t sd dn w :
  curdrive (disc_readaddress d t sd dn w) = curdrive w.
Proof. kept. Qed.

Lemma disc_readaddress_wd_curtrack d t sd dn w :
  wd_curtrack (disc_readaddress d t sd dn w) = wd_curtrack w.
Proof. kept. Qed.

Lemma disc_readaddress_wd_data d t sd dn w :
  wd_data (disc_readaddress d t sd dn w) = wd_data w.
Proof. kept. Qed.

Lemma disc_readaddress_wd_written d t sd dn w :
  wd_written (disc_readaddress d t sd dn w) = wd_written w.
Proof. kept. Qed.

Lemma disc_readaddress_nmi d t sd dn w :
  nmi (disc_readaddress d t sd dn w) = nmi w.
Proof. kept. Qed.

Lemma disc_readaddress_wd_track d t sd dn w :
  wd_track (disc_readaddress d t sd dn w) = wd_track w.
Proof. kept. Qed.

Lemma disc_readaddress_wd_sector d t sd dn w :
  wd_sector (disc_readaddress d t sd dn w) = wd_sector w.
Proof. kept. Qed.

Lemma disc_readaddress_wd_command d t sd dn w :
  wd_command (disc_readaddress d t sd dn w) = wd_command w.
Proof. kept. Qed.

Lemma disc_readaddress_wd_stepdir d t sd dn w :
  wd_stepdir (disc_readaddress d t sd dn w) = wd_stepdir w.
Proof. kept. Qed.

Lemma disc_readaddress_wd_curside d t sd dn w :
  wd_curside (disc_readaddress d t sd dn w) = wd_curside w.
Proof. kept. Qed.

Lemma disc_readaddress_wd_density d t sd dn w :
  wd_density (disc_readaddress d t sd dn w) = wd_density w.
Proof. kept. Qed.

Lemma disc_readaddress_WD1770 d t sd dn w :
  WD1770 (disc_readaddress d t sd dn w) = WD1770 w.
Proof. kept. Qed.

Lemma disc_readaddress_motoron d t sd dn w :
  motoron (disc_readaddress d t sd dn w) = motoron w.
Proof. kept. Qed.

Lemma disc_readaddress_motorspin d t sd dn w :
  motorspin (disc_readaddress d t sd dn w) = motorspin w.
Proof. kept. Qed.

Lemma disc_readaddress_fdc_time d t sd dn w :
  fdc_time (disc_readaddress d t sd dn w) = fdc_time w.
Proof. kept. Qed.

Lemma disc_format_curdrive d t sd dn w :
  curdrive (disc_format d t sd dn w) = curdrive w.
Proof. kept. Qed.

Lemma disc_format_wd_curtrack d t sd dn w :
  wd_curtrack (disc_format d t sd dn w) = wd_curtrack w.
Proof. kept. Qed.

Lemma disc_format_wd_data d t sd dn w :
  wd_data (disc_format d t sd dn w) = wd_data w.
Proof. kept. Qed.

Lemma disc_format_wd_written d t sd dn w :
  wd_written (disc_format d t sd dn w) = wd_written w.
Proof. kept. Qed.

Lemma disc_format_nmi d t sd dn w :
  nmi (disc_format d t sd dn w) = nmi w.
Proof. kept. Qed.

Lemma disc_format_wd_track d t sd dn w :
  wd_track (disc_format d t sd dn w) = wd_track w.
Proof. kept. Qed.

Lemma disc_format_wd_sector d t sd dn w :
  wd_sector (disc_format d t sd dn w) = wd_sector w.
Proof. kept. Qed.

Lemma disc_format_wd_command d t sd dn w :
  wd_command (disc_format d t sd dn w) = wd_command w.
Proof. kept. Qed.

Lemma disc_format_wd_stepdir d t sd dn w :
  wd_stepdir (disc_format d t sd dn w) = wd_stepdir w.
Proof. kept. Qed.

Lemma disc_format_wd_curside d t sd dn w :
  wd_curside (disc_format d t sd dn w) = wd_curside w.
Proof. kept. Qed.

Lemma disc_format_wd_density d t sd dn w :
  wd_density (disc_format d t sd dn w) = wd_density w.
Proof. kept. Qed.

Lemma disc_format_WD1770 d t sd dn w :
  WD1770 (disc_format d t sd dn w) = WD1770 w.
Proof. kept. Qed.

Lemma disc_format_motoron d t sd dn w :
  motoron (disc_format d t sd dn w) = motoron w.
Proof. kept. Qed.

Lemma disc_format_motorspin d t sd dn w :
  motorspin (disc_format d t sd dn w) = motorspin w.
Proof. kept. Qed.

Lemma disc_format_fdc_time d t sd dn w :
  fdc_time (disc_format d t sd dn w) = fdc_time w.
Proof. kept. Qed.

Create Rewrite HintDb regs.
#[global] Hint Rewrite
  disc_seek_status disc_seek_trace
  disc_readsector_status disc_readsector_trace
  disc_writesector_status disc_writesector_trace
  disc_readaddress_status disc_readaddress_trace
  disc_format_status disc_format_trace : regs.
#[global] Hint Rewrite disc_seek_curdrive disc_seek_wd_curtrack disc_seek_wd_data : regs.
#[global] Hint Rewrite disc_seek_wd_written disc_seek_nmi disc_seek_wd_track : regs.
#[global] Hint Rewrite disc_seek_wd_sector disc_seek_wd_command disc_seek_wd_stepdir : regs.
#[global] Hint Rewrite disc_seek_wd_curside disc_seek_wd_density disc_seek_WD1770 : regs.
#[global] Hint Rewrite disc_seek_motoron disc_seek_motorspin disc_seek_fdc_time : regs.
#[global] Hint Rewrite disc_readsector_curdrive disc_readsector_wd_curtrack disc_readsector_wd_data : regs.
#[global] Hint Rewrite disc_readsector_wd_written disc_readsector_nmi disc_readsector_wd_track : regs.
#[global] Hint Rewrite disc_readsector_wd_sector disc_readsector_wd_command disc_readsector_wd_stepdir : regs.
#[global] Hint Rewrite disc_readsector_wd_curside disc_readsector_wd_density disc_readsector_WD1770 : regs.
#[global] Hint Rewrite disc_readsector_motoron disc_readsector_motorspin disc_readsector_fdc_time : regs.
#[global] Hint Rewrite disc_writesector_curdrive disc_writesector_wd_curtrack disc_writesector_wd_data : regs.
#[global] Hint Rewrite disc_writesector_wd_written disc_writesector_nmi disc_writesector_wd_track : regs.
#[global] Hint Rewrite disc_writesector_wd_sector disc_writesector_wd_command disc_writesector_wd_stepdir : regs.
#[global] Hint Rewrite disc_writesector_wd_curside disc_writesector_wd_density disc_writesector_WD1770 : regs.
#[global] Hint Rewrite disc_writesector_motoron disc_writesector_motorspin disc_writesector_fdc_time : regs.
#[global] Hint Rewrite disc_readaddress_curdrive disc_readaddress_wd_curtrack disc_readaddress_wd_data : regs.
#[global] Hint Rewrite disc_readaddress_wd_written disc_readaddress_nmi disc_readaddress_wd_track : regs.
#[global] Hint Rewrite disc_readaddress_wd_sector disc_readaddress_wd_command disc_readaddress_wd_stepdir : regs.
#[global] Hint Rewrite disc_readaddress_wd_curside disc_readaddress_wd_density disc_readaddress_WD1770 : regs.
#[global] Hint Rewrite disc_readaddress_motoron disc_readaddress_motorspin disc_readaddress_fdc_time : regs.
#[global] Hint Rewrite disc_format_curdrive disc_format_wd_curtrack disc_format_wd_data : regs.
#[global] Hint Rewrite disc_format_wd_written disc_format_nmi disc_format_wd_track : regs.
#[global] Hint Rewrite disc_format_wd_sector disc_format_wd_command disc_format_wd_stepdir : regs.
#[global] Hint Rewrite disc_format_wd_curside disc_format_wd_density disc_format_WD1770 : regs.
#[global] Hint Rewrite disc_format_motoron disc_format_motorspin disc_format_fdc_time : regs.

(** Push a projection through setters and dispatch calls, registers
    included. *)
Ltac observe_regs := repeat (progress (cbn; autorewrite with regs)).

Ltac split_ifs_regs :=
  repeat match goal with
         | |- context [if ?c then _ else _] => destruct c; observe_regs
         end.

(** ** The controller across register writes *)

Lemma run_board_writes_cons aw ws w :
  run_board_writes (aw :: ws) w
  = run_board_writes ws (wd1770_write (fst aw) (snd aw) w).
Proof.
  unfold run_board_writes. lazy beta iota delta [fold_left]. reflexivity.
Qed.





Lemma write_1770_board a v w : WD1770 (write_1770 a v w) = WD1770 w.
Proof.
  unfold write_1770.
  destruct (reg_select_range a) as [H | [H | [H | H]]]; rewrite H;
    try reflexivity.
  destruct (truthy (Z.land (wd_status w) 1)
            && negb (Z.shiftr (u8 v) 4 =? 13)); [ reflexivity | ].
  pattern (Z.shiftr (u8 v) 4). apply nibble_cases; cbv beta iota;
    cbn [Z.eqb Pos.eqb negb]; unfold cmd_read_address;
    observe_regs; split_ifs_regs; reflexivity.
Qed.





(** ** Commands one by one *)








(** X3. A command byte whose upper nibble is 9, 0xB or 0xE has no case of
    its own.  Written while the busy bit is clear, it is latched in the
    command register, issues no dispatch call and leaves the backend as it
    was; the status byte becomes 0x10 (record not found, motor off) and the
    motor flag is cleared. *)
Theorem unrecognised_command_is_not_found (v : Z) (w : world) :
  busy w = false ->
  Z.shiftr (u8 v) 4 = 9 \/ Z.shiftr (u8 v) 4 = 0xB
  \/ Z.shiftr (u8 v) 4 = 0xE ->
  let w' := write_1770 0 v w in
  new_events w w' = [] /\ wd_status w' = 0x10 /\ motoron w' = 0
  /\ wd_command w' = u8 v /\ fdc_time w' = 0
  /\ state w' = state w /\ count w' = count w /\ sdf_fp w' = sdf_fp w
  /\ nmi w' = (if acorn_or_master w then 1 else nmi w).
Proof.
  intros Hb Hn w'. subst w'. unfold write_1770.
  change (Z.land (u16 0) 3) with 0. cbv iota.
  unfold busy in Hb. rewrite Hb.
  destruct Hn as [Hn | [Hn | Hn]]; rewrite Hn; cbv beta iota zeta;
    cbn [andb Z.eqb Pos.eqb negb];
    (split; [ apply new_events_same; cbn;
              destruct (acorn_or_master _); reflexivity | ]);
    unfold acorn_or_master; cbn; destruct (WD1770 w); cbn; repeat split.
Qed.

Lemma unrecognised_command_is_not_found_witness :
  busy power_on = false
  /\ (Z.shiftr (u8 0x90) 4 = 9 \/ Z.shiftr (u8 0x90) 4 = 0xB
      \/ Z.shiftr (u8 0x90) 4 = 0xE)
  /\ new_events power_on (write_1770 0 0x90 power_on) = []
  /\ wd_status (write_1770 0 0x90 power_on) = 0x10.
Proof.
  assert (H1 : busy power_on = false) by reflexivity.
  assert (H2 : Z.shiftr (u8 0x90) 4 = 9 \/ Z.shiftr (u8 0x90) 4 = 0xB
               \/ Z.shiftr (u8 0x90) 4 = 0xE) by (left; reflexivity).
  destruct (unrecognised_command_is_not_found 0x90 power_on H1 H2)
    as (H3 & H4 & _).
  exact (conj H1 (conj H2 (conj H3 H4))).
Defined.

Lemma clear_bit_0 (s : Z) :
  0 <= s < 256 -> Z.odd s = true -> u8 (Z.land s (Z.lnot 1)) = s - 1.
Proof.
  intros Hs Hodd.
  assert (Hall : forallb (fun s => implb (Z.odd s)
                            (u8 (Z.land s (Z.lnot 1)) =? s - 1))
                         (map Z.of_nat (seq 0 256)) = true)
    by (vm_compute; reflexivity).
  rewrite forallb_forall in Hall.
  assert (Hin : In s (map Z.of_nat (seq 0 256))).
  { apply in_map_iff. exists (Z.to_nat s). split; [ lia | ].
    apply in_seq. lia. }
  specialize (Hall s Hin). rewrite Hodd in Hall. cbn in Hall.
  apply Z.eqb_eq. exact Hall.
Qed.

Lemma land_1_odd (s : Z) : truthy (Z.land s 1) = Z.odd s.
Proof.
  unfold truthy. rewrite <- Z.bit0_odd.
  assert (E : Z.land s 1 = Z.b2z (Z.testbit s 0)).
  { apply Z.bits_inj'. intros n Hn. rewrite Z.land_spec, testbit_one by lia.
    destruct (n =? 0) eqn:En.
    - apply Z.eqb_eq in En. subst n. rewrite andb_true_r.
      destruct (Z.testbit s 0); reflexivity.
    - rewrite andb_false_r. apply Z.eqb_neq in En.
      destruct (Z.testbit s 0); cbn.
      + rewrite testbit_one by lia. apply Z.eqb_neq in En. rewrite En.
        reflexivity.
      + rewrite Z.bits_0. reflexivity. }
  rewrite E. destruct (Z.testbit s 0); reflexivity.
Qed.

(** X4. Force Interrupt is accepted in every state and aborts nothing.  It
    issues no dispatch call, keeps the track, sector and data registers and
    the current track, restarts the spin-down count and leaves the
    backend's state, counter and files alone.  With the busy bit set it
    clears that bit and no other bit of the status byte; with the bit clear
    it sets the status to [0x80 | track0]. *)
Theorem force_interrupt_aborts_nothing (v : Z) (w : world) :
  Z.shiftr (u8 v) 4 = 0xD -> 0 <= wd_status w < 256 ->
  let w' := write_1770 0 v w in
  new_events w w' = []
  /\ wd_track w' = wd_track w /\ wd_sector w' = wd_sector w
  /\ wd_data w' = wd_data w /\ wd_curtrack w' = wd_curtrack w
  /\ state w' = state w /\ count w' = count w /\ sdf_fp w' = sdf_fp w
  /\ motorspin w' = 45000 /\ fdc_time w' = 0 /\ busy w' = false
  /\ wd_status w' = (if busy w then wd_status w - 1
                     else Z.lor 0x80 (track0 w)).
Proof.
  intros Hn Hs w'. subst w'. unfold write_1770.
  change (Z.land (u16 0) 3) with 0. cbv iota. rewrite Hn.
  cbn [Z.eqb Pos.eqb negb]. rewrite andb_false_r. cbv beta iota zeta.
  cbn [wd_status set_fdc_time set_wd_command].
  unfold busy, wd1770_setspindown. rewrite (land_1_odd (wd_status w)).
  destruct (Z.odd (wd_status w)) eqn:Eo; cbn;
    (split; [ apply new_events_same; reflexivity | ]);
    repeat (split; [ reflexivity | ]).
  - rewrite (clear_bit_0 _ Hs Eo). split; [ | reflexivity ].
    rewrite land_1_odd. replace (wd_status w - 1) with (Z.pred (wd_status w))
      by lia. rewrite Z.odd_pred, <- Z.negb_odd, Eo. reflexivity.
  - split; [ | reflexivity ].
    destruct (track0_cases (set_wd_command (u8 v) w)) as [E | E];
      unfold track0 in *; cbn in *; rewrite E; reflexivity.
Qed.

Lemma force_interrupt_aborts_nothing_witness :
  Z.shiftr (u8 0xD0) 4 = 0xD
  /\ 0 <= wd_status (write_1770 0 0x80 dfs_in_drive0) < 256
  /\ state (write_1770 0 0xD0 (write_1770 0 0x80 dfs_in_drive0))
     = ST_READSECTOR
  /\ busy (write_1770 0 0xD0 (write_1770 0 0x80 dfs_in_drive0)) = false.
Proof.
  assert (H1 : Z.shiftr (u8 0xD0) 4 = 0xD) by reflexivity.
  assert (E : wd_status (write_1770 0 0x80 dfs_in_drive0) = 0x81)
    by (vm_compute; reflexivity).
  assert (H2 : 0 <= wd_status (write_1770 0 0x80 dfs_in_drive0) < 256)
    by (rewrite E; lia).
  destruct (force_interrupt_aborts_nothing 0xD0
              (write_1770 0 0x80 dfs_in_drive0) H1 H2)
    as (_ & _ & _ & _ & _ & H3 & _ & _ & _ & _ & H4 & _).
  assert (H5 : state (write_1770 0 0x80 dfs_in_drive0) = ST_READSECTOR)
    by (vm_compute; reflexivity).
  rewrite H5 in H3.
  exact (conj H1 (conj H2 (conj H3 H4))).
Defined.

(** ** Write Sector, register reads and the completion callback *)

Lemma sdf_writesector_leaves_idle d s t sd dn w :
  state w = ST_IDLE ->
  state (sdf_writesector d s t sd dn w) = ST_WRITESECTOR
  \/ state (sdf_writesector d s t sd dn w) = ST_NOTFOUND.
Proof.
  intros Hs. unfold sdf_writesector, start_notfound. rewrite Hs.
  frame_cases; cbn; auto.
Qed.

(** X5. Write Sector has no [break]: an accepted Write Sector command
    issues a write-sector call and then a read-address call for the same
    drive, track, side and density.  The data-request bit it sets in the
    status byte is overwritten again, so the status is 0x81, while the
    data-request interrupt stays raised and the latch flag is cleared.
    With the write-sector slot bound to the image backend and the backend
    idle, the backend takes the write (or starts its not-found countdown)
    and never the address read. *)
Theorem write_sector_runs_into_read_address (v : Z) (w : world) :
  busy w = false -> Z.shiftr (u8 v) 4 = 0xA ->
  let w' := write_1770 0 v w in
  new_events w w'
  = [ev_disc_writesector (curdrive w) (wd_sector w) (wd_track w)
                         (wd_curside w) (wd_density w);
     ev_disc_readaddress (curdrive w) (wd_track w) (wd_curside w)
                         (wd_density w)]
  /\ wd_status w' = 0x81 /\ Z.testbit (nmi w') 1 = true
  /\ wd_written w' = 0
  /\ (state w = ST_IDLE -> slot writesector w (curdrive w) = Some SDF ->
      state w' = ST_WRITESECTOR \/ state w' = ST_NOTFOUND).
Proof.
  intros Hb Hn w'. subst w'. unfold write_1770.
  change (Z.land (u16 0) 3) with 0. cbv iota.
  unfold busy in Hb. rewrite Hb, Hn. cbv beta iota zeta.
  cbn [andb Z.eqb Pos.eqb negb]. unfold cmd_read_address.
  split; [ | split; [ | split; [ | split ] ] ].
  - apply new_events_app. observe_regs. rewrite <- app_assoc. reflexivity.
  - observe_regs. reflexivity.
  - match goal with
    | |- Z.testbit (nmi ?x) 1 = true =>
        assert (E : nmi x = Z.lor (nmi w) 2) by (observe_regs; reflexivity)
    end.
    rewrite E, Z.lor_spec. change (Z.testbit 2 1) with true.
    apply orb_true_r.
  - observe_regs. reflexivity.
  - intros Hs Hsl. cbn [state set_byte].
    match goal with
    | |- context [disc_readaddress ?d ?t ?sd ?dn ?x] =>
        set (wx := x)
    end.
    assert (Hx : state wx = ST_WRITESECTOR \/ state wx = ST_NOTFOUND).
    { subst wx. cbn [state set_wd_status set_wd_written set_nmi set_byte].
      unfold disc_writesector. cbv zeta.
      match goal with
      | |- context [slot writesector ?x ?y] =>
          change (slot writesector x y) with (slot writesector w (curdrive w))
      end.
      rewrite Hsl. apply sdf_writesector_leaves_idle. exact Hs. }
    clearbody wx.
    assert (Hign : forall dx tx sx nx x, state x <> ST_IDLE ->
                     sdf_readaddress dx tx sx nx x = x)
      by (intros dx tx sx nx x Hni;
          exact (not_idle_ignores x Hni op_readaddress dx 0 tx sx nx)).
    unfold disc_readaddress. cbv zeta.
    match goal with
    | |- context [slot readaddress ?x ?y] =>
        destruct (slot readaddress x y) as [[]|]
    end.
    + rewrite Hign by (cbn; destruct Hx as [-> | ->]; discriminate).
      exact Hx.
    + exact Hx.
Qed.

Lemma write_sector_runs_into_read_address_witness :
  busy dfs_in_drive0 = false /\ Z.shiftr (u8 0xA0) 4 = 0xA
  /\ new_events dfs_in_drive0 (write_1770 0 0xA0 dfs_in_drive0)
     = [ev_disc_writesector 0 0 0 0 0; ev_disc_readaddress 0 0 0 0]
  /\ wd_status (write_1770 0 0xA0 dfs_in_drive0) = 0x81.
Proof.
  assert (H1 : busy dfs_in_drive0 = false) by reflexivity.
  assert (H2 : Z.shiftr (u8 0xA0) 4 = 0xA) by reflexivity.
  destruct (write_sector_runs_into_read_address 0xA0 dfs_in_drive0 H1 H2)
    as (H3 & H4 & _).
  exact (conj H1 (conj H2 (conj H3 H4))).
Defined.

Lemma u16_u16 x : u16 (u16 x) = u16 x.
Proof. unfold u16. apply Z.mod_mod. lia. Qed.

Lemma u8_clear_bit_1 x : Z.testbit (u8 (Z.land x (Z.lnot 2))) 1 = false.
Proof.
  unfold u8. change 256 with (2 ^ 8).
  rewrite Z.mod_pow2_bits_low by lia.
  rewrite Z.land_spec, Z.lnot_spec by lia.
  change (Z.testbit 2 1) with true. apply andb_false_r.
Qed.

(** X6. The track, sector and data registers read back what was written.
    On every board, for an address that selects the chip and one of these
    three registers, a write followed by a read of the same address returns
    the byte written; the read of the data register also clears the
    data-request bit.  A read of an address that does not select the chip
    returns 0xFE and changes nothing on the Acorn and Master boards, while
    on the Solidisk board every read reaches a chip register. *)
Theorem register_write_read_roundtrip (a v : Z) (w : world) :
  (chip_selected (WD1770 w) a = true -> Z.land (u16 a) 0x03 <> 0 ->
   fst (wd1770_read a (wd1770_write a v w)) = u8 v
   /\ (Z.land (u16 a) 0x03 = 3 ->
       Z.testbit (wd_status (snd (wd1770_read a (wd1770_write a v w)))) 1
       = false))
  /\ (chip_selected (WD1770 w) a = false ->
      WD1770 w <> WD1770_SOLIDISK -> wd1770_read a w = (0xFE, w))
  /\ (WD1770 w = WD1770_SOLIDISK -> wd1770_read a w = read_1770 (u16 a) w).
Proof.
  split; [ | split ].
  - intros Hsel Hreg.
    assert (Hw : wd1770_write a v w = write_1770 (u16 a) v w).
    { unfold wd1770_write, chip_selected in *. cbv zeta.
      destruct (WD1770 w); destruct (truthy _); try reflexivity;
        discriminate. }
    assert (Hr : forall x, WD1770 x = WD1770 w ->
                   wd1770_read a x = read_1770 (u16 a) x).
    { intros x Hx. unfold wd1770_read, chip_selected in *. cbv zeta.
      rewrite Hx. destruct (WD1770 w); destruct (truthy _); try reflexivity;
        discriminate. }
    rewrite Hw, (Hr _ (write_1770_board _ _ _)).
    unfold read_1770, write_1770. rewrite !u16_u16.
    destruct (reg_select_range (u16 a)) as [H | [H | [H | H]]];
      rewrite u16_u16 in H; rewrite H; cbv beta iota zeta;
      cbn [fst snd wd_status set_wd_status set_nmi wd_track wd_sector wd_data
           set_wd_track set_wd_sector set_wd_data].
    + contradiction.
    + split; [ reflexivity | discriminate ].
    + split; [ reflexivity | discriminate ].
    + split; [ reflexivity | ]. intros _. apply u8_clear_bit_1.
  - intros Hsel Hb. unfold wd1770_read, chip_selected in *. cbv zeta.
    destruct (WD1770 w); try contradiction; rewrite Hsel; reflexivity.
  - intros Hb. unfold wd1770_read. cbv zeta. rewrite Hb. reflexivity.
Qed.

Lemma register_write_read_roundtrip_witness :
  chip_selected (WD1770 power_on) 5 = true /\ Z.land (u16 5) 0x03 <> 0
  /\ fst (wd1770_read 5 (wd1770_write 5 0x27 power_on)) = u8 0x27.
Proof.
  assert (H1 : chip_selected (WD1770 power_on) 5 = true) by reflexivity.
  assert (H2 : Z.land (u16 5) 0x03 <> 0) by (vm_compute; discriminate).
  destruct (proj1 (register_write_read_roundtrip 5 0x27 power_on) H1 H2)
    as [H3 _].
  exact (conj H1 (conj H2 H3)).
Defined.

Lemma accepted_command_latched v w :
  busy w = false -> wd_command (write_1770 0 v w) = u8 v.
Proof.
  intros Hb. unfold write_1770. change (Z.land (u16 0) 3) with 0. cbv iota.
  unfold busy in Hb. rewrite Hb. cbn [andb].
  pattern (Z.shiftr (u8 v) 4). apply nibble_cases; cbv beta iota;
    cbn [Z.eqb Pos.eqb negb]; unfold cmd_read_address;
    observe_regs;
    repeat match goal with
           | |- context [if ?c then _ else _] => destruct c; observe_regs
           end; reflexivity.
Qed.

Lemma callback_done_spec st w :
  busy (callback_done st w) = truthy (Z.land st 1)
  /\ motorspin (callback_done st w) = 45000
  /\ fdc_time (callback_done st w) = fdc_time w
  /\ state (callback_done st w) = state w
  /\ trace (callback_done st w) = trace w.
Proof.
  unfold callback_done, wd1770_setspindown, acorn_or_master, busy.
  cbv zeta. cbn [WD1770 set_wd_status set_motorspin].
  destruct (WD1770 w); cbn; repeat split.
Qed.

Lemma track0_not_busy w : truthy (Z.land (Z.lor 0x80 (track0 w)) 1) = false.
Proof. unfold track0. destruct (truthy (wd_curtrack w)); reflexivity. Qed.

Lemma callback_clears_busy (w : world) :
  let n := Z.shiftr (wd_command w) 4 in
  n <> 9 -> n <> 0xB -> n <> 0xD -> n <> 0xE -> 0 <= n < 16 ->
  busy (wd1770_callback w) = false
  /\ motorspin (wd1770_callback w) = 45000
  /\ fdc_time (wd1770_callback w) = 0
  /\ state (wd1770_callback w) = state w
  /\ trace (wd1770_callback w) = trace w.
Proof.
  intros n H9 HB HD HE Hr. subst n. unfold wd1770_callback. cbv zeta.
  cbn [wd_command set_fdc_time].
  assert (Hc : Z.shiftr (wd_command w) 4 = 0 \/ Z.shiftr (wd_command w) 4 = 1
               \/ Z.shiftr (wd_command w) 4 = 2
               \/ Z.shiftr (wd_command w) 4 = 3
               \/ Z.shiftr (wd_command w) 4 = 4
               \/ Z.shiftr (wd_command w) 4 = 5
               \/ Z.shiftr (wd_command w) 4 = 6
               \/ Z.shiftr (wd_command w) 4 = 7
               \/ Z.shiftr (wd_command w) 4 = 8
               \/ Z.shiftr (wd_command w) 4 = 10
               \/ Z.shiftr (wd_command w) 4 = 12
               \/ Z.shiftr (wd_command w) 4 = 15) by lia.
  repeat (destruct Hc as [Hc | Hc]); rewrite Hc; cbv beta iota zeta;
    match goal with
    | |- context [callback_done ?st ?x] =>
        destruct (callback_done_spec st x) as (E1 & E2 & E3 & E4 & E5)
    end;
    unfold busy in *;
    cbn [wd_status motorspin fdc_time state trace set_wd_sector set_wd_track
         set_fdc_time] in *;
    rewrite E1, E2, E3, E4, E5, ?track0_not_busy; repeat split.
Qed.

(** X7. The completion callback finishes every command that has a case of
    its own.  After a command accepted with the busy bit clear whose upper
    nibble is not 9, 0xB, 0xD or 0xE, the callback leaves the busy bit
    clear, restarts the spin-down count and records nothing; it does not
    touch the backend.  For the nibbles 9, 0xB, 0xD and 0xE it only zeroes
    the callback timer. *)
Theorem callback_completes_accepted_command (v : Z) (w : world) :
  busy w = false ->
  let n := Z.shiftr (u8 v) 4 in
  let w1 := write_1770 0 v w in
  (n <> 9 -> n <> 0xB -> n <> 0xD -> n <> 0xE ->
   busy (wd1770_callback w1) = false
   /\ motorspin (wd1770_callback w1) = 45000
   /\ state (wd1770_callback w1) = state w1
   /\ trace (wd1770_callback w1) = trace w1)
  /\ (n = 9 \/ n = 0xB \/ n = 0xD \/ n = 0xE ->
      wd1770_callback w1 = set_fdc_time 0 w1).
Proof.
  intros Hb n w1. subst n w1.
  pose proof (accepted_command_latched v w Hb) as Hcmd.
  pose proof (nibble_range v) as Hr.
  set (w1 := write_1770 0 v w) in *. clearbody w1.
  split.
  - intros H9 HB HD HE.
    destruct (callback_clears_busy w1) as (H1 & H2 & _ & H4 & H5);
      rewrite ?Hcmd; try assumption.
    repeat split; assumption.
  - intros Hn. unfold wd1770_callback. cbv zeta.
    cbn [wd_command set_fdc_time]. rewrite Hcmd.
    destruct Hn as [Hn | [Hn | [Hn | Hn]]]; rewrite Hn; reflexivity.
Qed.

Lemma callback_completes_accepted_command_witness :
  busy dfs_in_drive0 = false
  /\ busy (write_1770 0 0x80 dfs_in_drive0) = true
  /\ busy (wd1770_callback (write_1770 0 0x80 dfs_in_drive0)) = false.
Proof.
  assert (H1 : busy dfs_in_drive0 = false) by reflexivity.
  assert (H2 : busy (write_1770 0 0x80 dfs_in_drive0) = true)
    by (vm_compute; reflexivity).
  destruct (callback_completes_accepted_command 0x80 dfs_in_drive0 H1)
    as [H3 _].
  assert (N : Z.shiftr (u8 0x80) 4 = 8) by reflexivity.
  destruct H3 as (H4 & _); try (rewrite N; discriminate).
  exact (conj H1 (conj H2 H4)).
Defined.

(** ** Geometry detection *)

Lemma byte_file_check f :
  forallb (fun b => (0 <=? b) && (b <? 256)) (f_bytes f) = true ->
  byte_file f.
Proof.
  unfold byte_file. intros H. apply List.Forall_forall. intros b Hb.
  rewrite forallb_forall in H. specialize (H b Hb).
  apply andb_true_iff in H. destruct H as [H1 H2].
  apply Z.leb_le in H1. apply Z.ltb_lt in H2. lia.
Qed.

Lemma getc_bytes f : f_bytes (snd (getc f)) = f_bytes f.
Proof. unfold getc. destruct (aget _ _); reflexivity. Qed.

Lemma getc_range f : byte_file f -> -1 <= fst (getc f) < 256.
Proof.
  unfold byte_file, getc, aget, EOF. intros H.
  destruct (f_pos f <? 0); [ cbn; lia | ].
  destruct (f_bytes f !! Z.to_nat (f_pos f)) as [b|] eqn:E; [ | cbn; lia ].
  cbn. pose proof (Forall_lookup_1 _ _ _ _ H E) as Hb. cbn in Hb. lia.
Qed.

Lemma fseek_set_bytes off f : f_bytes (fseek_set off f) = f_bytes f.
Proof. unfold fseek_set. destruct (off <? 0); reflexivity. Qed.

Lemma fseek_end_bytes f : f_bytes (fseek_end f) = f_bytes f.
Proof. reflexivity. Qed.

Lemma dfs_sector_count_bytes f : f_bytes (snd (dfs_sector_count f)) = f_bytes f.
Proof. unfold dfs_sector_count. cbn. rewrite !getc_bytes. reflexivity. Qed.

Lemma fseek_set_nonneg off f :
  0 <= off -> fseek_set off f = mkFILE (f_bytes f) off (f_rw f).
Proof. intros H. unfold fseek_set. rewrite nonneg_ltb by exact H. reflexivity. Qed.

(** Reading does not look at the mode of the stream. *)
Lemma dfs_sector_count_mode bytes pos rw rw' :
  fst (dfs_sector_count (mkFILE bytes pos rw))
  = fst (dfs_sector_count (mkFILE bytes pos rw')).
Proof.
  unfold dfs_sector_count, getc. cbn [f_bytes f_pos f_rw fst snd].
  destruct (aget bytes pos) eqn:E1; cbn [f_bytes f_pos f_rw fst snd].
  - destruct (aget bytes (pos + 1)); reflexivity.
  - rewrite E1. reflexivity.
Qed.

Lemma dfs_count_at_bytes off f g :
  0 <= off -> f_bytes f = f_bytes g -> dfs_count_at off f = dfs_count_at off g.
Proof.
  intros H E. unfold dfs_count_at. rewrite !fseek_set_nonneg by exact H.
  rewrite E. apply dfs_sector_count_mode.
Qed.

Lemma land_3_range x : 0 <= Z.land x 3 < 4.
Proof.
  change 3 with (Z.ones 2). rewrite Z.land_ones by lia.
  change (2 ^ 2) with 4. apply Z.mod_pos_bound. lia.
Qed.

(** The count is ten bits wide, unless the file ends inside it. *)
Lemma dfs_count_range off f :
  byte_file f ->
  0 <= dfs_count_at off f < 1024 \/ dfs_count_at off f = 4294967295.
Proof.
  intros Hb. unfold dfs_count_at, dfs_sector_count. cbn [fst snd].
  set (g := fseek_set off f).
  assert (Hg : byte_file g) by (unfold byte_file, g; rewrite fseek_set_bytes; exact Hb).
  pose proof (getc_range g Hg) as H1.
  assert (Hg' : byte_file (snd (getc g)))
    by (unfold byte_file; rewrite getc_bytes; exact Hg).
  pose proof (getc_range _ Hg') as H2.
  pose proof (land_3_range (fst (getc g))) as H3.
  rewrite Z.shiftl_mul_pow2 by lia. change (2 ^ 8) with 256.
  set (a := Z.land (fst (getc g)) 3) in *.
  set (b := fst (getc (snd (getc g)))) in *.
  destruct (Z.eq_dec (a * 256 + b) (-1)) as [E | N].
  - right. rewrite E. reflexivity.
  - left. rewrite u32_id by lia. lia.
Qed.

Lemma try_dfs_loop_pure c tbl : forall f,
  fst (try_dfs_loop c tbl f)
  = dfs_choice c (fun off => dfs_count_at off (mkFILE (f_bytes f) 0 true)) tbl
  /\ f_bytes (snd (try_dfs_loop c tbl f)) = f_bytes f.
Proof.
  induction tbl as [ | ptr rest IH ]; intros f; [ split; reflexivity | ].
  cbn [try_dfs_loop dfs_choice]. rewrite (Z.eqb_sym c).
  destruct (size_in_sectors ptr =? c); [ | apply IH ].
  destruct (sides_eqb (sides ptr) SIDES_SINGLE); [ split; reflexivity | ].
  cbv zeta.
  set (off := u32 (_ + 262)).
  assert (Hoff : 0 <= off) by (pose proof (u32_range (off - 0)); unfold off; apply u32_range).
  change (fst (dfs_sector_count (fseek_set off f))) with (dfs_count_at off f).
  rewrite (dfs_count_at_bytes off f (mkFILE (f_bytes f) 0 true) Hoff eq_refl).
  set (r := dfs_sector_count (fseek_set off f)).
  assert (Hr : f_bytes (snd r) = f_bytes f)
    by (unfold r; rewrite dfs_sector_count_bytes, fseek_set_bytes; reflexivity).
  rewrite (Z.eqb_sym _ c).
  destruct (c =? dfs_count_at off (mkFILE (f_bytes f) 0 true)).
  - split; [ reflexivity | exact Hr ].
  - destruct (IH (snd r)) as [I1 I2]. rewrite I1, I2, Hr. split; reflexivity.
Qed.

Lemma try_dfs_pure f :
  fst (try_dfs f)
  = dfs_choice (dfs_count_at 0x106 f)
               (fun off => dfs_count_at off (mkFILE (f_bytes f) 0 true)) dfs_formats
  /\ f_bytes (snd (try_dfs f)) = f_bytes f.
Proof.
  unfold try_dfs. cbv zeta.
  destruct (try_dfs_loop_pure (fst (dfs_sector_count (fseek_set 262 f)))
              dfs_formats (snd (dfs_sector_count (fseek_set 262 f))))
    as [H1 H2].
  rewrite H1, H2, dfs_sector_count_bytes, fseek_set_bytes.
  split; reflexivity.
Qed.

Lemma dfs_choice_sound c cnt tbl geo :
  dfs_choice c cnt tbl = Some geo -> In geo tbl /\ size_in_sectors geo = c.
Proof.
  induction tbl as [ | ptr rest IH ]; [ discriminate | ].
  cbn [dfs_choice]. intros H.
  destruct (c =? size_in_sectors ptr) eqn:E.
  - apply Z.eqb_eq in E.
    destruct (sides_eqb (sides ptr) SIDES_SINGLE).
    + inversion H; subst. split; [ left; reflexivity | congruence ].
    + cbv zeta in H.
      match type of H with
      | (if ?b then _ else _) = _ => destruct b
      end.
      * inversion H; subst. split; [ left; reflexivity | congruence ].
      * destruct (IH H) as [I1 I2]. split; [ right; exact I1 | exact I2 ].
  - destruct (IH H) as [I1 I2]. split; [ right; exact I1 | exact I2 ].
Qed.

Lemma dfs_choice_cons c cnt ptr rest :
  dfs_choice c cnt (ptr :: rest)
  = if c =? size_in_sectors ptr then
      if sides_eqb (sides ptr) SIDES_SINGLE then Some ptr
      else
        if cnt (u32 ((if sides_eqb (sides ptr) SIDES_SEQUENTIAL
                      then u32 (tracks ptr
                                * u32 (sectors_per_track ptr * sector_size ptr))
                      else u32 (sectors_per_track ptr * sector_size ptr))
                     + 0x106)) =? c
        then Some ptr
        else dfs_choice c cnt rest
    else dfs_choice c cnt rest.
Proof. reflexivity. Qed.

Lemma dfs_sizes geo :
  In geo dfs_formats ->
  In (size_in_sectors geo) [1440; 720; 1280; 640; 800; 400].
Proof.
  unfold dfs_formats. cbn [In]. intros H.
  repeat (destruct H as [<- | H]; [ cbn; tauto | ]). contradiction.
Qed.

Lemma dfs_sector_size geo : In geo dfs_formats -> sector_size geo = 256.
Proof.
  unfold dfs_formats. cbn [In]. intros H.
  repeat (destruct H as [<- | H]; [ reflexivity | ]). contradiction.
Qed.

(** Three rows that differ only in their sides, in the order of the table. *)
Lemma dfs_choice_group c cnt nm d n tr spt rest :
  dfs_choice c cnt
    (mkGeometry nm SIDES_INTERLEAVED d n tr spt 256
     :: mkGeometry nm SIDES_SEQUENTIAL d n tr spt 256
     :: mkGeometry nm SIDES_SINGLE d n tr spt 256 :: rest)
  = if c =? n then
      Some (mkGeometry nm
              (if cnt (u32 (u32 (spt * 256) + 0x106)) =? c
               then SIDES_INTERLEAVED
               else if cnt (u32 (u32 (tr * u32 (spt * 256)) + 0x106)) =? c
                    then SIDES_SEQUENTIAL
                    else SIDES_SINGLE)
              d n tr spt 256)
    else dfs_choice c cnt rest.
Proof.
  rewrite !dfs_choice_cons.
  cbn [size_in_sectors sides sides_eqb tracks sectors_per_track sector_size].
  destruct (c =? n); [ | reflexivity ].
  destruct (cnt (u32 (u32 (spt * 256) + 262)) =? c); [ reflexivity | ].
  destruct (cnt (u32 (u32 (tr * u32 (spt * 256)) + 262)) =? c); reflexivity.
Qed.

(** The choice the loop makes on the table of the source, for each count. *)
Lemma dfs_choice_table c cnt :
  let pick tr spt :=
    if cnt (spt * 256 + 0x106) =? c then SIDES_INTERLEAVED
    else if cnt (tr * (spt * 256) + 0x106) =? c then SIDES_SEQUENTIAL
    else SIDES_SINGLE in
  dfs_choice c cnt dfs_formats
  = if c =? 1440 then
      Some (mkGeometry "Watford/Opus DDFS" (pick 80 18) DENS_DOUBLE 1440 80 18 256)
    else if c =? 720 then
      Some (mkGeometry "Watford/Opus DDFS" (pick 40 18) DENS_DOUBLE 720 40 18 256)
    else if c =? 1280 then
      Some (mkGeometry "Solidisk DDFS" (pick 80 16) DENS_DOUBLE 1280 80 16 256)
    else if c =? 640 then
      Some (mkGeometry "Solidisk DDFS" (pick 40 16) DENS_DOUBLE 640 40 16 256)
    else if c =? 800 then
      Some (mkGeometry "Acorn DFS" (pick 80 10) DENS_SINGLE 800 80 10 256)
    else if c =? 400 then
      Some (mkGeometry "Acorn DFS" (pick 40 10) DENS_SINGLE 400 40 10 256)
    else None.
Proof.
  cbv zeta. unfold dfs_formats. rewrite !dfs_choice_group. reflexivity.
Qed.

Lemma check_id_loop_bytes id : forall f,
  f_bytes (snd (check_id_loop id f)) = f_bytes f.
Proof.
  induction id as [ | ch id IH ]; intros f; [ reflexivity | ].
  cbn [check_id_loop]. cbv zeta.
  destruct (ch =? fst (getc f)); [ rewrite IH | cbn [snd] ];
    apply getc_bytes.
Qed.

Lemma check_id_bytes posn id f : f_bytes (snd (check_id posn id f)) = f_bytes f.
Proof.
  unfold check_id. destruct (posn <? 0); [ reflexivity | ].
  rewrite check_id_loop_bytes. apply fseek_set_bytes.
Qed.

Lemma find_In {A : Type} (p : A -> bool) (l : list A) (x : A) :
  find p l = Some x -> In x l /\ p x = true.
Proof. apply find_some. Qed.

Lemma try_adfs_new_spec f :
  f_bytes (snd (try_adfs_new f)) = f_bytes f
  /\ forall geo, fst (try_adfs_new f) = Some geo ->
       In geo adfs_new_formats
       /\ Z.of_nat (length (f_bytes f))
          = size_in_sectors geo * sector_size geo.
Proof.
  unfold try_adfs_new. cbv zeta.
  set (r1 := check_id 1025 "Nick" f).
  assert (H1 : f_bytes (snd r1) = f_bytes f) by apply check_id_bytes.
  set (r := if fst r1 then r1 else check_id 2049 "Nick" (snd r1)).
  assert (Hr : f_bytes (snd r) = f_bytes f).
  { unfold r. destruct (fst r1); [ exact H1 | ].
    rewrite check_id_bytes. exact H1. }
  clearbody r. destruct (fst r); cbn [fst snd].
  - split; [ rewrite fseek_end_bytes; exact Hr | ].
    intros geo Hg. apply find_In in Hg. destruct Hg as [Hin Hsz].
    split; [ exact Hin | ]. apply Z.eqb_eq in Hsz.
    unfold ftell, fseek_end in Hsz. cbn [f_pos] in Hsz.
    rewrite <- Hr. exact Hsz.
  - split; [ exact Hr | discriminate ].
Qed.

Lemma try_adfs_old_spec f :
  f_bytes (snd (try_adfs_old f)) = f_bytes f
  /\ forall geo, fst (try_adfs_old f) = Some geo -> In geo adfs_old_formats.
Proof.
  unfold try_adfs_old. cbv zeta.
  set (r1 := check_id 513 "Hugo" f).
  assert (H1 : f_bytes (snd r1) = f_bytes f) by apply check_id_bytes.
  clearbody r1. destruct (fst r1); [ | split; [ exact H1 | discriminate ] ].
  set (r2 := check_id 1787 "Hugo" (snd r1)).
  assert (H2 : f_bytes (snd r2) = f_bytes f)
    by (unfold r2; rewrite check_id_bytes; exact H1).
  clearbody r2. destruct (fst r2); [ | split; [ exact H2 | discriminate ] ].
  cbn [fst snd]. split.
  - rewrite !getc_bytes, fseek_set_bytes. exact H2.
  - intros geo Hg. apply find_In in Hg. apply Hg.
Qed.

Lemma detect_geometry_spec f :
  f_bytes (snd (detect_geometry f)) = f_bytes f
  /\ forall geo, fst (detect_geometry f) = Some geo ->
       (In geo adfs_new_formats
        /\ Z.of_nat (length (f_bytes f))
           = size_in_sectors geo * sector_size geo)
       \/ In geo adfs_old_formats
       \/ In geo dfs_formats.
Proof.
  unfold detect_geometry. cbv zeta.
  destruct (try_adfs_new_spec f) as [N1 N2].
  destruct (fst (try_adfs_new f)) as [g | ] eqn:En.
  - split; [ exact N1 | ]. intros geo Hg. left. apply N2.
    rewrite <- Hg. symmetry. exact En.
  - destruct (try_adfs_old_spec (snd (try_adfs_new f))) as [O1 O2].
    destruct (fst (try_adfs_old (snd (try_adfs_new f)))) as [g | ] eqn:Eo.
    + split; [ congruence | ]. intros geo Hg. right. left. apply O2.
      rewrite <- Hg. symmetry. exact Eo.
    + destruct (try_dfs_pure (snd (try_adfs_old (snd (try_adfs_new f)))))
        as [D1 D2].
      split; [ congruence | ]. intros geo Hg. right. right.
      rewrite D1 in Hg. apply dfs_choice_sound in Hg. apply Hg.
Qed.

(** X8. [try_dfs] reads a ten-bit sector count, so it recognises an image
    exactly when the count at 0x106 and 0x107 is 400, 640, 720 or 800.  The
    geometry it returns is a row of the DFS table with that count; the
    rows of 1440 and 1280 sectors are never returned. *)
Theorem try_dfs_count_is_ten_bits (f : FILE) :
  byte_file f ->
  (fst (try_dfs f) <> None
   <-> In (dfs_count_at 0x106 f) [400; 640; 720; 800])
  /\ (forall geo, fst (try_dfs f) = Some geo ->
        In geo dfs_formats
        /\ size_in_sectors geo = dfs_count_at 0x106 f
        /\ size_in_sectors geo < 1024).
Proof.
  intros Hb. destruct (try_dfs_pure f) as [-> _].
  pose proof (dfs_count_range 0x106 f Hb) as Hr.
  set (c := dfs_count_at 0x106 f) in *. clearbody c.
  set (cnt := fun off => dfs_count_at off (mkFILE (f_bytes f) 0 true)).
  clearbody cnt. split.
  - rewrite dfs_choice_table. cbv zeta. cbn [In].
    destruct (c =? 1440) eqn:E1; [ apply Z.eqb_eq in E1; lia | ].
    destruct (c =? 720) eqn:E2;
      [ apply Z.eqb_eq in E2; split; [ intros _; lia | discriminate ] | ].
    destruct (c =? 1280) eqn:E3; [ apply Z.eqb_eq in E3; lia | ].
    destruct (c =? 640) eqn:E4;
      [ apply Z.eqb_eq in E4; split; [ intros _; lia | discriminate ] | ].
    destruct (c =? 800) eqn:E5;
      [ apply Z.eqb_eq in E5; split; [ intros _; lia | discriminate ] | ].
    destruct (c =? 400) eqn:E6;
      [ apply Z.eqb_eq in E6; split; [ intros _; lia | discriminate ] | ].
    apply Z.eqb_neq in E2, E4, E5, E6.
    split; [ intros H; congruence | lia ].
  - intros geo Hg. apply dfs_choice_sound in Hg. destruct Hg as [Hin Hsz].
    split; [ exact Hin | ]. split; [ exact Hsz | ].
    pose proof (dfs_sizes geo Hin) as Hs. cbn [In] in Hs. lia.
Qed.

Lemma try_dfs_count_is_ten_bits_witness :
  byte_file dfs_image /\ fst (try_dfs dfs_image) <> None.
Proof.
  assert (H : byte_file dfs_image)
    by (apply byte_file_check; vm_compute; reflexivity).
  split; [ exact H | ].
  apply (proj1 (try_dfs_count_is_ten_bits dfs_image H)).
  vm_compute. tauto.
Defined.

(** X9. When the second side of a DFS image is looked for, the interleaved
    layout is tried first, then the sequential one, and the single-sided
    row is the fallback: the returned geometry is interleaved if the count
    one track into the file equals the count at 0x106, else sequential if
    the count one side into the file does, else single-sided. *)
Theorem try_dfs_prefers_interleaved (f : FILE) (geo : geometry_t) :
  fst (try_dfs f) = Some geo ->
  let c := dfs_count_at 0x106 f in
  let tb := sectors_per_track geo * sector_size geo in
  size_in_sectors geo = c
  /\ sides geo =
     (if dfs_count_at (tb + 0x106) f =? c then SIDES_INTERLEAVED
      else if dfs_count_at (tracks geo * tb + 0x106) f =? c
           then SIDES_SEQUENTIAL
           else SIDES_SINGLE).
Proof.
  intros Hg c tb. subst tb. destruct (try_dfs_pure f) as [E _].
  rewrite E in Hg. clear E. fold c in Hg.
  assert (Hc : forall off, 0 <= off ->
            dfs_count_at off (mkFILE (f_bytes f) 0 true) = dfs_count_at off f)
    by (intros off Ho; apply dfs_count_at_bytes; [ exact Ho | reflexivity ]).
  rewrite dfs_choice_table in Hg. cbv zeta in Hg.
  rewrite !Hc in Hg by lia. clearbody c.
  repeat match type of Hg with
         | (if ?b then _ else _) = _ =>
             let E := fresh "E" in
             destruct b eqn:E;
             [ apply Z.eqb_eq in E; inversion Hg; subst geo;
               cbn [size_in_sectors sides sectors_per_track sector_size
                    tracks];
               split; [ symmetry; exact E | reflexivity ] | ]
         end.
  discriminate Hg.
Qed.

Lemma try_dfs_prefers_interleaved_witness :
  fst (try_dfs dfs_image) = Some acorn_dfs_40_single
  /\ sides acorn_dfs_40_single = SIDES_SINGLE.
Proof.
  assert (H : fst (try_dfs dfs_image) = Some acorn_dfs_40_single)
    by (vm_compute; reflexivity).
  split; [ exact H | ].
  destruct (try_dfs_prefers_interleaved dfs_image acorn_dfs_40_single H)
    as [_ H2].
  rewrite H2. vm_compute. reflexivity.
Defined.

Lemma detection_in_catalogue f geo :
  fst (detect_geometry f) = Some geo ->
  In geo catalogue
  /\ (In geo adfs_new_formats ->
      Z.of_nat (length (f_bytes f)) = size_in_sectors geo * sector_size geo).
Proof.
  destruct (detect_geometry_spec f) as [_ H2]. intros Hg.
  destruct (H2 geo Hg) as [[Hn Hl] | [Ho | Hd]].
  - split; [ | intros _; exact Hl ].
    unfold catalogue. apply in_or_app. left. exact Hn.
  - split.
    + unfold catalogue. apply in_or_app. right. apply in_or_app. left.
      exact Ho.
    + intros Hn. exfalso. unfold adfs_new_formats, adfs_old_formats in *.
      cbn [In] in Hn, Ho.
      destruct Ho as [<- | [<- | [<- | []]]];
        destruct Hn as [Hn | [Hn | []]]; discriminate Hn.
  - split.
    + unfold catalogue. apply in_or_app. right. apply in_or_app. right.
      exact Hd.
    + intros Hn. exfalso. apply dfs_sector_size in Hd.
      unfold adfs_new_formats in Hn. cbn [In] in Hn.
      destruct Hn as [<- | [<- | []]]; discriminate Hd.
Qed.

(** X10. Detection only reads the image: whatever the three detectors
    decide, the bytes of the file afterwards are the bytes before.  A
    geometry they return is a row of one of the three tables, and a row of
    the new-map ADFS table is returned only for a file whose length is
    exactly that geometry's size in bytes. *)
Theorem detection_only_reads (f : FILE) :
  f_bytes (snd (detect_geometry f)) = f_bytes f
  /\ (forall geo, fst (detect_geometry f) = Some geo ->
        In geo catalogue
        /\ (In geo adfs_new_formats ->
            Z.of_nat (length (f_bytes f))
            = size_in_sectors geo * sector_size geo)).
Proof.
  split; [ apply detect_geometry_spec | ].
  intros geo Hg. apply detection_in_catalogue. exact Hg.
Qed.

Lemma detection_only_reads_witness :
  fst (detect_geometry dfs_image) = Some acorn_dfs_40_single
  /\ In acorn_dfs_40_single catalogue.
Proof.
  assert (H : fst (detect_geometry dfs_image) = Some acorn_dfs_40_single)
    by (vm_compute; reflexivity).
  split; [ exact H | ].
  exact (proj1 (proj2 (detection_only_reads dfs_image) _ H)).
Defined.

(** ** Loading an image *)

Lemma aget_aset_in {A : Type} (l : list A) (i : Z) (y : A) :
  0 <= i < Z.of_nat (length l) -> aget (aset l i y) i = Some y.
Proof.
  intros H. unfold aget, aset. rewrite nonneg_ltb by lia.
  apply list_lookup_insert_eq. lia.
Qed.

Lemma aset_aset {A : Type} (l : list A) (i : Z) (x y : A) :
  aset (aset l i x) i y = aset l i y.
Proof.
  unfold aset. destruct (i <? 0); [ reflexivity | ].
  apply list_insert_insert_eq.
Qed.

Lemma aset_length {A : Type} (l : list A) (i : Z) (x : A) :
  length (aset l i x) = length l.
Proof. unfold aset. destruct (i <? 0); [ reflexivity | apply length_insert ]. Qed.

Lemma sdf_load_success (drive : Z) (host : fopen_result) (fp : FILE)
    (geo : geometry_t) (w : world) :
  two_drives w -> 0 <= drive < NUM_DRIVES ->
  opened host = Some fp -> fst (detect_geometry fp) = Some geo ->
  geometry_at (sdf_load drive host w) drive = Some geo
  /\ fp_at (sdf_load drive host w) drive = Some (snd (detect_geometry fp))
  /\ aget (drives (sdf_load drive host w)) drive = Some sdf_drive_ops
  /\ writeprot_at (sdf_load drive host w) drive = read_only host.
Proof.
  intros (Ld & Lg & Lf & Lw) Hd Ho Eg. unfold NUM_DRIVES in Hd.
  unfold sdf_load. cbv zeta.
  destruct host as [fp' | fp' | ]; cbn [opened read_only] in *;
    [ | | discriminate ]; injection Ho as <-; cbv beta iota; rewrite Eg;
    unfold geometry_at, fp_at, writeprot_at;
    cbn [geometry sdf_fp drives writeprot set_writeprot set_sdf_fp
         set_geometry set_drives];
    rewrite !aget_aset_in by (rewrite ?aset_length; lia);
    repeat split.
Qed.

(** X11. What [sdf_load] leaves behind.  If the file cannot be opened, or
    no detector recognises it, only the drive's write-protect flag changes
    (to 1 if the file could only be opened for reading, else to 0): an
    image already in the drive stays bound.  Otherwise the drive holds the
    detected geometry, which is a catalogue row, the open file with its
    bytes untouched, all eight backend operations, and is write-protected
    exactly when the file was opened read-only.  The other drive, the
    backend state and the trace are never touched. *)
Theorem sdf_load_binds_or_leaves (drive : Z) (host : fopen_result)
    (w : world) :
  two_drives w -> 0 <= drive < NUM_DRIVES ->
  let w' := sdf_load drive host w in
  let detected :=
    match opened host with
    | Some fp => fst (detect_geometry fp)
    | None => None
    end in
  match detected with
  | None =>
      w' = set_writeprot
             (aset (writeprot w) drive (if read_only host then 1 else 0)) w
  | Some geo =>
      In geo catalogue
      /\ geometry_at w' drive = Some geo
      /\ (exists fp f', opened host = Some fp /\ fp_at w' drive = Some f'
                        /\ f_bytes f' = f_bytes fp)
      /\ aget (drives w') drive = Some sdf_drive_ops
  end
  /\ writeprot_at w' drive = read_only host
  /\ (forall d, d <> drive ->
        geometry_at w' d = geometry_at w d /\ fp_at w' d = fp_at w d
        /\ aget (drives w') d = aget (drives w) d
        /\ writeprot_at w' d = writeprot_at w d)
  /\ state w' = state w /\ trace w' = trace w.
Proof.
  intros (Ld & Lg & Lf & Lw) Hd w' detected. subst w' detected.
  unfold NUM_DRIVES in Hd.
  assert (Hwp : forall x, writeprot_at
                  (set_writeprot (aset (writeprot w) drive x) w) drive
                = truthy x).
  { intros x. unfold writeprot_at. cbn [writeprot set_writeprot].
    rewrite aget_aset_in by lia. reflexivity. }
  assert (Hother : forall x d, d <> drive ->
            writeprot_at (set_writeprot (aset (writeprot w) drive x) w) d
            = writeprot_at w d).
  { intros x d Hne. unfold writeprot_at. cbn [writeprot set_writeprot].
    rewrite aget_aset_ne by congruence. reflexivity. }
  unfold sdf_load. cbv zeta.
  destruct host as [bytes | bytes | ]; cbn [opened read_only]; cbv beta iota.
  - (* opened for update *)
    set (fp := mkFILE bytes 0 true).
    destruct (detect_geometry_spec fp) as [Hb Hin].
    destruct (fst (detect_geometry fp)) as [geo | ] eqn:Eg.
    + unfold geometry_at, fp_at, writeprot_at.
      cbn [geometry sdf_fp drives writeprot state trace set_writeprot
           set_sdf_fp set_geometry set_drives].
      rewrite !aget_aset_in by lia.
      repeat split; try reflexivity.
      * destruct (detection_in_catalogue fp geo Eg). assumption.
      * exists fp, (snd (detect_geometry fp)). repeat split. exact Hb.
      * rewrite aget_aset_ne by congruence. reflexivity.
      * rewrite aget_aset_ne by congruence. reflexivity.
      * rewrite aget_aset_ne by congruence. reflexivity.
      * rewrite aget_aset_ne by congruence. reflexivity.
    + repeat split; try reflexivity.
      * apply Hwp.
      * apply Hother; assumption.
  - (* opened read-only *)
    set (fp := mkFILE bytes 0 false).
    destruct (detect_geometry_spec fp) as [Hb Hin].
    destruct (fst (detect_geometry fp)) as [geo | ] eqn:Eg.
    + unfold geometry_at, fp_at, writeprot_at.
      cbn [geometry sdf_fp drives writeprot state trace set_writeprot
           set_sdf_fp set_geometry set_drives].
      rewrite !aget_aset_in by (rewrite ?aset_length; lia).
      repeat split; try reflexivity.
      * destruct (detection_in_catalogue fp geo Eg). assumption.
      * exists fp, (snd (detect_geometry fp)). repeat split. exact Hb.
      * rewrite aget_aset_ne by congruence. reflexivity.
      * rewrite aget_aset_ne by congruence. reflexivity.
      * rewrite aget_aset_ne by congruence. reflexivity.
      * rewrite !aget_aset_ne by congruence. reflexivity.
    + cbn [writeprot set_writeprot]. rewrite aset_aset.
      repeat split; try reflexivity.
      * apply Hwp.
      * apply Hother; assumption.
  - repeat split; try reflexivity.
    + apply Hwp.
    + apply Hother; assumption.
Qed.

Lemma sdf_load_binds_or_leaves_witness :
  two_drives power_on /\ 0 <= 0 < NUM_DRIVES
  /\ writeprot_at (sdf_load 0 (fopen_ro (f_bytes dfs_image)) power_on) 0
     = true.
Proof.
  assert (H1 : two_drives power_on) by (repeat split).
  assert (H2 : 0 <= 0 < NUM_DRIVES) by (unfold NUM_DRIVES; lia).
  destruct (sdf_load_binds_or_leaves 0 (fopen_ro (f_bytes dfs_image))
              power_on H1 H2) as (_ & H3 & _).
  exact (conj H1 (conj H2 H3)).
Defined.

Lemma blank_images_detected (rw : bool) :
  detect_geometry (mkFILE (f_bytes adf_image) 0 rw)
  = (Some acorn_adfs_m, mkFILE (f_bytes adf_image) 0xFF rw)
  /\ detect_geometry (mkFILE (f_bytes adl_image) 0 rw)
     = (Some acorn_adfs_l, mkFILE (f_bytes adl_image) 0xFF rw)
  /\ Z.of_nat (length (f_bytes adf_image)) = 0x6FF
  /\ Z.of_nat (length (f_bytes adl_image)) = 0x6FF.
Proof. destruct rw; repeat split; vm_compute; reflexivity. Qed.

(** X12. A blank image made by [disc_new] is recognised when it is loaded.
    The bytes written for the extension ADF are detected as Acorn ADFS M and
    those for ADL as Acorn ADFS L, in whichever drive; the drive's
    read-sector slot is bound to the backend.  The file bound to the drive
    is 0x6FF bytes long, far shorter than the geometry.  If the file cannot
    be created, or the extension is neither ADF nor ADL, nothing changes. *)
Theorem disc_new_image_is_recognised (drive : Z) (kind : new_kind)
    (created : bool) (mode : open_mode) (w : world) :
  two_drives w -> 0 <= drive < NUM_DRIVES ->
  let w' := disc_new drive kind created mode w in
  (created = true -> mode <> OPEN_FAIL -> kind <> NEW_UNSUPPORTED ->
   geometry_at w' drive
   = Some (match kind with NEW_ADL => acorn_adfs_l | _ => acorn_adfs_m end)
   /\ (exists f, fp_at w' drive = Some f
                 /\ Z.of_nat (length (f_bytes f)) = 0x6FF
                 /\ Z.of_nat (length (f_bytes f))
                    < size_in_sectors acorn_adfs_m * sector_size acorn_adfs_m)
   /\ slot readsector w' drive = Some SDF
   /\ writeprot_at w' drive
      = match mode with OPEN_RO => true | _ => false end)
  /\ (created = false \/ kind = NEW_UNSUPPORTED -> w' = w).
Proof.
  intros H1 H2 w'. subst w'.
  set (rw := match mode with OPEN_RO => false | _ => true end).
  destruct (blank_images_detected rw) as (Ef & El & Lf & Ll).
  split.
  - intros -> Hm Hk. unfold disc_new.
    destruct kind; [ | | contradiction ]; cbv beta iota.
    + assert (Ho : opened (fopen_image mode adf_image)
                   = Some (mkFILE (f_bytes adf_image) 0 rw))
        by (destruct mode; [ reflexivity | reflexivity | contradiction ]).
      assert (Eg : fst (detect_geometry (mkFILE (f_bytes adf_image) 0 rw))
                   = Some acorn_adfs_m) by (rewrite Ef; reflexivity).
      destruct (sdf_load_success drive _ _ _ w H1 H2 Ho Eg)
        as (Hg & Hf & Hdr & Hwp).
      split; [ exact Hg | ].
      split.
      { exists (snd (detect_geometry (mkFILE (f_bytes adf_image) 0 rw))).
        split; [ exact Hf | ].
        rewrite Ef. cbn [snd f_bytes]. rewrite Lf.
        split; reflexivity. }
      split; [ unfold slot; rewrite Hdr; reflexivity | ].
      rewrite Hwp. destruct mode; reflexivity.
    + assert (Ho : opened (fopen_image mode adl_image)
                   = Some (mkFILE (f_bytes adl_image) 0 rw))
        by (destruct mode; [ reflexivity | reflexivity | contradiction ]).
      assert (Eg : fst (detect_geometry (mkFILE (f_bytes adl_image) 0 rw))
                   = Some acorn_adfs_l) by (rewrite El; reflexivity).
      destruct (sdf_load_success drive _ _ _ w H1 H2 Ho Eg)
        as (Hg & Hf & Hdr & Hwp).
      split; [ exact Hg | ].
      split.
      { exists (snd (detect_geometry (mkFILE (f_bytes adl_image) 0 rw))).
        split; [ exact Hf | ].
        rewrite El. cbn [snd f_bytes]. rewrite Ll.
        split; reflexivity. }
      split; [ unfold slot; rewrite Hdr; reflexivity | ].
      rewrite Hwp. destruct mode; reflexivity.
  - intros [-> | ->]; unfold disc_new;
      [ destruct kind; reflexivity | reflexivity ].
Qed.

Lemma disc_new_image_is_recognised_witness :
  two_drives power_on /\ 0 <= 1 < NUM_DRIVES
  /\ geometry_at (disc_new 1 NEW_ADL true OPEN_RW power_on) 1
     = Some acorn_adfs_l.
Proof.
  assert (H1 : two_drives power_on) by (repeat split).
  assert (H2 : 0 <= 1 < NUM_DRIVES) by (unfold NUM_DRIVES; lia).
  assert (H3 : OPEN_RW <> OPEN_FAIL) by discriminate.
  assert (H4 : NEW_ADL <> NEW_UNSUPPORTED) by discriminate.
  destruct (disc_new_image_is_recognised 1 NEW_ADL true OPEN_RW power_on
              H1 H2) as [H5 _].
  destruct (H5 eq_refl H3 H4) as [H6 _].
  exact (conj H1 (conj H2 H6)).
Defined.

(** ** The dispatch layer's own not-found countdown *)

Lemma sdf_poll_idle w :
  state w = ST_IDLE ->
  sdf_poll w
  = set_sdf_time (if sdf_time w + 1 <=? 16 then sdf_time w + 1 else 0) w.
Proof.
  intros Hs. unfold sdf_poll. cbv zeta. cbn [sdf_time set_sdf_time].
  destruct (sdf_time w + 1 <=? 16); [ reflexivity | ].
  unfold sdf_poll_switch. cbn [state set_sdf_time]. rewrite Hs.
  destruct w; reflexivity.
Qed.

Lemma pending_after_backend_poll n w0 w :
  pending n w0 w ->
  pending n w0 match slot poll w (curdrive w) with
               | Some SDF => sdf_poll w
               | None => w
               end.
Proof.
  intros H. destruct (slot poll w (curdrive w)) as [[] | ]; [ | exact H ].
  destruct H as (H1 & H2 & H3 & H4 & H5).
  rewrite (sdf_poll_idle w H2). unfold pending.
  cbn [disc_notfound state trace wd_status WD1770 set_sdf_time]. auto.
Qed.

Lemma disc_poll_waits n w0 w :
  1 < n -> pending n w0 w -> pending (n - 1) w0 (disc_poll w).
Proof.
  intros Hn H. apply pending_after_backend_poll in H. unfold disc_poll.
  cbv zeta.
  set (w1 := match slot poll w (curdrive w) with
             | Some SDF => sdf_poll w
             | None => w
             end) in *.
  clearbody w1. destruct H as (H1 & H2 & H3 & H4 & H5).
  cbn [disc_notfound set_disc_notfound]. rewrite H1.
  assert (E1 : truthy n = true)
    by (unfold truthy; apply negb_true_iff, Z.eqb_neq; lia).
  assert (E2 : truthy (n - 1) = true)
    by (unfold truthy; apply negb_true_iff, Z.eqb_neq; lia).
  rewrite E1, E2. cbn [negb]. unfold pending.
  cbn [disc_notfound state trace wd_status WD1770 set_disc_notfound]. auto.
Qed.

Lemma disc_poll_fires w0 w :
  pending 1 w0 w ->
  trace (disc_poll w) = trace w0 ++ [ev_fdc_notfound]
  /\ wd_status (disc_poll w) = 0x10
  /\ motoron (disc_poll w) = 0
  /\ disc_notfound (disc_poll w) = 0
  /\ state (disc_poll w) = ST_IDLE.
Proof.
  intros H. apply pending_after_backend_poll in H. unfold disc_poll.
  cbv zeta.
  set (w1 := match slot poll w (curdrive w) with
             | Some SDF => sdf_poll w
             | None => w
             end) in *.
  clearbody w1. destruct H as (H1 & H2 & H3 & H4 & H5).
  cbn [disc_notfound set_disc_notfound]. rewrite H1.
  change (truthy 1) with true. change (truthy (1 - 1)) with false.
  cbn [negb]. unfold fdc_notfound, wd1770_notfound, wd1770_spindown, emit.
  cbn. rewrite H2, H3. repeat split.
Qed.

Lemma polls_pending (k : nat) : forall n w0 w,
  pending n w0 w -> Z.of_nat k < n ->
  pending (n - Z.of_nat k) w0 (Nat.iter k disc_poll w).
Proof.
  induction k as [ | k IH ]; intros n w0 w H Hk.
  - change (Nat.iter 0 disc_poll w) with w.
    replace (n - Z.of_nat 0) with n by lia. exact H.
  - rewrite Nat.iter_succ.
    replace (n - Z.of_nat (S k)) with (n - Z.of_nat k - 1) by lia.
    apply disc_poll_waits; [ lia | ]. apply IH; [ exact H | lia ].
Qed.

Lemma disc_op_unbound op drive sector track side dens w :
  slot (slot_of op) w drive = None ->
  exists e, disc_op op drive sector track side dens w
            = set_disc_notfound 10000 (emit e w).
Proof.
  intros Hs.
  destruct op; cbn [disc_op slot_of] in *;
    unfold disc_readsector, disc_writesector, disc_readaddress, disc_format;
    cbv zeta;
    match goal with
    | |- context [emit ?e w] =>
        exists e; change (slot ?f (emit e w) drive) with (slot f w drive)
    end;
    rewrite Hs; reflexivity.
Qed.

(** X13. A request for a drive whose slot for that operation is unbound
    never reaches a backend: the dispatch layer starts its own countdown of
    10000.  With the backend idle, the next 9999 calls of [disc_poll] call
    nothing and leave the status byte alone; the 10000th calls the not-found
    callback, once, which leaves status 0x10 and the motor off. *)
Theorem unbound_slot_not_found_after_10000_polls (op : transfer_op)
    (drive sector track side dens : Z) (w : world) :
  slot (slot_of op) w drive = None -> state w = ST_IDLE ->
  let w1 := disc_op op drive sector track side dens w in
  disc_notfound w1 = 10000 /\ state w1 = ST_IDLE
  /\ wd_status w1 = wd_status w
  /\ (forall k : nat, Z.of_nat k < 10000 ->
        new_events w1 (Nat.iter k disc_poll w1) = []
        /\ wd_status (Nat.iter k disc_poll w1) = wd_status w)
  /\ new_events w1 (Nat.iter (Z.to_nat 10000) disc_poll w1)
     = [ev_fdc_notfound]
  /\ wd_status (Nat.iter (Z.to_nat 10000) disc_poll w1) = 0x10
  /\ motoron (Nat.iter (Z.to_nat 10000) disc_poll w1) = 0.
Proof.
  intros Hslot Hs w1. subst w1.
  destruct (disc_op_unbound op drive sector track side dens w Hslot)
    as [e He].
  rewrite He. set (w1 := set_disc_notfound 10000 (emit e w)).
  assert (Hp : pending 10000 w1 w1) by (unfold pending, w1; cbn; auto).
  assert (Hst : wd_status w1 = wd_status w) by reflexivity.
  clearbody w1. split; [ apply Hp | ]. split; [ apply Hp | ].
  split; [ exact Hst | ]. split.
  - intros k Hk. destruct (polls_pending k 10000 w1 w1 Hp Hk)
      as (_ & _ & H3 & H4 & _).
    split; [ apply new_events_same; exact H3 | congruence ].
  - assert (H9 : pending 1 w1 (Nat.iter (Z.to_nat 9999) disc_poll w1)).
    { replace 1 with (10000 - Z.of_nat (Z.to_nat 9999)) by lia.
      apply polls_pending; [ exact Hp | lia ]. }
    replace (Z.to_nat 10000) with (S (Z.to_nat 9999)) by lia.
    rewrite Nat.iter_succ.
    destruct (disc_poll_fires w1 _ H9) as (F1 & F2 & F3 & _).
    split; [ apply new_events_app; exact F1 | ]. split; assumption.
Qed.

Lemma unbound_slot_not_found_after_10000_polls_witness :
  slot (slot_of op_readsector) power_on 0 = None
  /\ state power_on = ST_IDLE
  /\ disc_notfound (disc_op op_readsector 0 1 0 0 0 power_on) = 10000.
Proof.
  assert (H1 : slot (slot_of op_readsector) power_on 0 = None)
    by reflexivity.
  assert (H2 : state power_on = ST_IDLE) by reflexivity.
  destruct (unbound_slot_not_found_after_10000_polls op_readsector
              0 1 0 0 0 power_on H1 H2) as (H3 & _).
  exact (conj H1 (conj H2 H3)).
Defined.

Lemma slot_disc_init f d w :
  slot f (disc_init w) d
  = match aget (drives w) d with
    | Some dr =>
        f (mkDRIVE (close dr) None None (writesector dr) (readaddress dr)
                   None (format dr) (abort dr))
    | None => None
    end.
Proof.
  unfold slot, disc_init. cbv zeta. cbn [drives set_drives set_curdrive].
  unfold aget. destruct (d <? 0); [ reflexivity | ].
  rewrite list_lookup_fmap. destruct (drives w !! Z.to_nat d); reflexivity.
Qed.

Lemma start_op_leaves_idle op d s t sd dn w :
  state w = ST_IDLE ->
  state (start_op op d s t sd dn w) <> ST_IDLE
  /\ disc_notfound (start_op op d s t sd dn w) = disc_notfound w.
Proof.
  intros Hs.
  destruct op; cbn [start_op];
    unfold sdf_readsector, sdf_writesector, sdf_readaddress, sdf_format,
           start_notfound, io_seek;
    rewrite Hs; frame_cases; cbn; split; (discriminate || reflexivity).
Qed.

(** X14. [disc_init] clears only the poll, seek and read-sector members of
    each drive.  On a drive that had an image loaded, a later read-sector
    request therefore gets the dispatch layer's not-found countdown and
    never reaches the backend, while write-sector, read-address and format
    requests still go to the image backend, which leaves its idle state. *)
Theorem disc_init_unbinds_reads_only (op : transfer_op)
    (drive sector track side dens : Z) (w : world) :
  state w = ST_IDLE -> aget (drives w) drive = Some sdf_drive_ops ->
  let w0 := disc_init w in
  let w1 := disc_op op drive sector track side dens w0 in
  curdrive w0 = 0
  /\ slot poll w0 drive = None /\ slot seek w0 drive = None
  /\ (op = op_readsector ->
      disc_notfound w1 = 10000 /\ state w1 = ST_IDLE)
  /\ (op <> op_readsector ->
      disc_notfound w1 = disc_notfound w /\ state w1 <> ST_IDLE).
Proof.
  intros Hs Hd w0 w1. subst w1 w0.
  assert (Hslot : forall f, slot f (disc_init w) drive
            = f (mkDRIVE (Some SDF) None None (Some SDF) (Some SDF) None
                         (Some SDF) (Some SDF)))
    by (intros f; rewrite slot_disc_init, Hd; reflexivity).
  split; [ reflexivity | ]. split; [ apply Hslot | ].
  split; [ apply Hslot | ].
  set (w0 := disc_init w) in *.
  assert (H0 : state w0 = ST_IDLE /\ disc_notfound w0 = disc_notfound w)
    by (split; [ exact Hs | reflexivity ]).
  clearbody w0. destruct H0 as [Hs0 Hn0]. split.
  - intros ->. cbn [disc_op]. unfold disc_readsector. cbv zeta.
    change (slot readsector (emit ?e w0) drive) with (slot readsector w0 drive).
    rewrite Hslot. cbn [readsector]. split; [ reflexivity | exact Hs0 ].
  - intros Hop.
    destruct op; [ contradiction | | | ]; cbn [disc_op];
      unfold disc_writesector, disc_readaddress, disc_format; cbv zeta;
      match goal with
      | |- context [emit ?e w0] =>
          change (slot ?f (emit e w0) drive) with (slot f w0 drive);
          set (wx := emit e w0);
          assert (Hx : state wx = ST_IDLE
                       /\ disc_notfound wx = disc_notfound w)
            by (split; [ exact Hs0 | exact Hn0 ]);
          clearbody wx
      end;
      rewrite Hslot; cbn [writesector readaddress format];
      destruct Hx as [Hx1 Hx2].
    + destruct (start_op_leaves_idle op_writesector drive sector track side
                  dens wx Hx1) as [A B].
      cbn [start_op] in A, B. split; [ congruence | exact A ].
    + destruct (start_op_leaves_idle op_readaddress drive sector track side
                  dens wx Hx1) as [A B].
      cbn [start_op] in A, B. split; [ congruence | exact A ].
    + destruct (start_op_leaves_idle op_format drive sector track side
                  dens wx Hx1) as [A B].
      cbn [start_op] in A, B. split; [ congruence | exact A ].
Qed.

Lemma disc_init_unbinds_reads_only_witness :
  state dfs_in_drive0 = ST_IDLE
  /\ aget (drives dfs_in_drive0) 0 = Some sdf_drive_ops
  /\ slot poll (disc_init dfs_in_drive0) 0 = None.
Proof.
  assert (H1 : state dfs_in_drive0 = ST_IDLE) by reflexivity.
  assert (H2 : aget (drives dfs_in_drive0) 0 = Some sdf_drive_ops)
    by reflexivity.
  destruct (disc_init_unbinds_reads_only op_readsector 0 0 0 0 0
              dfs_in_drive0 H1 H2) as (_ & H3 & _).
  exact (conj H1 (conj H2 H3)).
Defined.

(** ** Write protection *)

Lemma writeprot_tick w :
  state w = ST_WRITESECTOR -> writeprot_at w (sdf_drive w) = true ->
  sdf_poll_switch w = set_state ST_IDLE (fdc_writeprotect w).
Proof.
  intros Hs Hw. unfold sdf_poll_switch. rewrite Hs, Hw. reflexivity.
Qed.

(** X15. A write to a write-protected image is refused at the first byte.
    An accepted write-sector request sets the poll divider to -20, so the
    next 36 raw polls call nothing; the 37th finds the drive
    write-protected, calls the write-protect callback and nothing else, and
    the backend is idle again.  No byte is asked of the controller and the
    bytes of the image are unchanged; the status byte is 0x40 and the motor
    is off. *)
Theorem write_protected_sector_is_refused (geo : geometry_t)
    (drive sector track side dens : Z) (w : world) (f : FILE) :
  state w = ST_IDLE -> geometry_at w drive = Some geo ->
  fp_at w drive = Some f -> writeprot_at w drive = true ->
  guards_pass w true drive sector track side dens = true ->
  let w1 := sdf_writesector drive sector track side dens w in
  let w2 := Nat.iter 37 sdf_poll w1 in
  (forall k, (k <= 36)%nat ->
     new_events w (Nat.iter k sdf_poll w1) = []
     /\ state (Nat.iter k sdf_poll w1) = ST_WRITESECTOR)
  /\ new_events w w2 = [ev_fdc_writeprotect]
  /\ state w2 = ST_IDLE
  /\ wd_status w2 = 0x40 /\ motoron w2 = 0
  /\ exists f', fp_at w2 drive = Some f' /\ f_bytes f' = f_bytes f.
Proof.
  intros Hs Hg Hf Hwp Hp w1 w2. subst w2 w1.
  destruct (guards_pass_inv _ _ _ _ _ _ _ Hp) as (Hd & _).
  set (w1 := sdf_writesector drive sector track side dens w).
  assert (H1 : state w1 = ST_WRITESECTOR /\ sdf_time w1 = -20
               /\ sdf_drive w1 = drive /\ writeprot w1 = writeprot w
               /\ trace w1 = trace w
               /\ fp_at w1 drive
                  = Some (fseek_set (io_offset geo sector track side) f)).
  { subst w1. rewrite (sdf_writesector_accepted _ _ _ _ _ _ _ Hs Hg Hp).
    rewrite (io_seek_fp _ _ _ _ _ _ _ Hd Hf).
    unfold NUM_DRIVES in Hd. cbn. rewrite u8_id by lia.
    repeat split. apply (fp_at_set w drive f _ Hf). }
  clearbody w1. destruct H1 as (A1 & A2 & A3 & A4 & A5 & A6).
  assert (Hwait : forall k, (k <= 36)%nat ->
            Nat.iter k sdf_poll w1 = set_sdf_time (-20 + Z.of_nat k) w1).
  { intros k Hk. rewrite polls_wait by lia. rewrite A2. reflexivity. }
  split.
  - intros k Hk. rewrite (Hwait k Hk). cbn [trace state set_sdf_time].
    split; [ apply new_events_same; exact A5 | exact A1 ].
  - change 37%nat with (S 36). rewrite Nat.iter_succ, (Hwait 36%nat) by lia.
    rewrite sdf_poll_fires by (cbn; lia).
    rewrite writeprot_tick;
      [ | exact A1
        | cbn [sdf_drive set_sdf_time]; rewrite A3; unfold writeprot_at in *;
          cbn [writeprot set_sdf_time]; rewrite A4; exact Hwp ].
    unfold fdc_writeprotect, wd1770_writeprotect, wd1770_spindown, emit.
    cbn [trace state wd_status motoron set_state set_motoron set_wd_status
         set_nmi set_fdc_time set_trace set_sdf_time].
    split; [ apply new_events_app; rewrite A5; reflexivity | ].
    split; [ reflexivity | ]. split; [ reflexivity | ].
    split; [ reflexivity | ].
    exists (fseek_set (io_offset geo sector track side) f).
    split; [ exact A6 | apply fseek_set_bytes ].
Qed.

Lemma write_protected_sector_is_refused_witness :
  state (sdf_load_detected 0 (mkFILE (f_bytes dfs_image) 0 false)
           acorn_dfs_40_single power_on)
  = ST_IDLE
  /\ writeprot_at
       (sdf_load_detected 0 (mkFILE (f_bytes dfs_image) 0 false)
          acorn_dfs_40_single power_on) 0
     = true
  /\ guards_pass
       (sdf_load_detected 0 (mkFILE (f_bytes dfs_image) 0 false)
          acorn_dfs_40_single power_on)
       true 0 3 0 0 0 = true
  /\ state (Nat.iter 37 sdf_poll
              (sdf_writesector 0 3 0 0 0
                 (sdf_load_detected 0 (mkFILE (f_bytes dfs_image) 0 false)
                    acorn_dfs_40_single power_on))) = ST_IDLE.
Proof.
  set (w := sdf_load_detected 0 (mkFILE (f_bytes dfs_image) 0 false)
              acorn_dfs_40_single power_on).
  assert (H1 : state w = ST_IDLE) by reflexivity.
  assert (H2 : geometry_at w 0 = Some acorn_dfs_40_single) by reflexivity.
  assert (H3 : fp_at w 0 = Some (mkFILE (f_bytes dfs_image) 0 false))
    by reflexivity.
  assert (H4 : writeprot_at w 0 = true) by reflexivity.
  assert (H5 : guards_pass w true 0 3 0 0 0 = true) by reflexivity.
  destruct (write_protected_sector_is_refused acorn_dfs_40_single
              0 3 0 0 0 w _ H1 H2 H3 H4 H5) as (_ & _ & H6 & _).
  exact (conj H1 (conj H4 (conj H5 H6))).
Defined.

(** ** Reading at and past the end of the image *)

Lemma sector_bytes_S bytes p n :
  sector_bytes bytes p (S n)
  = byte_or_eof bytes p :: sector_bytes bytes (S p) n.
Proof.
  unfold sector_bytes. cbn [seq map]. rewrite Nat.add_0_r. f_equal.
  rewrite <- seq_shift, map_map. apply map_ext. intros i.
  f_equal. lia.
Qed.

(** One tick of a sector read, whether or not the position is inside the
    file. *)
Lemma read_tick_any (w : world) (d c : Z) (f : FILE) :
  state w = ST_READSECTOR -> sdf_drive w = d -> fp_at w d = Some f ->
  0 <= f_pos f -> count w = c -> 1 <= c <= 65535 ->
  let b := byte_or_eof (f_bytes f) (Z.to_nat (f_pos f)) in
  state (sdf_poll_switch w) = (if c =? 1 then ST_IDLE else ST_READSECTOR)
  /\ sdf_drive (sdf_poll_switch w) = d
  /\ fp_at (sdf_poll_switch w) d = Some (snd (getc f))
  /\ count (sdf_poll_switch w) = c - 1
  /\ wd_data (sdf_poll_switch w) = u8 b
  /\ trace (sdf_poll_switch w)
     = trace w ++ ev_fdc_data (u8 b)
                  :: (if c =? 1 then [ev_fdc_finishread] else []).
Proof.
  intros Hs Hd Hf Hpos Hc Hcr b. subst b.
  assert (Hg : fst (getc f) = byte_or_eof (f_bytes f) (Z.to_nat (f_pos f))).
  { unfold getc, aget, byte_or_eof. rewrite (nonneg_ltb _ Hpos).
    destruct (f_bytes f !! Z.to_nat (f_pos f)); reflexivity. }
  unfold sdf_poll_switch. rewrite Hs. cbv iota zeta.
  unfold getc_fp. rewrite Hd, Hf. cbn [fst snd]. rewrite Hg.
  unfold fdc_data, wd1770_data, emit, fdc_finishread, wd1770_finishread.
  cbn [count set_count set_nmi set_wd_status set_wd_data set_trace set_sdf_fp].
  rewrite Hc, (last_byte_test c Hcr).
  assert (Hget : fp_at (set_sdf_fp (aset (sdf_fp w) d (Some (snd (getc f)))) w)
                   d = Some (snd (getc f)))
    by (apply (fp_at_set _ _ f); exact Hf).
  unfold fp_at in *.
  destruct (c =? 1); cbn in *; rewrite ?Hs, ?Hd, ?Hget, <- ?app_assoc;
    repeat split; rewrite ?u16_id by lia; reflexivity.
Qed.

(** A whole sector read from position [p] of the file on: each tick hands
    over the next byte of the file, or [EOF] cut to a byte once the file
    has ended. *)
Lemma read_loop_any (d : Z) (bytes : list Z) (n : nat) :
  forall (p : nat) (w : world) (f : FILE),
  (0 < n)%nat -> Z.of_nat n <= 65535 ->
  state w = ST_READSECTOR -> sdf_drive w = d -> fp_at w d = Some f ->
  f_bytes f = bytes -> 0 <= f_pos f ->
  (forall j, bytes !! (Z.to_nat (f_pos f) + j)%nat = bytes !! (p + j)%nat) ->
  count w = Z.of_nat n ->
  state (ticks n w) = ST_IDLE
  /\ trace (ticks n w)
     = trace w ++ map ev_fdc_data (map u8 (sector_bytes bytes p n))
               ++ [ev_fdc_finishread]
  /\ exists f', fp_at (ticks n w) d = Some f' /\ f_bytes f' = bytes.
Proof.
  induction n as [ | n IH ]; intros p w f Hn Hlen Hs Hd Hf Hb Hpos Hinv Hc.
  - lia.
  - rewrite ticks_S_r, sector_bytes_S.
    destruct (read_tick_any w d _ f Hs Hd Hf Hpos Hc ltac:(lia))
      as (H1 & H2 & H3 & H4 & _ & H6).
    assert (Hq : byte_or_eof (f_bytes f) (Z.to_nat (f_pos f))
                 = byte_or_eof bytes p).
    { unfold byte_or_eof. rewrite Hb.
      rewrite <- (Nat.add_0_r (Z.to_nat (f_pos f))), <- (Nat.add_0_r p).
      rewrite Hinv. reflexivity. }
    rewrite Hq in H6.
    destruct n as [ | n' ].
    + change (Z.of_nat 1 =? 1) with true in H1, H6. cbv iota in H1, H6.
      cbn [ticks Nat.iter sector_bytes seq map app].
      split; [ exact H1 | ]. split; [ exact H6 | ].
      exists (snd (getc f)). split; [ exact H3 | ].
      rewrite getc_bytes. exact Hb.
    + assert (E : (Z.of_nat (S (S n')) =? 1) = false)
        by (apply Z.eqb_neq; lia).
      rewrite E in H1, H6.
      assert (Hpos' : 0 <= f_pos (snd (getc f))).
      { unfold getc. destruct (aget _ _); cbn [snd f_pos]; lia. }
      assert (Hinv' : forall j,
                bytes !! (Z.to_nat (f_pos (snd (getc f))) + j)%nat
                = bytes !! (S p + j)%nat).
      { intros j. unfold getc, aget. rewrite (nonneg_ltb _ Hpos), Hb.
        destruct (bytes !! Z.to_nat (f_pos f)) as [b | ] eqn:Eb;
          cbn [snd f_pos].
        - replace (Z.to_nat (f_pos f + 1) + j)%nat
            with (Z.to_nat (f_pos f) + S j)%nat by lia.
          rewrite Hinv. f_equal. lia.
        - apply lookup_ge_None in Eb.
          rewrite (proj2 (lookup_ge_None bytes _)) by lia.
          symmetry. replace (S p + j)%nat with (p + S j)%nat by lia.
          rewrite <- Hinv. apply lookup_ge_None. lia. }
      destruct (IH (S p) (sdf_poll_switch w) (snd (getc f)))
        as (I1 & I2 & I3); try assumption; try lia.
      * rewrite getc_bytes. exact Hb.
      * split; [ exact I1 | ]. split; [ | exact I3 ].
        rewrite I2, H6, <- app_assoc. reflexivity.
Qed.

(** X16. A sector read hands over, tick by tick, the bytes of the file from
    the sector's offset on, and 0xFF for every byte at or past the end of
    the file: the image is never extended by reading, and a sector that
    lies wholly past the end reads as all 0xFF.  The finished callback
    follows the last byte and the backend is idle again. *)
Theorem read_sector_delivers_file_bytes (geo : geometry_t)
    (drive sector track side dens : Z) (w : world) (f : FILE) :
  state w = ST_IDLE -> geometry_at w drive = Some geo ->
  fp_at w drive = Some f ->
  guards_pass w true drive sector track side dens = true ->
  0 < sector_size geo <= 65535 ->
  let off := Z.to_nat (io_offset geo sector track side) in
  let n := Z.to_nat (sector_size geo) in
  let w1 := sdf_readsector drive sector track side dens w in
  data_ready (new_events w (ticks n w1))
  = map u8 (sector_bytes (f_bytes f) off n)
  /\ new_events w (ticks n w1)
     = map ev_fdc_data (map u8 (sector_bytes (f_bytes f) off n))
       ++ [ev_fdc_finishread]
  /\ state (ticks n w1) = ST_IDLE
  /\ (exists f', fp_at (ticks n w1) drive = Some f'
                 /\ f_bytes f' = f_bytes f)
  /\ ((length (f_bytes f) <= off)%nat ->
      data_ready (new_events w (ticks n w1)) = repeat 0xFF n).
Proof.
  intros Hs Hg Hf Hp Hsz off n w1. subst w1.
  destruct (guards_pass_inv _ _ _ _ _ _ _ Hp) as (Hd & _).
  pose proof (io_offset_nonneg geo sector track side) as Hoff.
  set (wb := sdf_readsector drive sector track side dens w).
  assert (Hb : state wb = ST_READSECTOR /\ sdf_drive wb = drive
               /\ fp_at wb drive
                  = Some (mkFILE (f_bytes f)
                                 (io_offset geo sector track side) (f_rw f))
               /\ count wb = sector_size geo /\ trace wb = trace w).
  { subst wb. rewrite (sdf_readsector_accepted _ _ _ _ _ _ _ Hs Hg Hp).
    rewrite (io_seek_fp _ _ _ _ _ _ _ Hd Hf).
    rewrite fseek_set_nonneg by exact Hoff.
    unfold NUM_DRIVES in Hd. cbn. rewrite u8_id, u16_id by lia.
    repeat split. apply (fp_at_set w drive f _ Hf). }
  destruct Hb as (R1 & R2 & R3 & R4 & R5). clearbody wb.
  destruct (read_loop_any drive (f_bytes f) n off wb _ ltac:(lia) ltac:(lia)
              R1 R2 R3 eq_refl Hoff ltac:(reflexivity) ltac:(lia))
    as (C1 & C2 & C3).
  set (w2 := ticks n wb) in *. clearbody w2.
  assert (Hnew : new_events w w2
                 = map ev_fdc_data (map u8 (sector_bytes (f_bytes f) off n))
                   ++ [ev_fdc_finishread])
    by (apply new_events_app; rewrite C2, R5; reflexivity).
  assert (Hdata : data_ready (new_events w w2)
                  = map u8 (sector_bytes (f_bytes f) off n)).
  { rewrite Hnew, data_ready_app, data_ready_data. apply app_nil_r. }
  split; [ exact Hdata | ]. split; [ exact Hnew | ].
  split; [ exact C1 | ]. split; [ exact C3 | ].
  intros Hpast. rewrite Hdata. unfold sector_bytes.
  rewrite map_map.
  assert (E : forall i, u8 (byte_or_eof (f_bytes f) (off + i)) = 0xFF).
  { intros i. unfold byte_or_eof.
    rewrite (proj2 (lookup_ge_None (f_bytes f) _)) by lia. reflexivity. }
  clear - E. generalize 0%nat. induction n as [ | n IH ]; intros s.
  - reflexivity.
  - cbn [seq map repeat]. rewrite E, IH. reflexivity.
Qed.

Lemma read_sector_delivers_file_bytes_witness :
  state dfs_in_drive0 = ST_IDLE
  /\ guards_pass dfs_in_drive0 true 0 2 0 0 0 = true
  /\ data_ready
       (new_events dfs_in_drive0
          (ticks (Z.to_nat (sector_size acorn_dfs_40_single))
             (sdf_readsector 0 2 0 0 0 dfs_in_drive0)))
     = repeat 0xFF (Z.to_nat (sector_size acorn_dfs_40_single)).
Proof.
  assert (H1 : state dfs_in_drive0 = ST_IDLE) by reflexivity.
  assert (H2 : geometry_at dfs_in_drive0 0 = Some acorn_dfs_40_single)
    by reflexivity.
  assert (H3 : fp_at dfs_in_drive0 0 = Some dfs_image) by reflexivity.
  assert (H4 : guards_pass dfs_in_drive0 true 0 2 0 0 0 = true)
    by reflexivity.
  assert (H5 : 0 < sector_size acorn_dfs_40_single <= 65535)
    by (cbn; lia).
  destruct (read_sector_delivers_file_bytes acorn_dfs_40_single 0 2 0 0 0
              dfs_in_drive0 dfs_image H1 H2 H3 H4 H5)
    as (_ & _ & _ & _ & H6).
  assert (H7 : (length (f_bytes dfs_image)
                <= Z.to_nat (io_offset acorn_dfs_40_single 2 0 0))%nat)
    by (vm_compute; lia).
  exact (conj H1 (conj H4 (H6 H7))).
Defined.

(** ** A transfer in progress and the controller *)

Lemma view_state w w' :
  transfer_view w' = transfer_view w -> state w' = state w.
Proof. unfold transfer_view. intros H. congruence. Qed.

Lemma view_not_idle w w' :
  state w <> ST_IDLE -> transfer_view w' = transfer_view w ->
  state w' <> ST_IDLE.
Proof. intros Hs H. rewrite (view_state w w' H). exact Hs. Qed.

Lemma view_set_wd_command v w : transfer_view (set_wd_command v w) = transfer_view w.
Proof. reflexivity. Qed.

Lemma view_set_wd_sector v w : transfer_view (set_wd_sector v w) = transfer_view w.
Proof. reflexivity. Qed.

Lemma view_set_wd_track v w : transfer_view (set_wd_track v w) = transfer_view w.
Proof. reflexivity. Qed.

Lemma view_set_wd_status v w : transfer_view (set_wd_status v w) = transfer_view w.
Proof. reflexivity. Qed.

Lemma view_set_wd_data v w : transfer_view (set_wd_data v w) = transfer_view w.
Proof. reflexivity. Qed.

Lemma view_set_wd_ctrl v w : transfer_view (set_wd_ctrl v w) = transfer_view w.
Proof. reflexivity. Qed.

Lemma view_set_wd_curside v w : transfer_view (set_wd_curside v w) = transfer_view w.
Proof. reflexivity. Qed.

Lemma view_set_wd_curtrack v w : transfer_view (set_wd_curtrack v w) = transfer_view w.
Proof. reflexivity. Qed.

Lemma view_set_wd_density v w : transfer_view (set_wd_density v w) = transfer_view w.
Proof. reflexivity. Qed.

Lemma view_set_wd_written v w : transfer_view (set_wd_written v w) = transfer_view w.
Proof. reflexivity. Qed.

Lemma view_set_wd_stepdir v w : transfer_view (set_wd_stepdir v w) = transfer_view w.
Proof. reflexivity. Qed.

Lemma view_set_byte v w : transfer_view (set_byte v w) = transfer_view w.
Proof. reflexivity. Qed.

Lemma view_set_nmi v w : transfer_view (set_nmi v w) = transfer_view w.
Proof. reflexivity. Qed.

Lemma view_set_curdrive v w : transfer_view (set_curdrive v w) = transfer_view w.
Proof. reflexivity. Qed.

Lemma view_set_fdc_time v w : transfer_view (set_fdc_time v w) = transfer_view w.
Proof. reflexivity. Qed.

Lemma view_set_motorspin v w : transfer_view (set_motorspin v w) = transfer_view w.
Proof. reflexivity. Qed.

Lemma view_set_motoron v w : transfer_view (set_motoron v w) = transfer_view w.
Proof. reflexivity. Qed.

Lemma view_set_disc_notfound v w : transfer_view (set_disc_notfound v w) = transfer_view w.
Proof. reflexivity. Qed.

Lemma view_set_oldtrack v w : transfer_view (set_oldtrack v w) = transfer_view w.
Proof. reflexivity. Qed.

Lemma view_set_current_track v w : transfer_view (set_current_track v w) = transfer_view w.
Proof. reflexivity. Qed.

Lemma view_set_trace v w : transfer_view (set_trace v w) = transfer_view w.
Proof. reflexivity. Qed.

Lemma view_set_drives v w : transfer_view (set_drives v w) = transfer_view w.
Proof. reflexivity. Qed.

Create Rewrite HintDb view.

#[global] Hint Rewrite view_set_wd_command view_set_wd_sector view_set_wd_track view_set_wd_status view_set_wd_data view_set_wd_ctrl view_set_wd_curside view_set_wd_curtrack view_set_wd_density view_set_wd_written view_set_wd_stepdir view_set_byte view_set_nmi view_set_curdrive view_set_fdc_time view_set_motorspin view_set_motoron view_set_disc_notfound view_set_oldtrack view_set_current_track view_set_trace view_set_drives
  : view.

Lemma disc_seek_view d t w : transfer_view (disc_seek d t w) = transfer_view w.
Proof.
  unfold disc_seek, sdf_seek, emit. cbv zeta. frame_cases; reflexivity.
Qed.

Lemma disc_op_view op d s t sd dn w :
  state w <> ST_IDLE ->
  transfer_view (disc_op op d s t sd dn w) = transfer_view w.
Proof.
  intros Hs.
  destruct op; cbn [disc_op];
    unfold disc_readsector, disc_writesector, disc_readaddress, disc_format;
    cbv zeta;
    match goal with
    | |- context [emit ?e w] =>
        set (wx := emit e w);
        assert (Hx : state wx <> ST_IDLE) by exact Hs;
        assert (Hv : transfer_view wx = transfer_view w) by reflexivity;
        clearbody wx
    end;
    match goal with
    | |- context [slot ?f ?x d] => destruct (slot f x d) as [[] | ]
    end;
    try (rewrite <- Hv; reflexivity).
  - pose proof (not_idle_ignores wx Hx op_readsector d s t sd dn) as E.
    cbn [start_op] in E. rewrite E. exact Hv.
  - pose proof (not_idle_ignores wx Hx op_writesector d s t sd dn) as E.
    cbn [start_op] in E. rewrite E. exact Hv.
  - pose proof (not_idle_ignores wx Hx op_readaddress d s t sd dn) as E.
    cbn [start_op] in E. rewrite E. exact Hv.
  - pose proof (not_idle_ignores wx Hx op_format d s t sd dn) as E.
    cbn [start_op] in E. rewrite E. exact Hv.
Qed.

Lemma disc_readsector_view d s t sd dn w :
  state w <> ST_IDLE ->
  transfer_view (disc_readsector d s t sd dn w) = transfer_view w.
Proof. exact (disc_op_view op_readsector d s t sd dn w). Qed.

Lemma disc_writesector_view d s t sd dn w :
  state w <> ST_IDLE ->
  transfer_view (disc_writesector d s t sd dn w) = transfer_view w.
Proof. exact (disc_op_view op_writesector d s t sd dn w). Qed.

Lemma disc_readaddress_view d t sd dn w :
  state w <> ST_IDLE ->
  transfer_view (disc_readaddress d t sd dn w) = transfer_view w.
Proof. exact (disc_op_view op_readaddress d 0 t sd dn w). Qed.

Lemma disc_format_view d t sd dn w :
  state w <> ST_IDLE ->
  transfer_view (disc_format d t sd dn w) = transfer_view w.
Proof. exact (disc_op_view op_format d 0 t sd dn w). Qed.

Ltac view Hs :=
  repeat first
    [ progress autorewrite with view
    | rewrite disc_seek_view
    | rewrite disc_readsector_view
        by (eapply view_not_idle; [ exact Hs | view Hs ])
    | rewrite disc_writesector_view
        by (eapply view_not_idle; [ exact Hs | view Hs ])
    | rewrite disc_readaddress_view
        by (eapply view_not_idle; [ exact Hs | view Hs ])
    | rewrite disc_format_view
        by (eapply view_not_idle; [ exact Hs | view Hs ]) ];
  try reflexivity.

Lemma write_1770_view a v w :
  state w <> ST_IDLE -> transfer_view (write_1770 a v w) = transfer_view w.
Proof.
  intros Hs. unfold write_1770. cbv zeta.
  destruct (reg_select_range a) as [H | [H | [H | H]]];
    rewrite H; cbv iota; try reflexivity.
  destruct (truthy (Z.land (wd_status w) 1)
            && negb (Z.shiftr (u8 v) 4 =? 13)); [ reflexivity | ].
  pattern (Z.shiftr (u8 v) 4). apply nibble_cases; cbv beta iota;
    cbn [Z.eqb Pos.eqb negb];
    unfold cmd_read_address, wd1770_spinup, wd1770_spindown,
           wd1770_setspindown;
    repeat match goal with
           | |- context [if ?c then _ else _] => destruct c
           end;
    view Hs.
Qed.

Lemma wd1770_write_view a v w :
  state w <> ST_IDLE -> transfer_view (wd1770_write a v w) = transfer_view w.
Proof.
  intros Hs. unfold wd1770_write. cbv zeta.
  destruct (WD1770 w);
    match goal with
    | |- context [if ?c then _ else _] => destruct c
    end;
    try (apply write_1770_view; exact Hs);
    unfold write_ctrl_acorn, write_ctrl_master, write_ctrl_stl, wd1770_reset;
    cbv zeta;
    repeat match goal with
           | |- context [if ?c then _ else _] => destruct c
           end;
    reflexivity.
Qed.

Lemma run_board_writes_view ws : forall w,
  state w <> ST_IDLE ->
  transfer_view (run_board_writes ws w) = transfer_view w.
Proof.
  induction ws as [ | aw ws IH ]; intros w Hs; [ reflexivity | ].
  rewrite run_board_writes_cons.
  rewrite IH by (eapply view_not_idle; [ exact Hs | ];
                 apply wd1770_write_view; exact Hs).
  apply wd1770_write_view. exact Hs.
Qed.

Lemma wd1770_read_view a w :
  transfer_view (snd (wd1770_read a w)) = transfer_view w.
Proof.
  unfold wd1770_read, read_1770. cbv zeta.
  destruct (WD1770 w);
    repeat match goal with
           | |- context [if ?c then _ else _] => destruct c
           end;
    try reflexivity;
    destruct (reg_select_range (u16 a)) as [H | [H | [H | H]]];
    rewrite H; reflexivity.
Qed.

Lemma wd1770_callback_view w :
  transfer_view (wd1770_callback w) = transfer_view w.
Proof.
  unfold wd1770_callback, callback_done, wd1770_setspindown. cbv zeta.
  destruct (Z.shiftr (wd_command (set_fdc_time 0 w)) 4) as [ | p | p ];
    try reflexivity;
    repeat (destruct p as [p | p | ]; try reflexivity);
    unfold acorn_or_master; cbn [WD1770 set_wd_status set_motorspin
                                 set_wd_track set_fdc_time];
    destruct (WD1770 w); reflexivity.
Qed.

(** X17. Once a transfer is under way the controller cannot reach it.
    While the backend is not idle, no sequence of writes to the board's
    addresses (commands, a force interrupt, the registers, a reset through
    the control register) changes the backend's state, count, poll divider,
    open images, geometries, write-protect flags or latched sector address;
    nor does a register read or the completion callback, at any time. *)
Theorem busy_backend_ignores_controller (ws : list (Z * Z)) (a : Z)
    (w : world) :
  (state w <> ST_IDLE ->
   transfer_view (run_board_writes ws w) = transfer_view w)
  /\ transfer_view (snd (wd1770_read a w)) = transfer_view w
  /\ transfer_view (wd1770_callback w) = transfer_view w.
Proof.
  split; [ apply run_board_writes_view | ].
  split; [ apply wd1770_read_view | apply wd1770_callback_view ].
Qed.

Lemma busy_backend_ignores_controller_witness :
  state (sdf_readsector 0 1 0 0 0 dfs_in_drive0) <> ST_IDLE
  /\ state (run_board_writes [(4, 0xD0); (0, 0x20); (4, 0x80)]
              (sdf_readsector 0 1 0 0 0 dfs_in_drive0)) = ST_READSECTOR.
Proof.
  assert (H1 : state (sdf_readsector 0 1 0 0 0 dfs_in_drive0) <> ST_IDLE)
    by (vm_compute; discriminate).
  destruct (busy_backend_ignores_controller
              [(4, 0xD0); (0, 0x20); (4, 0x80)] 0
              (sdf_readsector 0 1 0 0 0 dfs_in_drive0)) as [H2 _].
  split; [ exact H1 | ].
  rewrite (view_state _ _ (H2 H1)). vm_compute. reflexivity.
Defined.

(** ** Closing an image *)

Lemma aget_aset_None {A : Type} (l : list (option A)) (i : Z) :
  match aget (aset l i None) i with
  | Some x => x
  | None => None
  end = None.
Proof.
  destruct (aget (aset l i None) i) as [x | ] eqn:E; [ | reflexivity ].
  unfold aget, aset in E. destruct (i <? 0); [ discriminate | ].
  apply list_lookup_insert_Some in E.
  destruct E as [(_ & <- & _) | (Hne & _)]; [ reflexivity | contradiction ].
Qed.

Lemma sdf_close_spec drive w :
  0 <= drive < NUM_DRIVES ->
  geometry_at (sdf_close drive w) drive = None
  /\ fp_at (sdf_close drive w) drive = None
  /\ (forall d, d <> drive ->
        geometry_at (sdf_close drive w) d = geometry_at w d
        /\ fp_at (sdf_close drive w) d = fp_at w d)
  /\ state (sdf_close drive w) = state w
  /\ trace (sdf_close drive w) = trace w
  /\ geometry (sdf_close drive w) = aset (geometry w) drive None.
Proof.
  intros Hd. unfold sdf_close.
  assert (E : (drive <? NUM_DRIVES) = true) by (apply Z.ltb_lt; lia).
  rewrite E. cbv zeta.
  change (fp_at (set_geometry (aset (geometry w) drive None) w) drive)
    with (fp_at w drive).
  destruct (fp_at w drive) as [f | ] eqn:Ef.
  - unfold geometry_at, fp_at.
    cbn [geometry sdf_fp state trace set_geometry set_sdf_fp].
    rewrite !aget_aset_None.
    repeat split; try (rewrite aget_aset_ne by congruence; reflexivity).
  - unfold geometry_at.
    cbn [geometry sdf_fp state trace set_geometry set_sdf_fp].
    rewrite aget_aset_None.
    change (fp_at (set_geometry (aset (geometry w) drive None) w))
      with (fp_at w).
    repeat split; try assumption;
      try (rewrite aget_aset_ne by congruence; reflexivity).
Qed.

Lemma sdf_close_twice drive w :
  0 <= drive < NUM_DRIVES ->
  sdf_close drive (sdf_close drive w) = sdf_close drive w.
Proof.
  intros Hd.
  destruct (sdf_close_spec drive w Hd) as (_ & C2 & _ & _ & _ & C6).
  set (w0 := sdf_close drive w) in *. clearbody w0.
  unfold sdf_close.
  assert (E : (drive <? NUM_DRIVES) = true) by (apply Z.ltb_lt; lia).
  rewrite E. cbv zeta.
  change (fp_at (set_geometry (aset (geometry w0) drive None) w0) drive)
    with (fp_at w0 drive).
  rewrite C2, C6, aset_aset, <- C6. destruct w0. reflexivity.
Qed.

(** X18. After [sdf_close] the drive is empty but still bound.  The
    drive's geometry and file handle are gone, the other drive keeps its
    own, the members of [drives] are untouched, and closing again changes
    nothing.  A request for the closed drive therefore still reaches the
    image backend, which starts its not-found countdown: 500 divided ticks
    later the not-found callback is called, once. *)
Theorem closed_drive_reports_not_found (op : transfer_op)
    (drive sector track side dens : Z) (w : world) :
  state w = ST_IDLE -> 0 <= drive < NUM_DRIVES ->
  let w0 := sdf_close drive w in
  let w1 := start_op op drive sector track side dens w0 in
  geometry_at w0 drive = None /\ fp_at w0 drive = None
  /\ drives w0 = drives w
  /\ (forall d, d <> drive ->
        geometry_at w0 d = geometry_at w d /\ fp_at w0 d = fp_at w d)
  /\ sdf_close drive w0 = w0
  /\ state w1 = ST_NOTFOUND /\ count w1 = 500
  /\ new_events w (ticks 500 w1) = [ev_fdc_notfound]
  /\ state (ticks 500 w1) = ST_IDLE.
Proof.
  intros Hs Hd w0 w1. subst w1 w0.
  destruct (sdf_close_spec drive w Hd) as (C1 & C2 & C3 & C4 & C5 & _).
  pose proof (sdf_close_twice drive w Hd) as C6.
  pose proof (sdf_close_drives drive w) as C7.
  set (w0 := sdf_close drive w) in *. clearbody w0.
  assert (Hg : guards_pass w0 (has_sector op) drive sector track side dens
               = false)
    by (unfold guards_pass; rewrite C1; apply andb_false_r).
  rewrite (start_op_rejected op _ _ _ _ _ w0 ltac:(congruence) Hg).
  assert (H1 : state (start_notfound w0) = ST_NOTFOUND) by reflexivity.
  assert (H2 : count (start_notfound w0) = Z.of_nat 500) by reflexivity.
  rewrite (notfound_fires 499 _ H1 H2 ltac:(lia)).
  repeat split; try assumption; try reflexivity.
  - apply C3; assumption.
  - apply C3; assumption.
  - apply new_events_app. cbn. rewrite C5. reflexivity.
Qed.

Lemma closed_drive_reports_not_found_witness :
  state dfs_in_drive0 = ST_IDLE /\ 0 <= 0 < NUM_DRIVES
  /\ state (start_op op_readsector 0 0 0 0 0 (sdf_close 0 dfs_in_drive0))
     = ST_NOTFOUND.
Proof.
  assert (H1 : state dfs_in_drive0 = ST_IDLE) by reflexivity.
  assert (H2 : 0 <= 0 < NUM_DRIVES) by (unfold NUM_DRIVES; lia).
  destruct (closed_drive_reports_not_found op_readsector 0 0 0 0 0
              dfs_in_drive0 H1 H2) as (_ & _ & _ & _ & _ & H3 & _).
  exact (conj H1 (conj H2 H3)).
Defined.

(** ** Head movement and the image backend's track *)

Lemma disc_seek_bound d t w :
  slot seek w d = Some SDF -> d < NUM_DRIVES ->
  disc_seek d t w
  = set_oldtrack (aset (oldtrack w) d t)
      (set_current_track (aset (current_track w) d (u8 t))
         (emit (ev_disc_seek d t) w)).
Proof.
  intros Hs Hd. unfold disc_seek. cbv zeta.
  change (slot seek (emit (ev_disc_seek d t) w) d) with (slot seek w d).
  rewrite Hs. unfold sdf_seek.
  assert (E : (d <? NUM_DRIVES) = true) by (apply Z.ltb_lt; exact Hd).
  rewrite E. reflexivity.
Qed.

Lemma head_command_view (v : Z) (w : world) :
  busy w = false -> slot seek w (curdrive w) = Some SDF ->
  curdrive w < NUM_DRIVES ->
  0 <= Z.shiftr (u8 v) 4 < 8 ->
  exists T,
    head_view (write_1770 0 v w)
    = (T, aset (current_track w) (curdrive w) (u8 T),
       trace w ++ [ev_disc_seek (curdrive w) T], curdrive w, wd_track w,
       WD1770 w).
Proof.
  intros Hb Hslot Hd Hn.
  unfold write_1770. change (Z.land (u16 0) 3) with 0. cbv iota.
  unfold busy in Hb. rewrite Hb. cbn [andb].
  revert Hn. pattern (Z.shiftr (u8 v) 4). apply nibble_cases; intros Hn;
    try lia; cbv beta iota zeta; cbn [Z.eqb Pos.eqb negb];
    unfold wd1770_spinup;
    repeat match goal with
           | |- context [if ?c <? 0 then _ else _] =>
               destruct (c <? 0)
           end;
    cbv beta iota zeta;
    rewrite disc_seek_bound by (first [ exact Hslot | exact Hd ]);
    unfold emit, head_view;
    cbn [current_track curdrive trace wd_curtrack wd_track wd_status WD1770
         set_oldtrack set_current_track set_trace set_wd_status
         set_wd_curtrack set_wd_command set_motoron set_motorspin
         set_wd_stepdir];
    eexists; reflexivity.
Qed.

Lemma head_callback_view (w : world) :
  let n := Z.shiftr (wd_command w) 4 in
  0 <= n < 8 ->
  head_view (wd1770_callback w)
  = (wd_curtrack w, current_track w, trace w, curdrive w,
     (if Z.odd n || (n =? 0) then u8 (wd_curtrack w) else wd_track w),
     WD1770 w).
Proof.
  intros n Hn. subst n. unfold wd1770_callback. cbv zeta.
  change (wd_command (set_fdc_time 0 w)) with (wd_command w).
  assert (Hc : Z.shiftr (wd_command w) 4 = 0 \/ Z.shiftr (wd_command w) 4 = 1
               \/ Z.shiftr (wd_command w) 4 = 2
               \/ Z.shiftr (wd_command w) 4 = 3
               \/ Z.shiftr (wd_command w) 4 = 4
               \/ Z.shiftr (wd_command w) 4 = 5
               \/ Z.shiftr (wd_command w) 4 = 6
               \/ Z.shiftr (wd_command w) 4 = 7) by lia.
  unfold callback_done, wd1770_setspindown, acorn_or_master.
  repeat (destruct Hc as [Hc | Hc]); rewrite Hc; cbv beta iota zeta;
    cbn [Z.odd Z.eqb orb WD1770 set_wd_status set_motorspin set_wd_track
         set_fdc_time];
    destruct (WD1770 w) eqn:EW; unfold head_view;
    cbn [wd_curtrack current_track trace curdrive wd_track WD1770
         set_wd_status set_motorspin set_wd_track set_fdc_time set_nmi];
    rewrite ?EW; reflexivity.
Qed.

(** X19. After a head-moving command and its completion the image backend
    and the controller agree on the track.  For Restore, Seek and the three
    kinds of Step, accepted with the busy bit clear on a drive whose seek
    slot is bound to the image backend, exactly one seek call is issued,
    for the selected drive and the new head position, and the backend's
    track for that drive is that position cut to a byte.  The track
    register is set to the same byte by the commands with an odd upper
    nibble and by Restore; the three others leave it as it was. *)
Theorem head_move_aligns_backend_track (v : Z) (w : world) :
  busy w = false -> slot seek w (curdrive w) = Some SDF ->
  0 <= curdrive w < NUM_DRIVES ->
  Z.of_nat (length (current_track w)) = NUM_DRIVES ->
  0 <= Z.shiftr (u8 v) 4 < 8 ->
  let w2 := wd1770_callback (write_1770 0 v w) in
  aget (current_track w2) (curdrive w2) = Some (u8 (wd_curtrack w2))
  /\ new_events w w2 = [ev_disc_seek (curdrive w) (wd_curtrack w2)]
  /\ wd_track w2
     = (if Z.odd (Z.shiftr (u8 v) 4) || (Z.shiftr (u8 v) 4 =? 0)
        then u8 (wd_curtrack w2) else wd_track w)
  /\ busy w2 = false.
Proof.
  intros Hb Hslot Hd Hlen Hn w2. subst w2.
  destruct (head_command_view v w Hb Hslot (proj2 Hd) Hn) as [T HT].
  pose proof (accepted_command_latched v w Hb) as Hcmd.
  set (w1 := write_1770 0 v w) in *. clearbody w1.
  pose proof (head_callback_view w1) as HC. cbv zeta in HC.
  rewrite Hcmd in HC. specialize (HC Hn).
  unfold head_view in HT. injection HT as T1 T2 T3 T4 T5 T6.
  rewrite T1, T2, T3, T4, T5 in HC.
  destruct (callback_clears_busy w1) as (Hbusy & _);
    rewrite ?Hcmd; try lia.
  set (w2 := wd1770_callback w1) in *. clearbody w2.
  unfold head_view in HC. injection HC as H1 H2 H3 H4 H5 H6.
  rewrite <- H1 in H2, H3, H5.
  unfold NUM_DRIVES in *.
  split; [ rewrite H2, H4; apply aget_aset_in; lia | ].
  split; [ apply new_events_app; exact H3 | ].
  split; [ exact H5 | exact Hbusy ].
Qed.

Lemma head_move_aligns_backend_track_witness :
  busy (write_ctrl_acorn 0x02 dfs_in_drive1) = false
  /\ slot seek (write_ctrl_acorn 0x02 dfs_in_drive1)
          (curdrive (write_ctrl_acorn 0x02 dfs_in_drive1)) = Some SDF
  /\ aget (current_track (wd1770_callback (write_1770 0 0x40
             (write_ctrl_acorn 0x02 dfs_in_drive1)))) 1
     = Some 1.
Proof.
  set (w := write_ctrl_acorn 0x02 dfs_in_drive1).
  assert (H1 : busy w = false) by reflexivity.
  assert (H2 : slot seek w (curdrive w) = Some SDF) by reflexivity.
  assert (H3 : 0 <= curdrive w < NUM_DRIVES)
    by (vm_compute; split; [ discriminate | reflexivity ]).
  assert (H4 : Z.of_nat (length (current_track w)) = NUM_DRIVES)
    by reflexivity.
  assert (H5 : 0 <= Z.shiftr (u8 0x40) 4 < 8)
    by (vm_compute; split; [ discriminate | reflexivity ]).
  destruct (head_move_aligns_backend_track 0x40 w H1 H2 H3 H4 H5)
    as (H6 & _).
  assert (E1 : curdrive (wd1770_callback (write_1770 0 0x40 w)) = 1)
    by (vm_compute; reflexivity).
  assert (E2 : u8 (wd_curtrack (wd1770_callback (write_1770 0 0x40 w))) = 1)
    by (vm_compute; reflexivity).
  rewrite E1, E2 in H6.
  exact (conj H1 (conj H2 H6)).
Defined.

(** ** The data register during a sector read *)

Lemma u8_set_bit_1 x : Z.testbit (u8 (Z.lor x 2)) 1 = true.
Proof.
  unfold u8. change 256 with (2 ^ 8).
  rewrite Z.mod_pow2_bits_low by lia.
  rewrite Z.lor_spec. change (Z.testbit 2 1) with true. apply orb_true_r.
Qed.

Lemma read_tick_regs (w : world) (d : Z) (f : FILE) :
  state w = ST_READSECTOR -> sdf_drive w = d -> fp_at w d = Some f ->
  0 <= f_pos f ->
  wd_data (sdf_poll_switch w)
  = u8 (byte_or_eof (f_bytes f) (Z.to_nat (f_pos f)))
  /\ wd_status (sdf_poll_switch w) = u8 (Z.lor (wd_status w) 2)
  /\ nmi (sdf_poll_switch w) = Z.lor (nmi w) 2.
Proof.
  intros Hs Hd Hf Hpos.
  assert (Hg : fst (getc f) = byte_or_eof (f_bytes f) (Z.to_nat (f_pos f))).
  { unfold getc, aget, byte_or_eof. rewrite (nonneg_ltb _ Hpos).
    destruct (f_bytes f !! Z.to_nat (f_pos f)); reflexivity. }
  unfold sdf_poll_switch. rewrite Hs. cbv iota zeta.
  unfold getc_fp. rewrite Hd, Hf. cbn [fst snd]. rewrite Hg.
  unfold fdc_data, wd1770_data, emit, fdc_finishread, wd1770_finishread.
  cbn [count set_count set_nmi set_wd_status set_wd_data set_trace set_sdf_fp].
  match goal with
  | |- context [if ?c then _ else _] => destruct c
  end; cbn; repeat split.
Qed.

(** X20. During a sector read the data register holds the byte of the
    last tick until the CPU takes it.  After a divided tick in the
    read-sector state the data-request bit is set in the status byte and in
    the interrupt lines; a read of register 3 returns the byte the tick took
    from the file (0xFF past its end) and clears both bits; a second read
    returns the same byte again. *)
Theorem cpu_reads_delivered_byte (w : world) (d : Z) (f : FILE) :
  state w = ST_READSECTOR -> sdf_drive w = d -> fp_at w d = Some f ->
  0 <= f_pos f ->
  let b := u8 (byte_or_eof (f_bytes f) (Z.to_nat (f_pos f))) in
  let w1 := sdf_poll_switch w in
  let r := read_1770 3 w1 in
  Z.testbit (wd_status w1) 1 = true /\ Z.testbit (nmi w1) 1 = true
  /\ fst r = b
  /\ Z.testbit (wd_status (snd r)) 1 = false
  /\ Z.testbit (nmi (snd r)) 1 = false
  /\ fst (read_1770 3 (snd r)) = b.
Proof.
  intros Hs Hd Hf Hpos b w1 r. subst r w1 b.
  destruct (read_tick_regs w d f Hs Hd Hf Hpos) as (H1 & H2 & H3).
  set (w1 := sdf_poll_switch w) in *. clearbody w1.
  unfold read_1770. change (Z.land (u16 3) 3) with 3. cbv iota zeta.
  cbn [fst snd wd_data wd_status nmi set_nmi set_wd_status].
  rewrite H1, H2, H3.
  split; [ apply u8_set_bit_1 | ].
  split; [ rewrite Z.lor_spec; apply orb_true_r | ].
  split; [ reflexivity | ].
  split; [ apply u8_clear_bit_1 | ].
  split; [ | reflexivity ].
  rewrite Z.land_spec, Z.lnot_spec by lia. apply andb_false_r.
Qed.

Lemma cpu_reads_delivered_byte_witness :
  state (sdf_readsector 0 1 0 0 0 dfs_in_drive0) = ST_READSECTOR
  /\ fst (read_1770 3
            (sdf_poll_switch (sdf_readsector 0 1 0 0 0 dfs_in_drive0)))
     = 0.
Proof.
  set (w := sdf_readsector 0 1 0 0 0 dfs_in_drive0).
  assert (H1 : state w = ST_READSECTOR) by reflexivity.
  assert (H2 : sdf_drive w = 0) by reflexivity.
  assert (H3 : fp_at w 0 = Some (mkFILE (f_bytes dfs_image) 256 true))
    by reflexivity.
  assert (H4 : 0 <= f_pos (mkFILE (f_bytes dfs_image) 256 true))
    by (cbn; lia).
  destruct (cpu_reads_delivered_byte w 0 _ H1 H2 H3 H4)
    as (_ & _ & H5 & _).
  split; [ exact H1 | ]. rewrite H5. vm_compute. reflexivity.
Defined.

(** ** The formatting state *)

Lemma no_format_view w w' :
  transfer_view w' = transfer_view w -> no_format w -> no_format w'.
Proof. unfold no_format. intros H. rewrite (view_state w w' H). auto. Qed.

Lemma start_op_no_format op d s t sd dn w :
  no_format w -> no_format (start_op op d s t sd dn w).
Proof.
  unfold no_format.
  destruct op; cbn [start_op];
    unfold sdf_readsector, sdf_writesector, sdf_readaddress, sdf_format,
           start_notfound, io_seek;
    destruct (state w) eqn:E; try congruence;
    frame_cases; cbn; intros _; discriminate.
Qed.

Lemma disc_op_no_format op d s t sd dn w :
  no_format w -> no_format (disc_op op d s t sd dn w).
Proof.
  intros H.
  destruct op; cbn [disc_op];
    unfold disc_readsector, disc_writesector, disc_readaddress, disc_format;
    cbv zeta;
    match goal with
    | |- context [emit ?e w] =>
        set (wx := emit e w);
        assert (Hx : no_format wx) by exact H;
        clearbody wx
    end;
    match goal with
    | |- context [slot ?f ?x d] => destruct (slot f x d) as [[] | ]
    end;
    try exact Hx.
  - exact (start_op_no_format op_readsector d s t sd dn wx Hx).
  - exact (start_op_no_format op_writesector d s t sd dn wx Hx).
  - exact (start_op_no_format op_readaddress d s t sd dn wx Hx).
  - exact (start_op_no_format op_format d s t sd dn wx Hx).
Qed.

Lemma disc_readsector_no_format d s t sd dn w :
  no_format w -> no_format (disc_readsector d s t sd dn w).
Proof. exact (disc_op_no_format op_readsector d s t sd dn w). Qed.

Lemma disc_writesector_no_format d s t sd dn w :
  no_format w -> no_format (disc_writesector d s t sd dn w).
Proof. exact (disc_op_no_format op_writesector d s t sd dn w). Qed.

Lemma disc_readaddress_no_format d t sd dn w :
  no_format w -> no_format (disc_readaddress d t sd dn w).
Proof. exact (disc_op_no_format op_readaddress d 0 t sd dn w). Qed.

Lemma disc_format_no_format d t sd dn w :
  no_format w -> no_format (disc_format d t sd dn w).
Proof. exact (disc_op_no_format op_format d 0 t sd dn w). Qed.

Lemma disc_seek_no_format d t w : no_format w -> no_format (disc_seek d t w).
Proof. apply no_format_view. apply disc_seek_view. Qed.

(** Peel the calls and the field updates off the world in the goal. *)
Ltac peel_no_format :=
  repeat match goal with
         | |- no_format (disc_seek _ _ _) => apply disc_seek_no_format
         | |- no_format (disc_readsector _ _ _ _ _ _) =>
             apply disc_readsector_no_format
         | |- no_format (disc_writesector _ _ _ _ _ _) =>
             apply disc_writesector_no_format
         | |- no_format (disc_readaddress _ _ _ _ _) =>
             apply disc_readaddress_no_format
         | |- no_format (disc_format _ _ _ _ _) =>
             apply disc_format_no_format
         | |- no_format (?f ?v ?x) =>
             apply (no_format_view x (f v x));
             [ autorewrite with view; reflexivity | ]
         end.

Lemma write_1770_no_format a v w :
  no_format w -> no_format (write_1770 a v w).
Proof.
  intros Hs. unfold write_1770. cbv zeta.
  destruct (reg_select_range a) as [H | [H | [H | H]]];
    rewrite H; cbv iota; try exact Hs.
  destruct (truthy (Z.land (wd_status w) 1)
            && negb (Z.shiftr (u8 v) 4 =? 13)); [ exact Hs | ].
  pattern (Z.shiftr (u8 v) 4). apply nibble_cases; cbv beta iota;
    cbn [Z.eqb Pos.eqb negb];
    unfold cmd_read_address, wd1770_spinup, wd1770_spindown,
           wd1770_setspindown;
    repeat match goal with
           | |- context [if ?c then _ else _] => destruct c
           end;
    peel_no_format; exact Hs.
Qed.

Lemma getc_fp_state d w : state (snd (getc_fp d w)) = state w.
Proof. unfold getc_fp. destruct (fp_at w d); reflexivity. Qed.

Lemma putc_fp_state c d w : state (putc_fp c d w) = state w.
Proof. unfold putc_fp. destruct (fp_at w d); reflexivity. Qed.

Lemma wd1770_getdata_state l w : state (snd (wd1770_getdata l w)) = state w.
Proof.
  unfold wd1770_getdata. destruct (negb (truthy (wd_written w)));
    [ reflexivity | ].
  destruct (negb (truthy l)); reflexivity.
Qed.

Lemma sdf_poll_switch_no_format w :
  no_format w -> no_format (sdf_poll_switch w).
Proof.
  unfold no_format, sdf_poll_switch. intros H.
  destruct (state w) eqn:E; try contradiction; try exact H;
    cbv zeta; frame_cases; cbn;
    rewrite ?putc_fp_state; cbn;
    rewrite ?getc_fp_state, ?wd1770_getdata_state; cbn;
    rewrite ?E; discriminate.
Qed.

Lemma disc_poll_no_format w : no_format w -> no_format (disc_poll w).
Proof.
  intros H. unfold disc_poll. cbv zeta.
  set (w1 := match slot poll w (curdrive w) with
             | Some SDF => sdf_poll w
             | None => w
             end).
  assert (H1 : no_format w1).
  { subst w1. destruct (slot poll w (curdrive w)) as [[] | ]; [ | exact H ].
    unfold sdf_poll. cbv zeta.
    destruct (sdf_time (set_sdf_time (sdf_time w + 1) w) <=? 16);
      [ exact H | ].
    apply sdf_poll_switch_no_format. exact H. }
  clearbody w1. destruct (truthy (disc_notfound w1)); [ | exact H1 ].
  match goal with
  | |- context [if ?c then _ else _] => destruct c
  end; exact H1.
Qed.

Lemma run_action_no_format a w : no_format w -> no_format (run_action a w).
Proof.
  intros H. destruct a; cbn [run_action].
  - unfold wd1770_write. cbv zeta.
    destruct (WD1770 w);
      match goal with
      | |- context [if ?c then _ else _] => destruct c
      end;
      try (apply write_1770_no_format; exact H);
      unfold write_ctrl_acorn, write_ctrl_master, write_ctrl_stl,
             wd1770_reset;
      cbv zeta;
      repeat match goal with
             | |- context [if ?c then _ else _] => destruct c
             end;
      exact H.
  - exact (no_format_view _ _ (wd1770_read_view addr w) H).
  - exact H.
  - exact (no_format_view _ _ (wd1770_callback_view w) H).
  - apply disc_poll_no_format. exact H.
  - apply disc_seek_no_format. exact H.
  - apply disc_op_no_format. exact H.
  - unfold disc_abort. destruct (slot abort w drive) as [[] | ];
      [ unfold no_format; cbn; discriminate | exact H ].
  - unfold disc_close. destruct (slot close w 0) as [[] | ]; [ | exact H ].
    unfold sdf_close. frame_cases; exact H.
  - exact H.
  - unfold sdf_load. cbv zeta. frame_cases; exact H.
  - unfold disc_new, sdf_load. cbv zeta. frame_cases; exact H.
Qed.

(** X21. The formatting state is unreachable.  Whatever is done through
    the entry points of the three files (register reads and writes, reset,
    the completion callback, polls, direct seek, sector, address, format
    and abort calls, loading, creating and closing images), a backend that
    is not in the formatting state never enters it: the format request is
    the only one that selects the state, and it leaves it again before it
    returns.  The branch of the poll that writes the filler bytes of a
    format is therefore never taken. *)
Theorem format_state_is_unreachable (acts : list action) (w : world) :
  state w <> ST_FORMAT -> state (run_actions acts w) <> ST_FORMAT.
Proof.
  revert w. induction acts as [ | a acts IH ]; intros w H; [ exact H | ].
  change (run_actions (a :: acts) w) with (run_actions acts (run_action a w)).
  apply IH. apply run_action_no_format. exact H.
Qed.

Lemma format_state_is_unreachable_witness :
  state dfs_in_drive0 <> ST_FORMAT
  /\ state (run_actions [act_op op_format 0 0 0 0 0; act_poll] dfs_in_drive0)
     <> ST_FORMAT.
Proof.
  assert (H : state dfs_in_drive0 <> ST_FORMAT) by discriminate.
  exact (conj H (format_state_is_unreachable
                   [act_op op_format 0 0 0 0 0; act_poll] dfs_in_drive0 H)).
Defined.

(** ** The error callbacks *)

(** X22. Each of the four error callbacks leaves the controller finished.
    The status byte they assign has bit 7 set, but the spin-down that
    follows clears it again, so the status read back is the error bits
    alone: 0x10 for not found, 0x40 for write-protect, 0x08 for a data
    CRC error and 0x18 for a header CRC error.  The busy bit is clear, the
    motor flag and the callback timer are zero, the interrupt lines are 1
    on the Acorn and Master boards and 0 on the Solidisk board, and the
    backend's transfer is not touched. *)
Theorem error_callbacks_leave_controller_finished (w : world) :
  let finished (w' : world) (code : Z) :=
    wd_status w' = code /\ busy w' = false /\ motoron w' = 0
    /\ fdc_time w' = 0 /\ nmi w' = (if acorn_or_master w then 1 else 0)
    /\ transfer_view w' = transfer_view w in
  finished (wd1770_notfound w) 0x10
  /\ finished (wd1770_writeprotect w) 0x40
  /\ finished (wd1770_datacrcerror w) 0x08
  /\ finished (wd1770_headercrcerror w) 0x18.
Proof.
  cbv zeta.
  unfold wd1770_notfound, wd1770_writeprotect, wd1770_datacrcerror,
         wd1770_headercrcerror, wd1770_spindown, busy, acorn_or_master.
  cbn [wd_status motoron fdc_time nmi WD1770 set_fdc_time set_nmi
       set_wd_status set_motoron].
  destruct (WD1770 w); repeat split.
Qed.

(** ** A sector written through a read-only stream *)

(** The same write and read as in [roundtrip_open_for_update], on a stream
    that was opened for reading only: every [putc] fails, the file keeps its
    bytes, and the read hands over what the file held before. *)
Lemma roundtrip_read_only (geo : geometry_t)
    (drive sector track side dens : Z) (data : list Z) (w : world)
    (f : FILE) :
  state w = ST_IDLE -> geometry_at w drive = Some geo ->
  fp_at w drive = Some f -> f_rw f = false -> writeprot_at w drive = false ->
  guards_pass w true drive sector track side dens = true ->
  0 < sector_size geo <= 65535 ->
  Z.of_nat (length data) = sector_size geo ->
  Forall (fun b => 0 <= b < 256) data ->
  let w1 := supply_bytes data (sdf_writesector drive sector track side dens w) in
  let w2 := ticks (length data)
                  (sdf_readsector drive sector track side dens w1) in
  let old := map u8 (sector_bytes (f_bytes f)
                       (Z.to_nat (io_offset geo sector track side))
                       (length data)) in
  state w1 = ST_IDLE
  /\ new_events w1 w2 = map ev_fdc_data old ++ [ev_fdc_finishread]
  /\ state w2 = ST_IDLE
  /\ fp_at w1 drive
     = Some (mkFILE (f_bytes f) (io_offset geo sector track side) false).
Proof.
  intros Hs Hg Hf Hrw Hwp Hp Hsz Hlen Hall w1 w2 old. subst old w2 w1.
  destruct (guards_pass_inv _ _ _ _ _ _ _ Hp) as (Hd & _).
  assert (Hne : data <> []) by (intros ->; cbn in Hlen; lia).
  pose proof (io_offset_nonneg geo sector track side) as Hoff.
  set (off := io_offset geo sector track side) in *.
  assert (Hseek : forall g, fseek_set off g = mkFILE (f_bytes g) off (f_rw g)).
  { intros g. unfold fseek_set. rewrite (nonneg_ltb _ Hoff). reflexivity. }
  (* the write *)
  set (wa := sdf_writesector drive sector track side dens w).
  assert (Ha : state wa = ST_WRITESECTOR /\ sdf_drive wa = drive
               /\ writeprot wa = writeprot w
               /\ fp_at wa drive = Some (mkFILE (f_bytes f) off false)
               /\ count wa = sector_size geo
               /\ geometry wa = geometry w
               /\ current_track wa = current_track w).
  { subst wa. rewrite (sdf_writesector_accepted _ _ _ _ _ _ _ Hs Hg Hp).
    rewrite (io_seek_fp _ _ _ _ _ _ _ Hd Hf). fold off. rewrite Hseek, Hrw.
    unfold NUM_DRIVES in Hd. cbn. rewrite u8_id, u16_id by lia.
    repeat split. apply (fp_at_set w drive f _ Hf). }
  destruct Ha as (A1 & A2 & A3 & A4 & A5 & A6 & A7). clearbody wa.
  assert (Awp : writeprot_at wa drive = false)
    by (unfold writeprot_at in *; rewrite A3; exact Hwp).
  assert (Alen : Z.of_nat (length data) <= 65535) by lia.
  assert (Acnt : count wa = Z.of_nat (length data)) by lia.
  destruct (supply_bytes_loop drive data wa (mkFILE (f_bytes f) off false)
              Hne Hall Alen A1 A2 Awp A4 Acnt) as (B1 & B2 & B3 & B4).
  rewrite putcs_read_only in B2 by reflexivity.
  set (w1 := supply_bytes data wa) in *. clearbody w1.
  (* the read *)
  assert (Hg1 : geometry_at w1 drive = Some geo)
    by (unfold geometry_at in *; rewrite B3, A6; exact Hg).
  assert (Hp1 : guards_pass w1 true drive sector track side dens = true).
  { rewrite (guards_pass_ext w w1) by congruence. exact Hp. }
  set (wb := sdf_readsector drive sector track side dens w1) in *.
  assert (Hb : state wb = ST_READSECTOR /\ sdf_drive wb = drive
               /\ fp_at wb drive = Some (mkFILE (f_bytes f) off false)
               /\ count wb = sector_size geo /\ trace wb = trace w1).
  { subst wb. rewrite (sdf_readsector_accepted _ _ _ _ _ _ _ B1 Hg1 Hp1).
    rewrite (io_seek_fp _ _ _ _ _ _ _ Hd B2). fold off. rewrite Hseek.
    unfold NUM_DRIVES in Hd. cbn. rewrite u8_id, u16_id by lia.
    repeat split. apply (fp_at_set w1 drive _ _ B2). }
  destruct Hb as (R1 & R2 & R3 & R4 & R5). clearbody wb.
  destruct (read_loop_any drive (f_bytes f) (length data) (Z.to_nat off) wb _
              ltac:(destruct data; [ contradiction | cbn; lia ]) Alen
              R1 R2 R3 eq_refl Hoff ltac:(reflexivity) ltac:(lia))
    as (C1 & C2 & _).
  set (w2 := ticks (length data) wb) in *. clearbody w2.
  split; [ exact B1 | ]. split; [ | split; [ exact C1 | exact B2 ] ].
  apply new_events_app. rewrite C2, R5. reflexivity.
Qed.

(** C2. With a geometry bound to the drive, the drive not write-protected and
    a sector address that passes the guards, write the sector: the CPU
    supplies [sector_size] bytes, each pulled by a divided tick, and the
    backend is idle again.  Then read the same sector: [sector_size] divided
    ticks hand bytes to the data-ready callback, followed by one call of the
    finished callback.  If the image's stream is open for update, the bytes
    handed over are exactly the bytes written, in order.  If the stream was
    opened for reading only, which the cleared write-protect flag does not
    exclude, the write runs to its end all the same but stores nothing, and
    the bytes handed over are those the file held before the write (0xFF
    past its end). *)
Theorem write_then_read_depends_on_open_mode (geo : geometry_t)
    (drive sector track side dens : Z) (data : list Z) (w : world)
    (f : FILE) :
  state w = ST_IDLE -> geometry_at w drive = Some geo ->
  fp_at w drive = Some f -> writeprot_at w drive = false ->
  guards_pass w true drive sector track side dens = true ->
  0 < sector_size geo <= 65535 ->
  Z.of_nat (length data) = sector_size geo ->
  Forall (fun b => 0 <= b < 256) data ->
  let w1 := supply_bytes data (sdf_writesector drive sector track side dens w) in
  let w2 := ticks (length data)
                  (sdf_readsector drive sector track side dens w1) in
  let old := map u8 (sector_bytes (f_bytes f)
                       (Z.to_nat (io_offset geo sector track side))
                       (length data)) in
  let delivered := if f_rw f then data else old in
  state w1 = ST_IDLE
  /\ new_events w1 w2 = map ev_fdc_data delivered ++ [ev_fdc_finishread]
  /\ data_ready (new_events w1 w2) = delivered
  /\ state w2 = ST_IDLE
  /\ (f_rw f = false ->
      exists f1, fp_at w1 drive = Some f1 /\ f_bytes f1 = f_bytes f).
Proof.
  intros Hs Hg Hf Hwp Hp Hsz Hlen Hall w1 w2 old delivered.
  subst delivered old w2 w1.
  destruct (f_rw f) eqn:Hrw.
  - destruct (roundtrip_open_for_update geo drive sector track side dens
                data w f Hs Hg Hf Hrw Hwp Hp Hsz Hlen Hall)
      as (H1 & H2 & H3 & H4).
    split; [ exact H1 | ]. split; [ exact H2 | ]. split; [ exact H3 | ].
    split; [ exact H4 | discriminate ].
  - destruct (roundtrip_read_only geo drive sector track side dens
                data w f Hs Hg Hf Hrw Hwp Hp Hsz Hlen Hall)
      as (H1 & H2 & H3 & H4).
    split; [ exact H1 | ]. split; [ exact H2 | ].
    split; [ rewrite H2, data_ready_app, data_ready_data; apply app_nil_r | ].
    split; [ exact H3 | ].
    intros _. eexists. split; [ exact H4 | reflexivity ].
Qed.

Lemma write_then_read_depends_on_open_mode_witness :
  state stale_read_only_drive0 = ST_IDLE
  /\ writeprot_at stale_read_only_drive0 0 = false
  /\ guards_pass stale_read_only_drive0 true 0 9 0 0 0 = true
  /\ Z.of_nat (length sample_sector) = sector_size acorn_dfs_40_single
  /\ state (supply_bytes sample_sector
              (sdf_writesector 0 9 0 0 0 stale_read_only_drive0)) = ST_IDLE
  /\ data_ready
       (new_events
          (supply_bytes sample_sector
             (sdf_writesector 0 9 0 0 0 stale_read_only_drive0))
          (ticks (length sample_sector)
             (sdf_readsector 0 9 0 0 0
                (supply_bytes sample_sector
                   (sdf_writesector 0 9 0 0 0 stale_read_only_drive0)))))
     = repeat 0xFF 256
  /\ repeat 0xFF 256 <> sample_sector.
Proof.
  assert (H1 : state stale_read_only_drive0 = ST_IDLE) by reflexivity.
  assert (H2 : geometry_at stale_read_only_drive0 0
               = Some acorn_dfs_40_single) by reflexivity.
  assert (H3 : fp_at stale_read_only_drive0 0
               = Some (snd (detect_geometry
                              (mkFILE (f_bytes dfs_image) 0 false))))
    by reflexivity.
  assert (H4 : writeprot_at stale_read_only_drive0 0 = false) by reflexivity.
  assert (H5 : guards_pass stale_read_only_drive0 true 0 9 0 0 0 = true)
    by reflexivity.
  assert (H6 : 0 < sector_size acorn_dfs_40_single <= 65535) by (cbn; lia).
  assert (H7 : Z.of_nat (length sample_sector)
               = sector_size acorn_dfs_40_single) by reflexivity.
  assert (H8 : Forall (fun b => 0 <= b < 256) sample_sector).
  { apply List.Forall_forall. intros x Hx. unfold sample_sector in Hx.
    apply in_map_iff in Hx as (n & <- & Hn). apply in_seq in Hn. lia. }
  destruct (write_then_read_depends_on_open_mode acorn_dfs_40_single
              0 9 0 0 0 sample_sector stale_read_only_drive0 _
              H1 H2 H3 H4 H5 H6 H7 H8) as (H9 & _ & H10 & _).
  split; [ exact H1 | ]. split; [ exact H4 | ]. split; [ exact H5 | ].
  split; [ exact H7 | ]. split; [ exact H9 | ].
  split; [ rewrite H10; vm_compute; reflexivity | ].
  vm_compute. discriminate.
Defined.

(** ** Commands accepted after the busy bit was taken away *)

Lemma transfer_calls_app l1 l2 :
  transfer_calls (l1 ++ l2) = transfer_calls l1 ++ transfer_calls l2.
Proof. unfold transfer_calls. apply List.filter_app. Qed.

Lemma transfer_calls_exists l :
  transfer_calls l <> [] -> existsb is_transfer l = true.
Proof.
  unfold transfer_calls. induction l as [ | e l IH ];
    [ intros H; exfalso; apply H; reflexivity | ].
  cbn [List.filter existsb]. destruct (is_transfer e); [ reflexivity | ].
  exact IH.
Qed.

Ltac one_command_events :=
  eexists; split;
  [ rewrite <- ?app_assoc; reflexivity
  | unfold of_one_command, transfer_calls; cbn [List.filter is_transfer app];
    first [ left; reflexivity
          | right; left; do 5 eexists; reflexivity
          | right; right; left; do 5 eexists; reflexivity
          | right; right; right; left; do 4 eexists; reflexivity
          | right; right; right; right; do 4 eexists; reflexivity ] ].

(** The calls one write to a chip register records. *)
Lemma write_1770_calls a v w :
  exists l, trace (write_1770 a v w) = trace w ++ l
            /\ of_one_command (transfer_calls l).
Proof.
  unfold write_1770.
  destruct (reg_select_range a) as [H | [H | [H | H]]]; rewrite H.
  2-4: exists (@nil event); split;
       [ rewrite app_nil_r; reflexivity | left; reflexivity ].
  destruct (truthy (Z.land (wd_status w) 1)
            && negb (Z.shiftr (u8 v) 4 =? 13)).
  { exists (@nil event). split;
      [ rewrite app_nil_r; reflexivity | left; reflexivity ]. }
  pattern (Z.shiftr (u8 v) 4). apply nibble_cases; cbv beta iota;
    cbn [Z.eqb Pos.eqb negb]; unfold cmd_read_address;
    observe_regs; split_ifs_regs;
    first [ exists (@nil event); split;
            [ rewrite app_nil_r; reflexivity | left; reflexivity ]
          | one_command_events ].
Qed.

(** A write to the board that is not one of [clears_busy] leaves a set busy
    bit set and records no call. *)
Lemma board_write_while_busy a v w :
  busy w = true -> clears_busy (WD1770 w) (a, v) = false ->
  busy (wd1770_write a v w) = true
  /\ trace (wd1770_write a v w) = trace w.
Proof.
  intros Hb Hc. unfold clears_busy, chip_selected in Hc. cbn [fst snd] in Hc.
  assert (Hchip : (Z.land (u16 a) 3 =? 0) && (Z.shiftr (u8 v) 4 =? 13) = false ->
                  busy (write_1770 (u16 a) v w) = true
                  /\ trace (write_1770 (u16 a) v w) = trace w).
  { intros Hn.
    assert (Hfi : ~ force_interrupt (u16 a, v)).
    { unfold force_interrupt, command_write. cbn [fst snd].
      rewrite u16_u16. intros [H1 H2]. rewrite H1, H2 in Hn. discriminate. }
    destruct (write_while_busy (u16 a) v w Hb Hfi) as (H1 & H2 & _).
    split; assumption. }
  unfold wd1770_write. cbv zeta.
  destruct (WD1770 w); cbn [negb] in Hc;
    destruct (truthy (Z.land (u16 a) _)); cbn [negb] in Hc;
    try (apply Hchip; exact Hc).
  - unfold write_ctrl_acorn. cbv zeta. rewrite Hc. split; [ exact Hb | reflexivity ].
  - unfold write_ctrl_master. cbv zeta. rewrite Hc. split; [ exact Hb | reflexivity ].
  - split; [ exact Hb | reflexivity ].
Qed.

Lemma wd1770_write_board a v w : WD1770 (wd1770_write a v w) = WD1770 w.
Proof.
  unfold wd1770_write. cbv zeta.
  destruct (WD1770 w) eqn:E; destruct (truthy _);
    rewrite ?write_1770_board; try exact E;
    unfold write_ctrl_acorn, write_ctrl_master, write_ctrl_stl, wd1770_reset;
    cbn; repeat match goal with
                | |- context [if ?c then _ else _] => destruct c; cbn
                end; exact E.
Qed.

(** The calls one write to the board records; if a transfer call is among
    them, the write leaves the busy bit set. *)
Lemma wd1770_write_calls a v w :
  exists l, trace (wd1770_write a v w) = trace w ++ l
            /\ of_one_command (transfer_calls l)
            /\ (transfer_calls l <> [] -> busy (wd1770_write a v w) = true).
Proof.
  assert (Hchip : exists l, trace (write_1770 (u16 a) v w) = trace w ++ l
            /\ of_one_command (transfer_calls l)
            /\ (transfer_calls l <> [] ->
                busy (write_1770 (u16 a) v w) = true)).
  { destruct (write_1770_calls (u16 a) v w) as (l & Hl & Hone).
    exists l. split; [ exact Hl | ]. split; [ exact Hone | ].
    intros Hne. apply write_transfer_sets_busy.
    rewrite (new_events_app _ _ _ Hl). apply transfer_calls_exists. exact Hne. }
  assert (Hctrl : forall w', trace w' = trace w ->
            exists l, trace w' = trace w ++ l
            /\ of_one_command (transfer_calls l)
            /\ (transfer_calls l <> [] -> busy w' = true)).
  { intros w' E. exists (@nil event). rewrite app_nil_r.
    split; [ exact E | ]. split; [ left; reflexivity | ].
    intros Hne. exfalso. apply Hne. reflexivity. }
  unfold wd1770_write. cbv zeta.
  destruct (WD1770 w); destruct (truthy (Z.land (u16 a) _));
    try exact Hchip; apply Hctrl;
    unfold write_ctrl_acorn, write_ctrl_master, write_ctrl_stl, wd1770_reset;
    cbn; repeat match goal with
                | |- context [if ?c then _ else _] => destruct c; cbn
                end; reflexivity.
Qed.

Lemma board_run_while_busy ws : forall b w,
  WD1770 w = b -> busy w = true ->
  Forall (fun aw => clears_busy b aw = false) ws ->
  trace (run_board_writes ws w) = trace w.
Proof.
  induction ws as [ | [a v] ws IH ]; intros b w Eb Hb Hall; [ reflexivity | ].
  apply Forall_cons in Hall as [Hx Hall].
  rewrite run_board_writes_cons. cbn [fst snd].
  rewrite <- Eb in Hx.
  destruct (board_write_while_busy a v w Hb Hx) as [Hb' Ht'].
  rewrite (IH b _ ltac:(rewrite wd1770_write_board; exact Eb) Hb' Hall).
  exact Ht'.
Qed.

Lemma board_run_one_command ws : forall b w,
  WD1770 w = b -> Forall (fun aw => clears_busy b aw = false) ws ->
  exists l, trace (run_board_writes ws w) = trace w ++ l
            /\ of_one_command (transfer_calls l).
Proof.
  induction ws as [ | [a v] ws IH ]; intros b w Eb Hall.
  - exists (@nil event). split; [ rewrite app_nil_r; reflexivity | ].
    left; reflexivity.
  - apply Forall_cons in Hall as [Hx Hall].
    rewrite run_board_writes_cons. cbn [fst snd].
    destruct (wd1770_write_calls a v w) as (l1 & Hl1 & Hone & Hbusy).
    pose proof (wd1770_write_board a v w) as Eb'. rewrite Eb in Eb'.
    set (w' := wd1770_write a v w) in *. clearbody w'.
    destruct (transfer_calls l1) as [ | e es ] eqn:E1.
    + destruct (IH b w' Eb' Hall) as (l2 & Hl2 & Hone2).
      exists (l1 ++ l2). split; [ rewrite Hl2, Hl1, app_assoc; reflexivity | ].
      rewrite transfer_calls_app, E1. exact Hone2.
    + exists l1. split.
      * rewrite (board_run_while_busy ws b w' Eb'
                   (Hbusy ltac:(discriminate)) Hall).
        exact Hl1.
      * rewrite E1. exact Hone.
Qed.

(** C1, counterexample.  On the Acorn board, with a DFS image in drive 0:
    Read Sector is accepted and the backend starts the transfer; Force
    Interrupt clears the busy bit and calls nothing, the backend is still
    transferring; a second Read Sector, which is not Force Interrupt, is
    then accepted and issues a second read-sector call while the first
    transfer is in progress.  A write to the control register with the
    reset bit in place of the Force Interrupt does the same. *)
Lemma second_transfer_issued_during_first :
  let w0 := dfs_in_drive0 in
  let w1 := run_board_writes [(4, 0x80)] w0 in
  let w2 := run_board_writes [(4, 0x80); (4, 0xD0)] w0 in
  let w3 := run_board_writes [(4, 0x80); (4, 0xD0); (4, 0x80)] w0 in
  let r2 := run_board_writes [(4, 0x80); (0, 0x20)] w0 in
  let r3 := run_board_writes [(4, 0x80); (0, 0x20); (4, 0x80)] w0 in
  (state w1 = ST_READSECTOR /\ busy w1 = true)
  /\ (state w2 = ST_READSECTOR /\ busy w2 = false /\ new_events w1 w2 = [])
  /\ (state w3 = ST_READSECTOR /\ busy w3 = true
      /\ new_events w2 w3 = [ev_disc_readsector 0 0 0 0 0]
      /\ new_events w0 w3
         = [ev_disc_readsector 0 0 0 0 0; ev_disc_readsector 0 0 0 0 0]
      /\ ~ of_one_command (transfer_calls (new_events w0 w3)))
  /\ (state r2 = ST_READSECTOR /\ busy r2 = false
      /\ new_events w0 r3
         = [ev_disc_readsector 0 0 0 0 0; ev_disc_readsector 0 0 0 0 1]).
Proof.
  cbv zeta.
  repeat match goal with
         | |- _ /\ _ => split
         end; try (vm_compute; reflexivity).
  vm_compute.
  intros [H | [(d & s & t & sd & dn & H) | [(d & s & t & sd & dn & H)
        | [(d & t & sd & dn & H) | (d & t & sd & dn & H)]]]];
    discriminate.
Qed.

(** C1. In any sequence of writes to the chip registers, a command write
    that is not Force Interrupt and arrives while the busy bit is set is
    dropped whole: the world after it is the world before it, so the status
    byte has not changed and no dispatch call has been recorded.  What
    follows from it holds only while nothing takes the busy bit away: in a
    sequence of writes to the board that contains neither a Force Interrupt
    nor a control-register write with the board's reset bit, the read,
    write, address and format calls issued are those of one command at
    most, and none is issued if the busy bit was set at the start. *)
Theorem busy_rejects_commands :
  (forall (pre : list (Z * Z)) (a v : Z) (w : world),
      command_write (a, v) -> Z.shiftr (u8 v) 4 <> 0xD ->
      busy (run_writes pre w) = true ->
      run_writes (pre ++ [(a, v)]) w = run_writes pre w
      /\ wd_status (run_writes (pre ++ [(a, v)]) w)
         = wd_status (run_writes pre w)
      /\ new_events (run_writes pre w) (run_writes (pre ++ [(a, v)]) w) = [])
  /\ (forall (ws : list (Z * Z)) (w : world),
      Forall (fun aw => clears_busy (WD1770 w) aw = false) ws ->
      of_one_command (transfer_calls (new_events w (run_board_writes ws w)))
      /\ (busy w = true -> new_events w (run_board_writes ws w) = [])).
Proof.
  split.
  - intros pre a v w Hc Hn Hb.
    assert (Hfi : ~ force_interrupt (a, v)) by (intros [_ H]; exact (Hn H)).
    destruct (write_while_busy a v _ Hb Hfi) as (_ & _ & Hdrop).
    rewrite run_writes_snoc. cbn [fst snd]. rewrite (Hdrop Hc).
    split; [ reflexivity | split; [ reflexivity | ] ].
    apply new_events_same. reflexivity.
  - intros ws w Hall. split.
    + destruct (board_run_one_command ws _ w eq_refl Hall) as (l & Hl & Hone).
      rewrite (new_events_app _ _ _ Hl). exact Hone.
    + intros Hb. apply new_events_same.
      apply (board_run_while_busy ws _ w eq_refl Hb Hall).
Qed.

Lemma busy_rejects_commands_witness :
  (command_write (0, 0xA0) /\ Z.shiftr (u8 0xA0) 4 <> 0xD
   /\ busy (run_writes [(0, 0x80)] power_on) = true
   /\ run_writes ([(0, 0x80)] ++ [(0, 0xA0)]) power_on
      = run_writes [(0, 0x80)] power_on)
  /\ (Forall (fun aw => clears_busy (WD1770 dfs_in_drive0) aw = false)
             [(4, 0x80); (0, 0x02); (7, 0x41); (4, 0xA0); (4, 0xF0)]
      /\ of_one_command
           (transfer_calls
              (new_events dfs_in_drive0
                 (run_board_writes
                    [(4, 0x80); (0, 0x02); (7, 0x41); (4, 0xA0); (4, 0xF0)]
                    dfs_in_drive0)))).
Proof.
  assert (H1 : command_write (0, 0xA0)) by reflexivity.
  assert (H2 : Z.shiftr (u8 0xA0) 4 <> 0xD) by (vm_compute; discriminate).
  assert (H3 : busy (run_writes [(0, 0x80)] power_on) = true)
    by (vm_compute; reflexivity).
  assert (H4 : Forall (fun aw => clears_busy (WD1770 dfs_in_drive0) aw = false)
                      [(4, 0x80); (0, 0x02); (7, 0x41); (4, 0xA0); (4, 0xF0)])
    by (repeat constructor).
  destruct busy_rejects_commands as [R1 R2].
  destruct (R1 [(0, 0x80)] 0 0xA0 power_on H1 H2 H3) as [H5 _].
  destruct (R2 _ dfs_in_drive0 H4) as [H6 _].
  split; [ exact (conj H1 (conj H2 (conj H3 H5))) | ].
  split; [ exact H4 | exact H6 ].
Defined.
